(** * The Telegram control plane of the FUD detection bot (telegram.go)

    A shallow embedding of the command handlers, the two background task
    runners, the progress monitor and the batch orchestrator of
    [TelegramService], together with the properties the specification
    states about them; and of the constructor, the polling of updates
    with the chat registry, the broadcast and the registry of
    notifications behind /detail, with the properties the code itself
    shows.

    Each flow is a function on a [World]: the store behind [dbService],
    the analysis channel, and the trace of what the flow does to the
    outside (Telegram requests, store calls, channel sends, goroutines
    started, sleeps). The output of [log.Printf] is not part of the
    trace. A [go] statement is recorded in the trace; the goroutine it
    starts is a flow of its own.

    Go strings are byte strings: [string] with one [ascii] per byte.
    Go's [int] and [int64] are [Z]; where the source computes on them the
    two's complement wrap-around is written out ([wrap64]). *)

From stdpp Require Import gmap strings list.
From Stdlib Require Import ZArith Ascii String DecimalString DecimalPos Lia.

Local Open Scope Z_scope.

(** ** Outcomes of a piece of Go code

    A call returns, panics with a value (kept as its [%v] rendering), or
    parks the goroutine for ever on a channel operation. *)

Inductive Outcome (A : Type) : Type :=
| Done (a : A)
| Panic (v : string)
| Blocked.

Arguments Done {A} a.
Arguments Panic {A} v.
Arguments Blocked {A}.

(** ** Machine integers *)

Definition MinInt64 : Z := - 2 ^ 63.
Definition MaxInt64 : Z := 2 ^ 63 - 1.

Definition wrap64 (z : Z) : Z := (z + 2 ^ 63) mod 2 ^ 64 - 2 ^ 63.

Definition is_int64 (z : Z) : Prop := MinInt64 <= z <= MaxInt64.

(** [strconv.Itoa] / the [%d] verb. *)
Definition itoa (z : Z) : string := NilEmpty.string_of_int (Z.to_int z).

(** ** The [strings] package, on byte strings *)

Module GoStrings.

(** [len(s)] *)
Definition len (s : string) : Z := Z.of_nat (String.length s).

Definition byte (c : ascii) : N := N_of_ascii c.

(** The [asciiSpace] table of package strings: tab, newline, vertical
    tab, form feed, carriage return and space. *)
Definition asciiSpace (c : ascii) : bool :=
  let n := byte c in
  ((n =? 9) || (n =? 10) || (n =? 11) || (n =? 12) || (n =? 13) || (n =? 32))%N.

(** The UTF-8 encodings of the code points of [unicode.IsSpace] above
    U+007F: U+0085 and U+00A0 on two bytes; U+1680, U+2000 to U+200A,
    U+2028, U+2029, U+202F, U+205F and U+3000 on three. *)
Definition isSpace2 (a b : N) : bool :=
  ((a =? 194) && ((b =? 133) || (b =? 160)))%N.

Definition isSpace3 (a b c : N) : bool :=
  (((a =? 225) && (b =? 154) && (c =? 128))
   || ((a =? 226) && (b =? 128)
       && (((128 <=? c) && (c <=? 138)) || (c =? 168) || (c =? 169) || (c =? 175)))
   || ((a =? 226) && (b =? 129) && (c =? 159))
   || ((a =? 227) && (b =? 128) && (c =? 128)))%N.

(** Drops the white space runes at the head of [s]. With [back] set the
    string is read from its last byte, so each encoding shows up with
    its bytes in reverse order. *)
Fixpoint dropSpaces (back : bool) (s : string) : string :=
  match s with
  | EmptyString => s
  | String a t =>
      if asciiSpace a then dropSpaces back t
      else
        match t with
        | EmptyString => s
        | String b u =>
            if (if back then isSpace2 (byte b) (byte a)
                else isSpace2 (byte a) (byte b))
            then dropSpaces back u
            else
              match u with
              | EmptyString => s
              | String c v =>
                  if (if back then isSpace3 (byte c) (byte b) (byte a)
                      else isSpace3 (byte a) (byte b) (byte c))
                  then dropSpaces back v
                  else s
              end
        end
  end.

Fixpoint revOnto (s acc : string) : string :=
  match s with
  | EmptyString => acc
  | String c t => revOnto t (String c acc)
  end.

Definition reverse (s : string) : string := revOnto s EmptyString.

(** [strings.TrimSpace]: leading, then trailing white space removed. *)
Definition TrimSpace (s : string) : string :=
  reverse (dropSpaces true (reverse (dropSpaces false s))).

(** [s[len(prefix):]] when [prefix] heads [s]. *)
Fixpoint cutPrefix (prefix s : string) : option string :=
  match prefix with
  | EmptyString => Some s
  | String a p =>
      match s with
      | EmptyString => None
      | String b t => if Ascii.eqb a b then cutPrefix p t else None
      end
  end.

Definition HasPrefix (s prefix : string) : bool :=
  match cutPrefix prefix s with Some _ => true | None => false end.

(** [strings.TrimPrefix] *)
Definition TrimPrefix (s prefix : string) : string :=
  match cutPrefix prefix s with Some t => t | None => s end.

(** [strings.Contains] *)
Fixpoint Contains (s substr : string) : bool :=
  HasPrefix s substr
  || match s with
     | EmptyString => false
     | String _ t => Contains t substr
     end.

(** [strings.Join] *)
Definition Join (elems : list string) (sep : string) : string :=
  String.concat sep elems.

(** [strings.Split] for a separator that is not empty (every call in
    telegram.go passes a one byte literal). [skip] counts the bytes of
    a separator occurrence still to be passed over. *)
Fixpoint splitFrom (sep : string) (skip : nat) (s : string) : list string :=
  match s with
  | EmptyString => [EmptyString]
  | String c t =>
      match skip with
      | S k => splitFrom sep k t
      | O =>
          if HasPrefix s sep
          then EmptyString :: splitFrom sep (String.length sep - 1) t
          else
            match splitFrom sep O t with
            | h :: r => String c h :: r
            | [] => [String c EmptyString]
            end
      end
  end.

Definition Split (s sep : string) : list string := splitFrom sep O s.

(** Width in bytes of the white space rune at the head of [s]; 0 when
    there is none. *)
Definition spaceWidth (s : string) : nat :=
  match s with
  | EmptyString => O
  | String a t =>
      if asciiSpace a then 1%nat
      else
        match t with
        | EmptyString => O
        | String b u =>
            if isSpace2 (byte a) (byte b) then 2%nat
            else
              match u with
              | EmptyString => O
              | String c _ =>
                  if isSpace3 (byte a) (byte b) (byte c) then 3%nat else O
              end
        end
  end.

Definition consField (cur : string) (fields : list string) : list string :=
  if String.eqb cur "" then fields else cur :: fields.

(** [strings.Fields]: the maximal runs of bytes between white space
    runes. The result of [fieldsFrom] is the field that starts at the
    head of [s] (empty when [s] starts with white space) and the fields
    after it; [skip] counts the bytes of a white space rune still to be
    passed over. *)
Fixpoint fieldsFrom (skip : nat) (s : string) : string * list string :=
  match s with
  | EmptyString => (EmptyString, [])
  | String c t =>
      match skip with
      | S k => fieldsFrom k t
      | O =>
          match spaceWidth s with
          | O => let (cur, fields) := fieldsFrom O t in (String c cur, fields)
          | S k =>
              let (cur, fields) := fieldsFrom k t in
              (EmptyString, consField cur fields)
          end
      end
  end.

Definition Fields (s : string) : list string :=
  let (cur, fields) := fieldsFrom O s in consField cur fields.

(** [s[:hi]], with the bounds check of the Go runtime. *)
Definition slicePrefix (s : string) (hi : Z) : Outcome string :=
  if hi <? 0 then
    Panic ("runtime error: slice bounds out of range [:" +:+ itoa hi +:+ "]")
  else if len s <? hi then
    Panic ("runtime error: slice bounds out of range [:" +:+ itoa hi
           +:+ "] with length " +:+ itoa (len s))
  else Done (String.substring 0 (Z.to_nat hi) s).

(** Number of occurrences of the byte [c]. *)
Fixpoint countByte (c : ascii) (s : string) : nat :=
  match s with
  | EmptyString => O
  | String a t => ((if Ascii.eqb a c then 1 else 0) + countByte c t)%nat
  end.

End GoStrings.

Import GoStrings.

(** ** [truncateText] *)

Definition truncateText (text : string) (maxLength : Z) : Outcome string :=
  if len text <=? maxLength then Done text
  else
    match slicePrefix text (wrap64 (maxLength - 3)) with
    | Done p => Done (p +:+ "...")
    | Panic v => Panic v
    | Blocked => Blocked
    end.

(** ** Literals and small library functions *)

(** A Go interpreted string literal: the escape [\n] stands for a line
    feed. Raw literals (back quotes) are written as they are. *)
Fixpoint lit (s : string) : string :=
  match s with
  | EmptyString => EmptyString
  | String a t =>
      match t with
      | String b u =>
          if (Ascii.eqb a "\" && Ascii.eqb b "n")%bool
          then String (ascii_of_nat 10) (lit u)
          else String a (lit t)
      | EmptyString => s
      end
  end.

Arguments lit : simpl never.

(** [hex.EncodeToString] *)
Definition hexDigit (n : N) : ascii :=
  ascii_of_N (if (n <? 10)%N then 48 + n else 87 + n)%N.

Fixpoint hexEncode (s : string) : string :=
  match s with
  | EmptyString => EmptyString
  | String c t =>
      String (hexDigit (N_of_ascii c / 16)%N)
        (String (hexDigit (N_of_ascii c mod 16)%N) (hexEncode t))
  end.

(** [time.Duration] values are nanoseconds on 64 bits; [Time.Sub]
    saturates. *)
Definition Millisecond : Z := 1000000.
Definition Second : Z := 1000 * Millisecond.
Definition Minute : Z := 60 * Second.

Definition saturate64 (z : Z) : Z := Z.max MinInt64 (Z.min MaxInt64 z).

(** ** Data model *)

(** Modelled from the spec: the constants ANALYSIS_STATUS_* are declared
    outside telegram.go; the data model of the specification gives the
    four task states. *)
Inductive AnalysisStatus : Set :=
| ANALYSIS_STATUS_PENDING
| ANALYSIS_STATUS_RUNNING
| ANALYSIS_STATUS_COMPLETED
| ANALYSIS_STATUS_FAILED.

(** Modelled from the spec: the constants ANALYSIS_STEP_* are declared
    outside telegram.go; the data model of the specification gives the
    ordered phases. *)
Inductive AnalysisStep : Set :=
| ANALYSIS_STEP_INIT
| ANALYSIS_STEP_USER_LOOKUP
| ANALYSIS_STEP_TICKER_SEARCH
| ANALYSIS_STEP_FOLLOWERS
| ANALYSIS_STEP_FOLLOWINGS
| ANALYSIS_STEP_COMMUNITY_ACTIVITY
| ANALYSIS_STEP_CLAUDE_ANALYSIS
| ANALYSIS_STEP_SAVING_RESULTS.

(** The fields of [AnalysisTaskModel] that telegram.go reads or writes.
    Times are Unix nanoseconds. *)
Record AnalysisTaskModel : Type := {
  task_ID : string;
  task_Username : string;
  task_UserID : string;
  task_Status : AnalysisStatus;
  task_CurrentStep : AnalysisStep;
  task_ProgressText : string;
  task_ErrorMessage : string;
  task_TelegramChatID : Z;
  task_MessageID : Z;
  task_StartedAt : Z
}.

Record UserModel : Type := {
  user_ID : string;
  user_Username : string;
  user_Name : string
}.

Record TweetModel : Type := {
  tweet_ID : string;
  tweet_Text : string;
  tweet_CreatedAt : Z;
  tweet_InReplyToID : string;
  tweet_UserID : string;
  tweet_SourceType : string;
  tweet_TickerMention : string
}.

(** The anonymous struct types of [twitterapi.NewMessage]. *)
Record MessageAuthor : Type := {
  author_UserName : string;
  author_Name : string;
  author_ID : string
}.

Record TweetRef : Type := {
  ref_ID : string;
  ref_Author : string;
  ref_Text : string
}.

(** [twitterapi.NewMessage], the work item of the analysis channel. A
    field the composite literal leaves out holds its zero value. *)
Record NewMessage : Type := {
  msg_TweetID : string;
  msg_ReplyTweetID : string;
  msg_Author : MessageAuthor;
  msg_Text : string;
  msg_CreatedAt : string;
  msg_ParentTweet : TweetRef;
  msg_GrandParentTweet : TweetRef;
  msg_IsManualAnalysis : bool;
  msg_ForceNotification : bool;
  msg_TaskID : string;
  msg_TelegramChatID : Z
}.

Definition status_eqb (a b : AnalysisStatus) : bool :=
  match a, b with
  | ANALYSIS_STATUS_PENDING, ANALYSIS_STATUS_PENDING
  | ANALYSIS_STATUS_RUNNING, ANALYSIS_STATUS_RUNNING
  | ANALYSIS_STATUS_COMPLETED, ANALYSIS_STATUS_COMPLETED
  | ANALYSIS_STATUS_FAILED, ANALYSIS_STATUS_FAILED => true
  | _, _ => false
  end.

(** ** The analysis channel

    [chan twitterapi.NewMessage]: a buffer of [chan_cap] slots, as seen
    by a sender when no receiver is parked on it. *)
Record Chan : Type := {
  chan_cap : nat;
  chan_buf : list NewMessage;
  chan_closed : bool
}.

Definition chan_full (c : Chan) : bool := (chan_cap c <=? List.length (chan_buf c))%nat.

Definition chan_push (m : NewMessage) (c : Chan) : Chan :=
  {| chan_cap := chan_cap c; chan_buf := chan_buf c ++ [m];
     chan_closed := chan_closed c |}.

Section Telegram.

(** Library functions left uninterpreted: Go's [float64] with the
    renderings telegram.go asks of [fmt], and the two layouts it
    passes to [Time.Format]. *)
Context {float64 : Type}.
(** [fmt.Sprintf("%.0f", p*100)] *)
Variable sprintfPercent : float64 -> string.
(** [fmt.Sprintf("%.0f", d.Seconds())] and
    [fmt.Sprintf("%.1f", d.Minutes())] for a duration [d]. *)
Variable sprintfSeconds : Z -> string.
Variable sprintfMinutes : Z -> string.
(** [t.Format(time.RFC3339)] and [t.Format("2006-01-02 15:04")] *)
Variable formatRFC3339 : Z -> string.
Variable formatMinute : Z -> string.

(** The fields of [SecondStepClaudeResponse] the cached notification
    prints. *)
Record SecondStepClaudeResponse : Type := {
  resp_IsFUDUser : bool;
  resp_FUDType : string;
  resp_FUDProbability : float64;
  resp_UserRiskLevel : string;
  resp_UserSummary : string
}.

(** *** The store behind [dbService] *)

(** Modelled from the spec: [DatabaseService] is declared outside
    telegram.go. The tables follow the Task Store and User/Content
    Store contracts of the specification: task records by task ID,
    user records and the tweet kept for analysis by username, the
    cached results by user ID with the set of user IDs whose result is
    still fresh, and the message query of /history, which yields an
    error text or the messages, newest first. *)
Record DatabaseService : Type := {
  db_tasks : gmap string AnalysisTaskModel;
  db_users : gmap string UserModel;
  db_analysis_tweets : gmap string TweetModel;
  db_fresh : gset string;
  db_cached : gmap string SecondStepClaudeResponse;
  db_messages : string -> string + list TweetModel
}.

Definition with_tasks (d : DatabaseService)
    (ts : gmap string AnalysisTaskModel) : DatabaseService :=
  {| db_tasks := ts; db_users := db_users d;
     db_analysis_tweets := db_analysis_tweets d; db_fresh := db_fresh d;
     db_cached := db_cached d; db_messages := db_messages d |}.

(** Calls on [dbService], as they appear in the trace. *)
Inductive DbRequest : Type :=
| CreateAnalysisTask (task : AnalysisTaskModel)
| GetAnalysisTask (taskID : string)
| UpdateAnalysisTaskProgress (taskID : string) (step : AnalysisStep) (text : string)
| UpdateAnalysisTask (task : AnalysisTaskModel)
| SetAnalysisTaskError (taskID : string) (message : string)
| GetUserByUsername (username : string)
| GetUserTweetForAnalysis (username : string)
| HasValidCachedAnalysis (userID : string)
| GetCachedAnalysis (userID : string)
| GetUserMessagesByUsername (username : string) (limit : Z).

(** Goroutines started with [go]: the command handlers started by
    [processUpdates], and the flows the handlers start. *)
Inductive Goroutine : Type :=
| GoHandleDetailCommand (chatID : Z) (command : string)
| GoHandleHistoryCommand (chatID : Z) (command : string)
| GoHandleExportCommand (chatID : Z) (command : string)
| GoHandleTickerHistoryCommand (chatID : Z) (command : string)
| GoHandleAnalyzeCommand (chatID : Z) (args : list string)
| GoHandleSearchCommand (chatID : Z) (args : list string)
| GoHandleImportCommand (chatID : Z) (args : list string)
| GoHandleNotifyCommand (chatID : Z) (args : list string)
| GoHandleFudListCommand (chatID : Z)
| GoHandleTasksCommand (chatID : Z)
| GoHandleTop20AnalyzeCommand (chatID : Z)
| GoHandleBatchAnalyzeCommand (chatID : Z) (args : list string)
| GoHandleHelpCommand (chatID : Z)
| GoProcessAnalysisTask (taskID : string)
| GoMonitorAnalysisProgress (taskID : string)
| GoProcessBatchAnalysisTask (taskID : string) (targetChatID : Z)
| GoSendCachedBatchNotification (username userID : string)
    (cachedResult : SecondStepClaudeResponse) (targetChatID : Z).

(** What a flow does to the world outside its own variables. *)
Inductive Event : Type :=
| SendMessageCall (chatID : Z) (text : string)
| EditMessageCall (chatID messageID : Z) (text : string)
| Db (request : DbRequest)
| ChanSend (message : NewMessage)
| Go (g : Goroutine)
| Sleep (d : Z).

(** The service and its environment: the store, the analysis channel,
    the trace of effects (oldest first), the clock, the bytes
    [rand.Read] hands out on each draw, and the answer of the Telegram
    API to each request (an error text, or the ID of the message). *)
Record World : Type := {
  dbService : DatabaseService;
  analysisChannel : Chan;
  trace : list Event;
  clock : Z;
  entropy : nat -> string;
  draws : nat;
  telegram : nat -> string + Z;
  requests : nat
}.

Definition set_db (d : DatabaseService) (w : World) : World :=
  {| dbService := d; analysisChannel := analysisChannel w;
     trace := trace w; clock := clock w; entropy := entropy w;
     draws := draws w; telegram := telegram w; requests := requests w |}.

Definition set_chan (c : Chan) (w : World) : World :=
  {| dbService := dbService w; analysisChannel := c;
     trace := trace w; clock := clock w; entropy := entropy w;
     draws := draws w; telegram := telegram w; requests := requests w |}.

Definition emit (e : Event) (w : World) : World :=
  {| dbService := dbService w; analysisChannel := analysisChannel w;
     trace := trace w ++ [e]; clock := clock w; entropy := entropy w;
     draws := draws w; telegram := telegram w; requests := requests w |}.

Definition set_clock (t : Z) (w : World) : World :=
  {| dbService := dbService w; analysisChannel := analysisChannel w;
     trace := trace w; clock := t; entropy := entropy w;
     draws := draws w; telegram := telegram w; requests := requests w |}.

Definition next_draw (w : World) : World :=
  {| dbService := dbService w; analysisChannel := analysisChannel w;
     trace := trace w; clock := clock w; entropy := entropy w;
     draws := S (draws w); telegram := telegram w; requests := requests w |}.

Definition next_request (w : World) : World :=
  {| dbService := dbService w; analysisChannel := analysisChannel w;
     trace := trace w; clock := clock w; entropy := entropy w;
     draws := draws w; telegram := telegram w; requests := S (requests w) |}.

(** *** The monad of a flow *)

Definition M (A : Type) : Type := World -> Outcome A * World.

Definition ret {A} (a : A) : M A := fun w => (Done a, w).

Definition bind {A B} (m : M A) (k : A -> M B) : M B :=
  fun w =>
    match m w with
    | (Done a, w') => k a w'
    | (Panic v, w') => (Panic v, w')
    | (Blocked, w') => (Blocked, w')
    end.

Notation "'do' x <- m ; k" := (bind m (fun x => k))
  (at level 10, x name, m at level 100, k at level 200).
Notation "'run' m ; k" := (bind m (fun _ => k))
  (at level 10, m at level 100, k at level 200).

Definition act (e : Event) : M unit := fun w => (Done tt, emit e w).

(** *** dbService *)

Definition setProgress (step : AnalysisStep) (text : string)
    (t : AnalysisTaskModel) : AnalysisTaskModel :=
  {| task_ID := task_ID t; task_Username := task_Username t;
     task_UserID := task_UserID t; task_Status := ANALYSIS_STATUS_RUNNING;
     task_CurrentStep := step; task_ProgressText := text;
     task_ErrorMessage := task_ErrorMessage t;
     task_TelegramChatID := task_TelegramChatID t;
     task_MessageID := task_MessageID t; task_StartedAt := task_StartedAt t |}.

Definition setError (message : string)
    (t : AnalysisTaskModel) : AnalysisTaskModel :=
  {| task_ID := task_ID t; task_Username := task_Username t;
     task_UserID := task_UserID t; task_Status := ANALYSIS_STATUS_FAILED;
     task_CurrentStep := task_CurrentStep t;
     task_ProgressText := task_ProgressText t;
     task_ErrorMessage := message;
     task_TelegramChatID := task_TelegramChatID t;
     task_MessageID := task_MessageID t; task_StartedAt := task_StartedAt t |}.

Definition setUserID (userID : string)
    (t : AnalysisTaskModel) : AnalysisTaskModel :=
  {| task_ID := task_ID t; task_Username := task_Username t;
     task_UserID := userID; task_Status := task_Status t;
     task_CurrentStep := task_CurrentStep t;
     task_ProgressText := task_ProgressText t;
     task_ErrorMessage := task_ErrorMessage t;
     task_TelegramChatID := task_TelegramChatID t;
     task_MessageID := task_MessageID t; task_StartedAt := task_StartedAt t |}.

(** Modelled from the spec: [create(task)] of the Task Store. The
    record is stored under its ID; the store refuses a second record
    under an ID it holds (task identities are unique), which is the
    persistence failure the caller sees. Returns [err == nil]. *)
Definition dbCreateAnalysisTask (task : AnalysisTaskModel) : M bool :=
  fun w =>
    let w := emit (Db (CreateAnalysisTask task)) w in
    let d := dbService w in
    match db_tasks d !! task_ID task with
    | Some _ => (Done false, w)
    | None =>
        (Done true, set_db (with_tasks d (<[task_ID task := task]> (db_tasks d))) w)
    end.

(** Modelled from the spec: [get(id)] of the Task Store; [None] is the
    not-found error. *)
Definition dbGetAnalysisTask (taskID : string) : M (option AnalysisTaskModel) :=
  fun w =>
    let w := emit (Db (GetAnalysisTask taskID)) w in
    (Done (db_tasks (dbService w) !! taskID), w).

(** Modelled from the spec: [updateProgress(id, step, text)]; the
    dispatcher's success path "advances the task to running" through
    this call, so it sets the status with the step and the text. *)
Definition dbUpdateAnalysisTaskProgress (taskID : string)
    (step : AnalysisStep) (text : string) : M unit :=
  fun w =>
    let w := emit (Db (UpdateAnalysisTaskProgress taskID step text)) w in
    let d := dbService w in
    (Done tt, set_db (with_tasks d (alter (setProgress step text) taskID (db_tasks d))) w).

(** Modelled from the spec: [update(task)] rewrites the record stored
    under the task's ID. *)
Definition dbUpdateAnalysisTask (task : AnalysisTaskModel) : M unit :=
  fun w =>
    let w := emit (Db (UpdateAnalysisTask task)) w in
    let d := dbService w in
    (Done tt, set_db (with_tasks d (alter (fun _ => task) (task_ID task) (db_tasks d))) w).

(** Modelled from the spec: [setError(id, message)] moves the task to
    [failed] and records the message. *)
Definition dbSetAnalysisTaskError (taskID message : string) : M unit :=
  fun w =>
    let w := emit (Db (SetAnalysisTaskError taskID message)) w in
    let d := dbService w in
    (Done tt, set_db (with_tasks d (alter (setError message) taskID (db_tasks d))) w).

(** Modelled from the spec: [resolveUser(username)]. *)
Definition dbGetUserByUsername (username : string) : M (option UserModel) :=
  fun w =>
    let w := emit (Db (GetUserByUsername username)) w in
    (Done (db_users (dbService w) !! username), w).

(** Modelled from the spec: [latestContentFor(username)]. *)
Definition dbGetUserTweetForAnalysis (username : string) : M (option TweetModel) :=
  fun w =>
    let w := emit (Db (GetUserTweetForAnalysis username)) w in
    (Done (db_analysis_tweets (dbService w) !! username), w).

(** Modelled from the spec: [hasFreshCachedResult(userID)]. *)
Definition dbHasValidCachedAnalysis (userID : string) : M bool :=
  fun w =>
    let w := emit (Db (HasValidCachedAnalysis userID)) w in
    (Done (bool_decide (userID ∈ db_fresh (dbService w))), w).

(** Modelled from the spec: [getCachedResult(userID)]. *)
Definition dbGetCachedAnalysis (userID : string)
    : M (option SecondStepClaudeResponse) :=
  fun w =>
    let w := emit (Db (GetCachedAnalysis userID)) w in
    (Done (db_cached (dbService w) !! userID), w).

(** Modelled from the spec: the message query behind /history, cut to
    [limit] messages. *)
Definition dbGetUserMessagesByUsername (username : string) (limit : Z)
    : M (string + list TweetModel) :=
  fun w =>
    let w := emit (Db (GetUserMessagesByUsername username limit)) w in
    (Done match db_messages (dbService w) username with
          | inl e => inl e
          | inr l => inr (take (Z.to_nat limit) l)
          end, w).

(** *** Time, randomness, transport, channel *)

Definition timeNow : M Z := fun w => (Done (clock w), w).

Definition timeSleep (d : Z) : M unit :=
  fun w => (Done tt, set_clock (clock w + d) (emit (Sleep d) w)).

(** [generateNotificationID]: eight bytes from [rand.Read], in hex. The
    buffer starts zeroed and the error of [rand.Read] is dropped, so a
    short draw leaves zero bytes behind. *)
Definition eightBytes (s : string) : string :=
  String.substring 0 8 (s +:+ String.string_of_list_ascii (repeat zero 8)).

Definition generateNotificationID : M string :=
  fun w => (Done (hexEncode (eightBytes (entropy w (draws w)))), next_draw w).

(** [SendMessage]: one sendMessage request; the result is the error,
    if any. *)
Definition SendMessage (chatID : Z) (text : string) : M (option string) :=
  fun w =>
    let reply := telegram w (requests w) in
    let w := next_request (emit (SendMessageCall chatID text) w) in
    (Done match reply with inl e => Some e | inr _ => None end, w).

(** [SendMessageWithID]: the same request, keeping the message ID of
    the reply. *)
Definition SendMessageWithID (chatID : Z) (text : string) : M (string + Z) :=
  fun w =>
    let reply := telegram w (requests w) in
    (Done reply, next_request (emit (SendMessageCall chatID text) w)).

(** [EditMessage]: one editMessageText request. *)
Definition EditMessage (chatID messageID : Z) (text : string) : M (option string) :=
  fun w =>
    let reply := telegram w (requests w) in
    let w := next_request (emit (EditMessageCall chatID messageID text) w) in
    (Done match reply with inl e => Some e | inr _ => None end, w).

(** [go f(...)] *)
Definition go (g : Goroutine) : M unit := act (Go g).

(** [select { case t.analysisChannel <- m: ... default: ... }]: the
    send goes through when the buffer has room and is given up
    otherwise; it never parks. The result tells which case ran. *)
Definition trySend (m : NewMessage) : M bool :=
  fun w =>
    let c := analysisChannel w in
    if chan_closed c then (Panic "send on closed channel", w)
    else if chan_full c then (Done false, w)
    else (Done true, emit (ChanSend m) (set_chan (chan_push m c) w)).

(** [t.analysisChannel <- m]: the goroutine parks until the buffer has
    room. *)
Definition send (m : NewMessage) : M unit :=
  fun w =>
    let c := analysisChannel w in
    if chan_closed c then (Panic "send on closed channel", w)
    else if chan_full c then (Blocked, w)
    else (Done tt, emit (ChanSend m) (set_chan (chan_push m c) w)).

Definition liftO {A} (o : Outcome A) : M A := fun w => (o, w).

(** *** The command switch of [processUpdates]

    What [processUpdates] starts for the text of one update; [None] when
    the text is empty or holds no field. *)
Definition dispatchCommand (chatID : Z) (messageText : string) : option Goroutine :=
  if String.eqb messageText "" then None
  else
    let text := TrimSpace messageText in
    (* Parse command and arguments *)
    match Fields text with
    | [] => None
    | command :: args =>
        Some
          (if HasPrefix command "/detail_" then GoHandleDetailCommand chatID text
           else if HasPrefix command "/history_" then GoHandleHistoryCommand chatID text
           else if HasPrefix command "/export_" then GoHandleExportCommand chatID text
           else if HasPrefix command "/ticker_history_" then
             GoHandleTickerHistoryCommand chatID text
           else if String.eqb command "/analyze" then GoHandleAnalyzeCommand chatID args
           else if String.eqb command "/search" then GoHandleSearchCommand chatID args
           else if String.eqb command "/import" then GoHandleImportCommand chatID args
           else if String.eqb command "/notify" then GoHandleNotifyCommand chatID args
           else if String.eqb command "/fudlist" then GoHandleFudListCommand chatID
           else if String.eqb command "/tasks" then GoHandleTasksCommand chatID
           else if String.eqb command "/top20_analyze" then
             GoHandleTop20AnalyzeCommand chatID
           else if String.eqb command "/batch_analyze" then
             GoHandleBatchAnalyzeCommand chatID args
           else if (String.eqb command "/help" || String.eqb command "/start")%bool then
             GoHandleHelpCommand chatID
           else GoHandleHelpCommand chatID)
    end.

(** *** /history_<username> *)

(** The loop of [handleHistoryCommand] over the messages, writing to
    the [strings.Builder]; [i] is the loop index. *)
Fixpoint historyEntries (i : Z) (tweets : list TweetModel)
    (historyMessage : string) : Outcome string :=
  match tweets with
  | [] => Done historyMessage
  | tweet :: rest =>
      match truncateText (tweet_Text tweet) 200 with
      | Done text =>
          let b := historyMessage
            +:+ lit "<b>" +:+ itoa (i + 1) +:+ lit ".</b> "
            +:+ formatMinute (tweet_CreatedAt tweet) +:+ lit "\n"
            +:+ lit "📝 <i>" +:+ text +:+ lit "</i>\n" in
          let b := if String.eqb (tweet_InReplyToID tweet) ""
                   then b else b +:+ lit "↳ <i>Reply to tweet</i>\n" in
          historyEntries (i + 1) rest
            (b +:+ lit "🆔 <code>" +:+ tweet_ID tweet +:+ lit "</code>\n\n")
      | Panic v => Panic v
      | Blocked => Blocked
      end
  end.

Definition historyInvalidFormat : string :=
  lit "❌ Invalid command format. Use /history_<username>".

Definition handleHistoryCommand (chatID : Z) (command : string) : M unit :=
  match Split command "_" with
  | [_; username] =>
      do r <- dbGetUserMessagesByUsername username 20;
      match r with
      | inl err =>
          run SendMessage chatID
            (lit "❌ Error retrieving messages for @" +:+ username
             +:+ lit ": " +:+ err);
          ret tt
      | inr [] =>
          run SendMessage chatID
            (lit "📭 No messages found for @" +:+ username);
          ret tt
      | inr tweets =>
          do body <- liftO (historyEntries 0 tweets
            (lit "📝 <b>Message History for @" +:+ username
             +:+ lit "</b> (Last 20)\n\n"));
          run SendMessage chatID
            (body +:+ lit "📄 For full message history: /export_" +:+ username);
          ret tt
      end
  | _ =>
      run SendMessage chatID historyInvalidFormat;
      ret tt
  end.

(** *** /help *)

(** The raw literal of [handleHelpCommand] up to its [%d] verb, given
    as the interpreted literal with the same bytes. *)
Definition helpMessage : string :=
  lit ("🤖 <b>FUD Detection Bot - Available Commands</b>\n" +:+
       "\n" +:+
       "🔍 <b>Search & Analysis Commands:</b>\n" +:+
       "• <code>/search [query]</code> - Search users by username/name\n" +:+
       "  Example: /search john or /search (shows top 10 active users)\n" +:+
       "\n" +:+
       "• <code>/analyze &lt;username&gt;</code> - Run manual FUD analysis\n" +:+
       "  Example: /analyze suspicious_user\n" +:+
       "\n" +:+
       "📊 <b>User Investigation Commands:</b>\n" +:+
       "• <code>/history_&lt;username&gt;</code> - View recent messages (20 latest)\n" +:+
       "  Example: /history_john_doe\n" +:+
       "\n" +:+
       "• <code>/ticker_history_&lt;username&gt;</code> - View ticker-related messages\n" +:+
       "  Example: /ticker_history_john_doe\n" +:+
       "\n" +:+
       "• <code>/export_&lt;username&gt;</code> - Export full message history as file\n" +:+
       "  Example: /export_john_doe\n" +:+
       "\n" +:+
       "• <code>/detail_&lt;id&gt;</code> - View detailed FUD analysis\n" +:+
       "  (ID provided in alert notifications)\n" +:+
       "\n" +:+
       "📁 <b>Data Management Commands:</b>\n" +:+
       "• <code>/import &lt;csv_file&gt;</code> - Import tweets from CSV file\n" +:+
       "  Example: /import community_tweets.csv\n" +:+
       "\n" +:+
       "🔔 <b>Notification Management:</b>\n" +:+
       "• <code>/notify</code> - Show notification users list\n" +:+
       "• <code>/notify &lt;username&gt;</code> - Add user to notification list\n" +:+
       "  Example: /notify suspicious_user\n" +:+
       "\n" +:+
       "📊 <b>Analysis Management:</b>\n" +:+
       "• <code>/fudlist</code> - Show all detected FUD users\n" +:+
       "• <code>/tasks</code> - Show running analysis tasks\n" +:+
       "• <code>/batch_analyze &lt;user1,user2,user3&gt;</code> - Analyze multiple users\n" +:+
       "• <code>/top20_analyze</code> - Analyze top 20 most active users (admin only)\n" +:+
       "\n" +:+
       "❓ <b>Help Commands:</b>\n" +:+
       "• <code>/help</code> or <code>/start</code> - Show this help message\n" +:+
       "\n" +:+
       "💡 <b>Usage Tips:</b>\n" +:+
       "• Commands with underscore (_) need exact format\n" +:+
       "• Commands with space accept parameters\n" +:+
       "• All commands are case-sensitive\n" +:+
       "• Bot responds to FUD alerts automatically\n" +:+
       "\n" +:+
       "🔔 <b>Alert Types:</b>\n" +:+
       "• 🚨🔥 Critical - Immediate action required\n" +:+
       "• 🚨 High - Monitor closely  \n" +:+
       "• ⚠️ Medium - Standard monitoring\n" +:+
       "• ℹ️ Low - Log and watch\n" +:+
       "\n" +:+
       "👤 <b>Your Chat ID:</b> <code>").

Definition handleHelpCommand (chatID : Z) : M unit :=
  run SendMessage chatID (helpMessage +:+ itoa chatID +:+ "</code>");
  ret tt.

(** *** /analyze *)

Definition analyzeUsage : string :=
  lit "❌ Invalid command format. Use /analyze <username>\nExample: /analyze suspicious_user".

Definition errTaskExists : string := "analysis task already exists".

Definition handleAnalyzeCommand (chatID : Z) (args : list string) : M unit :=
  match args with
  | [] => run SendMessage chatID analyzeUsage; ret tt
  | arg0 :: _ =>
      if String.eqb (TrimSpace arg0) "" then
        run SendMessage chatID analyzeUsage; ret tt
      else
        let username := TrimSpace arg0 in
        do taskID <- generateNotificationID;
        let initialText :=
          lit "🔄 <b>Starting Analysis for @" +:+ username
          +:+ lit "</b>\n\n📋 <b>Status:</b> Initializing...\n🆔 <b>Task ID:</b> <code>"
          +:+ taskID
          +:+ lit "</code>\n\n⏳ Please wait, this may take a few minutes." in
        do sent <- SendMessageWithID chatID initialText;
        match sent with
        | inl err =>
            run SendMessage chatID (lit "❌ Failed to start analysis: " +:+ err);
            ret tt
        | inr messageID =>
            do now <- timeNow;
            let task :=
              {| task_ID := taskID; task_Username := username;
                 task_UserID := ""; task_Status := ANALYSIS_STATUS_PENDING;
                 task_CurrentStep := ANALYSIS_STEP_INIT;
                 task_ProgressText := "Initializing analysis...";
                 task_ErrorMessage := "";
                 task_TelegramChatID := chatID; task_MessageID := messageID;
                 task_StartedAt := now |} in
            do created <- dbCreateAnalysisTask task;
            if created then
              run go (GoProcessAnalysisTask taskID);
              go (GoMonitorAnalysisProgress taskID)
            else
              run EditMessage chatID messageID
                (lit "❌ <b>Analysis Failed</b>\n\nFailed to create analysis task: "
                 +:+ errTaskExists);
              ret tt
        end
  end.

(** *** The task runners *)

Definition emptyRef : TweetRef := {| ref_ID := ""; ref_Author := ""; ref_Text := "" |}.

(** [defer func() { if r := recover(); r != nil { ... } }()] of both
    runners: a panic of the body ends the runner normally, after the
    task was given the error "Internal error: <panic value>". *)
Definition recovering (taskID : string) (body : M unit) : M unit :=
  fun w =>
    match body w with
    | (Panic r, w') =>
        dbSetAnalysisTaskError taskID (lit "Internal error: " +:+ r) w'
    | other => other
    end.

Definition processAnalysisTaskBody (taskID : string) : M unit :=
  do found <- dbGetAnalysisTask taskID;
  match found with
  | None => ret tt
  | Some task =>
      let username := task_Username task in
      (* Step 1: User lookup *)
      run dbUpdateAnalysisTaskProgress taskID ANALYSIS_STEP_USER_LOOKUP
            "Looking up user information...";
      do user <- dbGetUserByUsername username;
      do userID <-
        match user with
        | None => ret ("unknown_" +:+ username)
        | Some user =>
            run dbUpdateAnalysisTask (setUserID (user_ID user) task);
            ret (user_ID user)
        end;
      (* Step 2: Get user tweet for analysis context *)
      run dbUpdateAnalysisTaskProgress taskID ANALYSIS_STEP_TICKER_SEARCH
            "Searching for user's ticker mentions...";
      do tweet <- dbGetUserTweetForAnalysis username;
      do newMessage <-
        match tweet with
        | None =>
            do now <- timeNow;
            ret {| msg_TweetID := "manual_analysis_" +:+ username;
                   msg_ReplyTweetID := "";
                   msg_Author := {| author_UserName := username;
                                    author_Name := username;
                                    author_ID := userID |};
                   msg_Text := "Manual analysis request - no recent tweets found";
                   msg_CreatedAt := formatRFC3339 now;
                   msg_ParentTweet :=
                     {| ref_ID := "placeholder_parent"; ref_Author := "system";
                        ref_Text := "No parent tweet available - manual analysis" |};
                   msg_GrandParentTweet := emptyRef;
                   msg_IsManualAnalysis := true;
                   msg_ForceNotification := true;
                   msg_TaskID := taskID;
                   msg_TelegramChatID := 0 |}
        | Some tweet =>
            ret {| msg_TweetID := tweet_ID tweet;
                   msg_ReplyTweetID := tweet_InReplyToID tweet;
                   msg_Author := {| author_UserName := username;
                                    author_Name := username;
                                    author_ID := tweet_UserID tweet |};
                   msg_Text := tweet_Text tweet;
                   msg_CreatedAt := formatRFC3339 (tweet_CreatedAt tweet);
                   msg_ParentTweet :=
                     {| ref_ID := "manual_parent"; ref_Author := "system";
                        ref_Text := "Manual analysis - limited context available" |};
                   msg_GrandParentTweet := emptyRef;
                   msg_IsManualAnalysis := true;
                   msg_ForceNotification := true;
                   msg_TaskID := taskID;
                   msg_TelegramChatID := 0 |}
        end;
      (* Step 3: Send to analysis channel *)
      run dbUpdateAnalysisTaskProgress taskID ANALYSIS_STEP_CLAUDE_ANALYSIS
            "Sending for FUD analysis...";
      do sent <- trySend newMessage;
      if sent then
        dbUpdateAnalysisTaskProgress taskID ANALYSIS_STEP_CLAUDE_ANALYSIS
          "Processing with neural network..."
      else
        dbSetAnalysisTaskError taskID
          "Analysis channel is full, please try again later"
  end.

Definition processAnalysisTask (taskID : string) : M unit :=
  recovering taskID (processAnalysisTaskBody taskID).

Definition processBatchAnalysisTaskBody (taskID : string) (targetChatID : Z)
    : M unit :=
  do found <- dbGetAnalysisTask taskID;
  match found with
  | None => ret tt
  | Some task =>
      let username := task_Username task in
      (* Step 1: User lookup *)
      run dbUpdateAnalysisTaskProgress taskID ANALYSIS_STEP_USER_LOOKUP
            "Looking up user information...";
      do user <- dbGetUserByUsername username;
      do userID <-
        match user with
        | None => ret ("unknown_" +:+ username)
        | Some user =>
            run dbUpdateAnalysisTask (setUserID (user_ID user) task);
            ret (user_ID user)
        end;
      (* Step 2: Get user tweet for analysis context *)
      run dbUpdateAnalysisTaskProgress taskID ANALYSIS_STEP_TICKER_SEARCH
            "Searching for user's ticker mentions...";
      do tweet <- dbGetUserTweetForAnalysis username;
      do newMessage <-
        match tweet with
        | None =>
            do now <- timeNow;
            ret {| msg_TweetID := "batch_analysis_" +:+ username;
                   msg_ReplyTweetID := "";
                   msg_Author := {| author_UserName := username;
                                    author_Name := username;
                                    author_ID := userID |};
                   msg_Text := "Batch analysis request - no recent tweets found";
                   msg_CreatedAt := formatRFC3339 now;
                   msg_ParentTweet :=
                     {| ref_ID := "placeholder_parent"; ref_Author := "system";
                        ref_Text := "No parent tweet available - batch analysis" |};
                   msg_GrandParentTweet := emptyRef;
                   msg_IsManualAnalysis := true;
                   msg_ForceNotification := true;
                   msg_TaskID := taskID;
                   msg_TelegramChatID := targetChatID |}
        | Some tweet =>
            ret {| msg_TweetID := tweet_ID tweet;
                   msg_ReplyTweetID := tweet_InReplyToID tweet;
                   msg_Author := {| author_UserName := username;
                                    author_Name := username;
                                    author_ID := tweet_UserID tweet |};
                   msg_Text := tweet_Text tweet;
                   msg_CreatedAt := formatRFC3339 (tweet_CreatedAt tweet);
                   msg_ParentTweet :=
                     {| ref_ID := "batch_parent"; ref_Author := "system";
                        ref_Text := "Batch analysis - limited context available" |};
                   msg_GrandParentTweet := emptyRef;
                   msg_IsManualAnalysis := true;
                   msg_ForceNotification := true;
                   msg_TaskID := taskID;
                   msg_TelegramChatID := targetChatID |}
        end;
      (* Send to analysis channel for processing *)
      run dbUpdateAnalysisTaskProgress taskID ANALYSIS_STEP_CLAUDE_ANALYSIS
            "Starting AI analysis...";
      send newMessage
  end.

Definition processBatchAnalysisTask (taskID : string) (targetChatID : Z)
    : M unit :=
  recovering taskID (processBatchAnalysisTaskBody taskID targetChatID).

(** *** The progress monitor *)

(** [formatAnalysisProgress]; [now] is the clock [time.Since] reads. *)
Definition formatAnalysisProgress (now : Z) (task : AnalysisTaskModel) : string :=
  if status_eqb (task_Status task) ANALYSIS_STATUS_FAILED then
    lit "❌ <b>Analysis Failed for @"
      +:+ task_Username task
      +:+ lit "</b>\n\n⚠️ <b>Error:</b> "
      +:+ task_ErrorMessage task
      +:+ lit "\n🆔 <b>Task ID:</b> <code>"
      +:+ task_ID task
      +:+ lit "</code>\n\n🔄 You can try running the analysis again."
  else if status_eqb (task_Status task) ANALYSIS_STATUS_COMPLETED then
    lit "✅ <b>Analysis Completed for @"
      +:+ task_Username task
      +:+ lit "</b>\n\n📋 <b>Status:</b> Finished successfully\n🔍 <b>Results:</b> Check FUD alerts for analysis results\n🆔 <b>Task ID:</b> <code>"
      +:+ task_ID task
      +:+ lit "</code>\n\n✅ Analysis has been completed and results sent to notification system."
  else
    (* Running status with progress steps; the switch overwrites the
       initial stepEmoji for each of the eight steps *)
    let stepText := task_ProgressText task in
    let stepEmoji :=
      match task_CurrentStep task with
      | ANALYSIS_STEP_INIT => lit "⚙️"
      | ANALYSIS_STEP_USER_LOOKUP => lit "🔍"
      | ANALYSIS_STEP_TICKER_SEARCH => lit "📊"
      | ANALYSIS_STEP_FOLLOWERS => lit "👥"
      | ANALYSIS_STEP_FOLLOWINGS => lit "👤"
      | ANALYSIS_STEP_COMMUNITY_ACTIVITY => lit "🏠"
      | ANALYSIS_STEP_CLAUDE_ANALYSIS => lit "🤖"
      | ANALYSIS_STEP_SAVING_RESULTS => lit "💾"
      end in
    (* Calculate elapsed time *)
    let elapsed := saturate64 (now - task_StartedAt task) in
    let elapsedStr :=
      if Minute <=? elapsed then sprintfMinutes elapsed +:+ "m"
      else sprintfSeconds elapsed +:+ "s" in
    lit "🔄 <b>Analyzing @"
      +:+ task_Username task
      +:+ lit "</b>\n\n"
      +:+ stepEmoji
      +:+ lit " <b>Current Step:</b> "
      +:+ stepText
      +:+ lit "\n⏱️ <b>Running Time:</b> "
      +:+ elapsedStr
      +:+ lit "\n🆔 <b>Task ID:</b> <code>"
      +:+ task_ID task
      +:+ lit "</code>\n\n⏳ Please wait, analysis in progress...".

Definition isTerminal (s : AnalysisStatus) : bool :=
  status_eqb s ANALYSIS_STATUS_COMPLETED || status_eqb s ANALYSIS_STATUS_FAILED.

(** The body of [case <-ticker.C:]. The result is [false] when the
    body executes [return], [true] when the loop goes on. *)
Definition monitorTick (taskID : string) : M bool :=
  do found <- dbGetAnalysisTask taskID;
  match found with
  | None => ret false
  | Some task =>
      (* Update progress message *)
      do now <- timeNow;
      let progressText := formatAnalysisProgress now task in
      do err <- EditMessage (task_TelegramChatID task) (task_MessageID task)
                  progressText;
      (* Stop monitoring if task is completed or failed *)
      if isTerminal (task_Status task) then ret false else ret true
  end.

Inductive MonitorState : Set := Polling | Returned.

(** [monitorAnalysisProgress], followed for [ticks] firings of the
    ticker. Before firing number [n] the rest of the system (the
    worker, the other flows, the clock) takes the world from [w] to
    [between n w]. *)
Fixpoint monitorLoop (between : nat -> World -> World) (taskID : string)
    (ticks n : nat) (w : World) : Outcome MonitorState * World :=
  match ticks with
  | O => (Done Polling, w)
  | S ticks' =>
      match monitorTick taskID (between n w) with
      | (Done true, w') => monitorLoop between taskID ticks' (S n) w'
      | (Done false, w') => (Done Returned, w')
      | (Panic v, w') => (Panic v, w')
      | (Blocked, w') => (Blocked, w')
      end
  end.

Definition monitorAnalysisProgress (between : nat -> World -> World)
    (taskID : string) (ticks : nat) (w : World) : Outcome MonitorState * World :=
  monitorLoop between taskID ticks O w.

(** *** /batch_analyze *)

Definition batchUsage : string :=
  lit "❌ Invalid command format. Use /batch_analyze <user1,user2,user3>\n\n📝 <b>Examples:</b>\n• <code>/batch_analyze john,mary,bob</code>\n• <code>/batch_analyze user1, user2, user3</code>\n\n💡 Separate usernames with commas".

(** The cleaning loop: [valid] and [invalid] are the two slices the
    loop appends to. *)
Fixpoint cleanUsernames (usernames valid invalid : list string)
    : list string * list string :=
  match usernames with
  | [] => (valid, invalid)
  | username :: rest =>
      let username := TrimSpace username in
      let username := TrimPrefix username "@" in
      if String.eqb username "" then cleanUsernames rest valid invalid
      else if (50 <? len username) || Contains username " " then
        cleanUsernames rest valid (invalid ++ [username])
      else cleanUsernames rest (valid ++ [username]) invalid
  end.

Definition parseUsernames (args : list string) : list string * list string :=
  let userListStr := Join args " " in
  let usernames := Split userListStr "," in
  cleanUsernames usernames [] [].

Fixpoint numbered (i : Z) (names : list string) (b : string) : string :=
  match names with
  | [] => b
  | username :: rest =>
      numbered (i + 1) rest
        (b +:+ itoa (i + 1) +:+ lit ". @" +:+ username +:+ lit "\n")
  end.

Fixpoint bulleted (names : list string) (b : string) : string :=
  match names with
  | [] => b
  | username :: rest =>
      bulleted rest (b +:+ lit "• " +:+ username +:+ lit "\n")
  end.

Definition batchConfirmation (validUsernames invalidUsernames : list string)
    : string :=
  let b := lit "🔄 <b>Starting Batch Analysis</b>\n\n📊 <b>Users to analyze ("
    +:+ itoa (Z.of_nat (List.length validUsernames))
    +:+ lit "):</b>\n" in
  let b := numbered 0 validUsernames b in
  let b :=
    match invalidUsernames with
    | [] => b
    | _ => bulleted invalidUsernames (b +:+ lit "\n⚠️ <b>Skipped invalid usernames ("
        +:+ itoa (Z.of_nat (List.length invalidUsernames))
        +:+ lit "):</b>\n")
    end in
  b +:+ lit "\n⏳ Analysis will start shortly...\n💡 Results will be sent as notifications to this chat only".

Definition batchTooMany (n : Z) : string :=
  lit "❌ Too many users requested ("
  +:+ itoa n
  +:+ lit "). Maximum limit is 20 users per batch.".

Definition batchSummary (analysisCount skippedCount total : Z) : string :=
  lit "🚀 <b>Batch Analysis Started</b>\n\n📊 <b>Statistics:</b>\n• ✅ Started: "
  +:+ itoa analysisCount
  +:+ lit " analyses\n• ⏭️ Skipped: "
  +:+ itoa skippedCount
  +:+ lit " (cached)\n• 📋 Total: "
  +:+ itoa total
  +:+ lit " users\n\n🔔 Results will be sent to this chat as they complete\n🔍 Use /tasks to monitor progress".

(** The launch loop over [validUsernames], with its two counters. *)
Fixpoint batchLaunch (chatID : Z) (validUsernames : list string)
    (analysisCount skippedCount : Z) : M (Z * Z) :=
  match validUsernames with
  | [] => ret (analysisCount, skippedCount)
  | username :: rest =>
      (* Check if user already has recent cached analysis *)
      do user <- dbGetUserByUsername username;
      do skip <-
        match user with
        | Some u =>
            do fresh <- dbHasValidCachedAnalysis (user_ID u);
            if fresh then
              (* Get cached result and send notification immediately *)
              do cachedResult <- dbGetCachedAnalysis (user_ID u);
              run match cachedResult with
                  | Some r =>
                      go (GoSendCachedBatchNotification username (user_ID u) r chatID)
                  | None => ret tt
                  end;
              ret true
            else ret false
        | None => ret false
        end;
      if skip then batchLaunch chatID rest analysisCount (skippedCount + 1)
      else
        (* Generate task ID for tracking *)
        do taskID <- generateNotificationID;
        do now <- timeNow;
        let task :=
          {| task_ID := taskID; task_Username := username;
             task_UserID := match user with Some u => user_ID u | None => "" end;
             task_Status := ANALYSIS_STATUS_PENDING;
             task_CurrentStep := ANALYSIS_STEP_INIT;
             task_ProgressText := "Queued for batch analysis...";
             task_ErrorMessage := "";
             task_TelegramChatID := chatID; task_MessageID := 0;
             task_StartedAt := now |} in
        do created <- dbCreateAnalysisTask task;
        if created then
          (* Start analysis in background *)
          run go (GoProcessBatchAnalysisTask taskID chatID);
          (* Small delay between launches *)
          run timeSleep (150 * Millisecond);
          batchLaunch chatID rest (analysisCount + 1) skippedCount
        else batchLaunch chatID rest analysisCount skippedCount
  end.

Definition handleBatchAnalyzeCommand (chatID : Z) (args : list string) : M unit :=
  match args with
  | [] => run SendMessage chatID batchUsage; ret tt
  | arg0 :: _ =>
      if String.eqb (TrimSpace arg0) "" then
        run SendMessage chatID batchUsage; ret tt
      else
        let (validUsernames, invalidUsernames) := parseUsernames args in
        if (List.length validUsernames =? 0)%nat then
          run SendMessage chatID
            (lit "❌ No valid usernames provided. Please check your input format.");
          ret tt
        else if (20 <? List.length validUsernames)%nat then
          run SendMessage chatID
            (batchTooMany (Z.of_nat (List.length validUsernames)));
          ret tt
        else
          (* Send initial confirmation *)
          run SendMessage chatID
            (batchConfirmation validUsernames invalidUsernames);
          (* Start analysis for each user *)
          do counts <- batchLaunch chatID validUsernames 0 0;
          (* Send summary *)
          run SendMessage chatID
            (batchSummary (fst counts) (snd counts)
               (Z.of_nat (List.length validUsernames)));
          ret tt
  end.

(** The message [sendCachedBatchNotification] formats before it
    sends. *)
Definition cachedBatchMessage (username : string)
    (cachedResult : SecondStepClaudeResponse) : string :=
  let alertType :=
    if resp_IsFUDUser cachedResult then resp_FUDType cachedResult
    else "clean_user" in
  let severityEmoji :=
    if resp_IsFUDUser cachedResult then
      if String.eqb (resp_UserRiskLevel cachedResult) "critical" then lit "🚨🔥"
      else if String.eqb (resp_UserRiskLevel cachedResult) "high" then lit "🚨"
      else if String.eqb (resp_UserRiskLevel cachedResult) "medium" then lit "⚠️"
      else lit "ℹ️"
    else lit "✅" in
  severityEmoji
  +:+ lit " <b>Batch Analysis Result (Cached)</b>\n\n👤 <b>User:</b> @"
  +:+ username
  +:+ lit "\n📊 <b>Status:</b> "
  +:+ (if resp_IsFUDUser cachedResult then "FUD User Detected" else "Clean User")
  +:+ lit "\n🎯 <b>Type:</b> "
  +:+ alertType
  +:+ lit "\n📈 <b>Confidence:</b> "
  +:+ sprintfPercent (resp_FUDProbability cachedResult)
  +:+ lit "%\n👥 <b>Profile:</b> "
  +:+ resp_UserSummary cachedResult
  +:+ lit "\n\n💾 <b>Source:</b> Cached analysis (< 24h)\n🔍 <b>Commands:</b> /history_"
  +:+ username
  +:+ lit " | /analyze "
  +:+ username.

(** [sendCachedBatchNotification] *)
Definition sendCachedBatchNotification (username userID : string)
    (cachedResult : SecondStepClaudeResponse) (targetChatID : Z) : M unit :=
  let message := cachedBatchMessage username cachedResult in
  do err <- SendMessage targetChatID message;
  ret tt.


(** *** [strconv.ParseInt(s, 10, 64)] *)

(** An optional sign, then decimal digits, at least one of them; the
    value has to fit 64 bits. [None] stands for [err != nil]. *)
Definition ParseInt (s : string) : option Z :=
  match s with
  | EmptyString => None
  | String c t =>
      let neg := Ascii.eqb c "-" in
      let digits := if (Ascii.eqb c "+" || Ascii.eqb c "-")%bool then t else s in
      match digits with
      | EmptyString => None
      | _ =>
          match NilEmpty.uint_of_string digits with
          | None => None
          | Some d =>
              let un := Z.of_uint d in
              if neg then (if 2 ^ 63 <? un then None else Some (- un))
              else (if 2 ^ 63 <=? un then None else Some un)
          end
      end
  end.

(** *** The service value *)

(** [FUDAlertNotification] and the two renderings of the formatter are
    declared outside telegram.go and stay uninterpreted, as does the
    error of [url.Parse], if any. *)
Context {FUDAlertNotification : Type}.
Variable FormatForTelegramWithDetail : FUDAlertNotification -> string -> string.
Variable FormatDetailedView : FUDAlertNotification -> string.
Variable urlParse : string -> option string.

(** The fields of [TelegramUpdate] that telegram.go reads. *)
Record TelegramUpdate : Type := {
  upd_UpdateID : Z;
  upd_FromFirstName : string;
  upd_FromLastName : string;
  upd_FromUsername : string;
  upd_ChatID : Z;
  upd_Text : string
}.

(** The fields of [TelegramService] that hold state of its own: the
    chat registry, the offset of the next poll, the flag of the polling
    loop, the notifications kept for /detail, and the ticker. *)
Record TelegramService : Type := {
  chatIDs : gmap Z bool;
  lastOffset : Z;
  isRunning : bool;
  notifications : gmap string FUDAlertNotification;
  ticker : string
}.

Definition set_chatIDs (m : gmap Z bool) (t : TelegramService) : TelegramService :=
  {| chatIDs := m; lastOffset := lastOffset t; isRunning := isRunning t;
     notifications := notifications t; ticker := ticker t |}.

Definition set_lastOffset (o : Z) (t : TelegramService) : TelegramService :=
  {| chatIDs := chatIDs t; lastOffset := o; isRunning := isRunning t;
     notifications := notifications t; ticker := ticker t |}.

Definition set_notifications (m : gmap string FUDAlertNotification)
    (t : TelegramService) : TelegramService :=
  {| chatIDs := chatIDs t; lastOffset := lastOffset t; isRunning := isRunning t;
     notifications := m; ticker := ticker t |}.

(** [t.chatIDs[chatID]]: a key the map does not hold reads as [false]. *)
Definition chatRegistered (t : TelegramService) (chatID : Z) : bool :=
  default false (chatIDs t !! chatID).

(** *** [NewTelegramService] *)

(** The loop over the comma separated chat IDs. *)
Fixpoint addInitialChatIDs (chatIDStrings : list string) (ids : gmap Z bool)
    : gmap Z bool :=
  match chatIDStrings with
  | [] => ids
  | chatIDStr :: rest =>
      let chatIDStr := TrimSpace chatIDStr in
      if String.eqb chatIDStr "" then addInitialChatIDs rest ids
      else
        match ParseInt chatIDStr with
        | Some chatID => addInitialChatIDs rest (<[chatID := true]> ids)
        | None => addInitialChatIDs rest ids
        end
  end.

(** The result is the error, or the service as it is constructed. *)
Definition NewTelegramService (proxyDSN initialChatIDs : string)
    : string + TelegramService :=
  match (if String.eqb proxyDSN "" then None else urlParse proxyDSN) with
  | Some err => inl (lit "telegram service proxy dsn error: "
                       +:+ err)
  | None =>
      inr {| chatIDs :=
               if String.eqb initialChatIDs "" then ∅
               else addInitialChatIDs (Split initialChatIDs ",") ∅;
             lastOffset := 0; isRunning := false; notifications := ∅;
             ticker := "" |}
  end.

(** [SetAnalysisServices], for the one field of it that telegram.go
    reads back. *)
Definition SetAnalysisServices (tickerName : string) (t : TelegramService)
    : TelegramService :=
  {| chatIDs := chatIDs t; lastOffset := lastOffset t; isRunning := isRunning t;
     notifications := notifications t; ticker := tickerName |}.

(** *** [processUpdates] *)

(** What [processUpdates] starts with [go]: the reply to a chat it has
    just registered, and the command handlers. *)
Inductive Started : Type :=
| StartSendMessage (chatID : Z) (text : string)
| StartHandler (g : Goroutine).

Definition registrationInfo (update : TelegramUpdate) : string :=
  lit "✅ Chat registered!\nChat ID: "
  +:+ itoa (upd_ChatID update)
  +:+ lit "\nUser: "
  +:+ upd_FromFirstName update
  +:+ lit " "
  +:+ upd_FromLastName update
  +:+ lit "\nUsername: @"
  +:+ upd_FromUsername update.

(** The loop over the updates; [started] collects the goroutines in the
    order of their [go] statements. An update whose text is not empty
    but holds no field ends the loop, and the function, at once. *)
Fixpoint processUpdateList (updates : list TelegramUpdate) (t : TelegramService)
    (started : list Started) : TelegramService * list Started :=
  match updates with
  | [] => (t, started)
  | update :: rest =>
      let t := set_lastOffset (wrap64 (upd_UpdateID update + 1)) t in
      (* Add new chat ID if not exists *)
      let chatID := upd_ChatID update in
      let '(t, started) :=
        if chatRegistered t chatID then (t, started)
        else (set_chatIDs (<[chatID := true]> (chatIDs t)) t,
              started ++ [StartSendMessage chatID (registrationInfo update)]) in
      (* Handle commands and messages *)
      if String.eqb (upd_Text update) "" then processUpdateList rest t started
      else
        match dispatchCommand chatID (upd_Text update) with
        | Some g => processUpdateList rest t (started ++ [StartHandler g])
        | None => (t, started)
        end
  end.

(** [processUpdates]; [fetched] is the answer of [getUpdates], an error
    or the updates. *)
Definition processUpdates (fetched : string + list TelegramUpdate)
    (t : TelegramService) : TelegramService * list Started * option string :=
  match fetched with
  | inl err => (t, [], Some err)
  | inr updates =>
      let (t', started) := processUpdateList updates t [] in (t', started, None)
  end.

(** *** [BroadcastMessage] *)

(** The loop [for chatID := range t.chatIDs]. Go leaves the order of a
    [range] over a map open: [rangeOrder] is the order in which this
    run of the loop gets the keys. *)
Fixpoint broadcastLoop (rangeOrder : list Z) (text : string)
    (errors : list string) : M (list string) :=
  match rangeOrder with
  | [] => ret errors
  | chatID :: rest =>
      do err <- SendMessage chatID text;
      match err with
      | Some e => broadcastLoop rest text (errors ++ [e])
      | None => broadcastLoop rest text errors
      end
  end.

Definition BroadcastMessage (t : TelegramService) (rangeOrder : list Z)
    (text : string) : M (option string) :=
  if (size (chatIDs t) =? 0)%nat then ret None
  else
    do errors <- broadcastLoop rangeOrder text [];
    if (0 <? List.length errors)%nat then
      ret (Some (lit "failed to send to "
                 +:+ itoa (Z.of_nat (List.length errors))
                 +:+ lit " chats"))
    else ret None.

(** [GetRegisteredChats] *)
Definition GetRegisteredChats (t : TelegramService) (rangeOrder : list Z) : list Z :=
  fold_left (fun chats chatID => chats ++ [chatID]) rangeOrder [].

(** *** [StoreAndBroadcastNotification] and /detail_<id> *)

(** The result is the service with the notification stored, and the
    error of the broadcast, if any. *)
Definition StoreAndBroadcastNotification (t : TelegramService)
    (rangeOrder : list Z) (alert : FUDAlertNotification)
    : M (TelegramService * option string) :=
  (* Generate unique ID and store notification *)
  do notificationID <- generateNotificationID;
  let t := set_notifications (<[notificationID := alert]> (notifications t)) t in
  (* Format message with detail command *)
  let telegramMessage := FormatForTelegramWithDetail alert notificationID in
  (* Broadcast to all chats *)
  do err <- BroadcastMessage t rangeOrder telegramMessage;
  ret (t, err).

Definition detailInvalidFormat : string := lit "❌ Invalid command format. Use /detail_<id>".

Definition detailNotFound : string := lit "❌ Notification not found or expired.".

Definition handleDetailCommand (t : TelegramService) (chatID : Z)
    (command : string) : M unit :=
  match Split command "_" with
  | [_; notificationID] =>
      match notifications t !! notificationID with
      | None => run SendMessage chatID detailNotFound; ret tt
      | Some alert =>
          (* Send detailed information *)
          run SendMessage chatID (FormatDetailedView alert); ret tt
      end
  | _ => run SendMessage chatID detailInvalidFormat; ret tt
  end.

(** *** /ticker_history_<username> *)

(** The fields of a ticker opinion that telegram.go reads. *)
Record TickerOpinion : Type := {
  op_TweetCreatedAt : Z;
  op_Text : string;
  op_InReplyToID : string;
  op_RepliedToAuthor : string;
  op_RepliedToText : string;
  op_TweetID : string;
  op_SearchQuery : string
}.

(** The loop of [handleTickerHistoryCommand] over the opinions. *)
Fixpoint tickerHistoryEntries (i : Z) (opinions : list TickerOpinion)
    (historyMessage : string) : Outcome string :=
  match opinions with
  | [] => Done historyMessage
  | opinion :: rest =>
      match truncateText (op_Text opinion) 200 with
      | Done text =>
          let b := historyMessage
            +:+ lit "<b>"
            +:+ itoa (i + 1)
            +:+ lit ".</b> "
            +:+ formatMinute (op_TweetCreatedAt opinion)
            +:+ lit "\n"
            +:+ lit "💬 <i>"
            +:+ text
            +:+ lit "</i>\n" in
          (* Show reply context if available *)
          match
            (if negb (String.eqb (op_InReplyToID opinion) "")
                && negb (String.eqb (op_RepliedToAuthor opinion) "")
             then
               match truncateText (op_RepliedToText opinion) 100 with
               | Done replied =>
                   Done (b +:+ lit "↳ <i>Reply to @"
                          +:+ op_RepliedToAuthor opinion
                          +:+ lit ": "
                          +:+ replied
                          +:+ lit "</i>\n")
               | Panic v => Panic v
               | Blocked => Blocked
               end
             else Done b)
          with
          | Done b =>
              tickerHistoryEntries (i + 1) rest
                (b +:+ lit "🆔 <code>"
                 +:+ op_TweetID opinion
                 +:+ lit "</code>\n"
                 +:+ lit "🔍 <i>Search: "
                 +:+ op_SearchQuery opinion
                 +:+ lit "</i>\n\n")
          | Panic v => Panic v
          | Blocked => Blocked
          end
      | Panic v => Panic v
      | Blocked => Blocked
      end
  end.

Definition tickerInvalidFormat : string := lit "❌ Invalid command format. Use /ticker_history_<username>".

(** [opinionsOf username ticker limit] is the answer of
    [dbService.GetUserTickerOpinionsByUsername], an error or the
    opinions. *)
Definition handleTickerHistoryCommand
    (opinionsOf : string -> string -> Z -> string + list TickerOpinion)
    (t : TelegramService) (chatID : Z) (command : string) : M unit :=
  match Split command "_" with
  | [_; _; username] =>
      let ticker := ticker t in
      (* Get ticker-related messages for the user *)
      match opinionsOf username ticker 20 with
      | inl err =>
          run SendMessage chatID
            (lit "❌ Error retrieving ticker history for @"
             +:+ username
             +:+ lit ": "
             +:+ err);
          ret tt
      | inr [] =>
          run SendMessage chatID
            (lit "📭 No ticker-related messages found for @"
             +:+ username
             +:+ lit " and "
             +:+ ticker);
          ret tt
      | inr opinions =>
          do body <- liftO (tickerHistoryEntries 0 opinions
            (lit "💰 <b>Ticker History for @"
             +:+ username
             +:+ lit " ("
             +:+ ticker
             +:+ lit ")</b> (Last 20)\n\n"));
          run SendMessage chatID
            (body
             +:+ lit "📊 Total ticker mentions found: "
             +:+ itoa (Z.of_nat (List.length opinions))
             +:+ lit "\n"
             +:+ lit "📄 For full message history: /export_"
             +:+ username);
          ret tt
      end
  | _ => run SendMessage chatID tickerInvalidFormat; ret tt
  end.

(** *** /top20_analyze *)

Definition top20Summary (analysisCount skippedCount total : Z) : string :=
  lit "🚀 <b>Top 20 Analysis Started</b>\n\n📊 <b>Statistics:</b>\n• ✅ Started: "
  +:+ itoa analysisCount
  +:+ lit " analyses\n• ⏭️ Skipped: "
  +:+ itoa skippedCount
  +:+ lit " (cached)\n• 📋 Total: "
  +:+ itoa total
  +:+ lit " users\n\n🔍 Use /tasks to monitor progress\n💡 Use /fudlist to see detected FUD users".

(** The launch loop over the users, with its two counters. *)
Fixpoint top20Launch (chatID : Z) (users : list UserModel)
    (analysisCount skippedCount : Z) : M (Z * Z) :=
  match users with
  | [] => ret (analysisCount, skippedCount)
  | user :: rest =>
      (* Check if user already has recent cached analysis *)
      do fresh <- dbHasValidCachedAnalysis (user_ID user);
      if fresh then top20Launch chatID rest analysisCount (skippedCount + 1)
      else
        (* Generate task ID for tracking *)
        do taskID <- generateNotificationID;
        do now <- timeNow;
        let task :=
          {| task_ID := taskID; task_Username := user_Username user;
             task_UserID := user_ID user;
             task_Status := ANALYSIS_STATUS_PENDING;
             task_CurrentStep := ANALYSIS_STEP_INIT;
             task_ProgressText := "Queued for analysis...";
             task_ErrorMessage := "";
             task_TelegramChatID := chatID; task_MessageID := 0;
             task_StartedAt := now |} in
        do created <- dbCreateAnalysisTask task;
        if created then
          (* Start analysis in background *)
          run go (GoProcessAnalysisTask taskID);
          (* Small delay between launches *)
          run timeSleep (100 * Millisecond);
          top20Launch chatID rest (analysisCount + 1) skippedCount
        else top20Launch chatID rest analysisCount skippedCount
  end.

(** [topUsers] is the answer of [dbService.GetTopActiveUsers(20)], an
    error or the users. *)
Definition handleTop20AnalyzeCommand (topUsers : string + list UserModel)
    (chatID : Z) : M unit :=
  match topUsers with
  | inl err =>
      run SendMessage chatID (lit "❌ Error retrieving top users: "
                               +:+ err);
      ret tt
  | inr [] =>
      run SendMessage chatID (lit "📭 No users found in database");
      ret tt
  | inr users =>
      (* Send initial confirmation *)
      run SendMessage chatID
        (lit "🔄 <b>Starting Top 20 Analysis</b>\n\n📊 Found "
         +:+ itoa (Z.of_nat (List.length users))
         +:+ lit " users to analyze\n⏳ This will take several minutes...\n\n💡 Use /tasks to monitor progress");
      (* Start analysis for each user in background *)
      do counts <- top20Launch chatID users 0 0;
      (* Send summary *)
      run SendMessage chatID
        (top20Summary (fst counts) (snd counts) (Z.of_nat (List.length users)));
      ret tt
  end.

(** *** Notions used in the statements *)

(** The error message of [processAnalysisTask] for a full channel. *)
Definition queueFullMessage : string :=
  "Analysis channel is full, please try again later".

(** Sends on the analysis channel in a trace. *)
Definition isChanSend (e : Event) : bool :=
  match e with ChanSend _ => true | _ => false end.

(** The cleaning of one entry of /batch_analyze, and the test an entry
    has to pass. *)
Definition cleanName (raw : string) : string :=
  TrimPrefix (TrimSpace raw) "@".

Definition acceptedName (username : string) : bool :=
  negb (String.eqb username "")
  && negb ((50 <? len username) || Contains username " ").

Definition lookupOf (e : Event) : list string :=
  match e with
  | Db (GetUserByUsername username) => [username]
  | _ => []
  end.

(** The usernames looked up in the user store, in the order of the
    calls. *)
Definition lookups (evs : list Event) : list string := flat_map lookupOf evs.

(** The test of the launch loop for the cache short cut. *)
Definition hasFreshResult (d : DatabaseService) (username : string) : bool :=
  match db_users d !! username with
  | Some u => bool_decide (user_ID u ∈ db_fresh d)
  | None => false
  end.

(** *** Notions used in the statements about the rest of the service *)

(** Lower case hexadecimal digits. *)
Definition isHexDigit (c : ascii) : bool :=
  let n := N_of_ascii c in
  (((48 <=? n) && (n <=? 57)) || ((97 <=? n) && (n <=? 102)))%N.

(** Decimal digits and the minus sign; the strings made of them. *)
Definition isNumChar (c : ascii) : bool :=
  let n := N_of_ascii c in (((48 <=? n) && (n <=? 57)) || (n =? 45))%N.

Definition numeric (s : string) : bool :=
  forallb isNumChar (list_ascii_of_string s).

(** The orders in which a [range] over [t.chatIDs] can yield the keys:
    every key once. *)
Definition isRangeOrder (t : TelegramService) (rangeOrder : list Z) : Prop :=
  NoDup rangeOrder /\ forall c, c ∈ rangeOrder <-> is_Some (chatIDs t !! c).

(** sendMessage requests to a chat in a trace. *)
Definition sendsTo (chatID : Z) (e : Event) : bool :=
  match e with
  | SendMessageCall c _ => Z.eqb c chatID
  | _ => false
  end.

(** The number of errors among the [n] answers of Telegram from
    request number [from] on. *)
Fixpoint failures (answers : nat -> string + Z) (from n : nat) : nat :=
  match n with
  | O => O
  | S n' =>
      ((match answers from with inl _ => 1 | inr _ => 0 end)
       + failures answers (S from) n')%nat
  end.

(** An update whose text is not empty but holds no field: the update at
    which [processUpdates] returns. *)
Definition stopsBatch (update : TelegramUpdate) : bool :=
  negb (String.eqb (upd_Text update) "")
  && match Fields (TrimSpace (upd_Text update)) with [] => true | _ => false end.

(** The updates [processUpdates] gets to: those up to the first that
    stops the batch, that one included. *)
Fixpoint processed (updates : list TelegramUpdate) : list TelegramUpdate :=
  match updates with
  | [] => []
  | update :: rest =>
      if stopsBatch update then [update] else update :: processed rest
  end.

Definition welcomeOf (s : Started) : list Z :=
  match s with StartSendMessage chatID _ => [chatID] | StartHandler _ => [] end.

Definition handlerOf (s : Started) : list Goroutine :=
  match s with StartSendMessage _ _ => [] | StartHandler g => [g] end.

(** The chats that were sent the registration reply, and the handlers
    started, in the order of the [go] statements. *)
Definition welcomed (started : list Started) : list Z :=
  flat_map welcomeOf started.

Definition handlers (started : list Started) : list Goroutine :=
  flat_map handlerOf started.

(** The handler the command switch starts for an update, if any. *)
Definition commandOf (update : TelegramUpdate) : list Goroutine :=
  match dispatchCommand (upd_ChatID update) (upd_Text update) with
  | Some g => [g]
  | None => []
  end.

(** Goroutines started and requests to Telegram in a trace. *)
Definition isGo (e : Event) : bool :=
  match e with Go _ => true | _ => false end.

Definition isTelegramRequest (e : Event) : bool :=
  match e with
  | SendMessageCall _ _ | EditMessageCall _ _ _ => true
  | _ => false
  end.

Definition isCachedNotification (e : Event) : bool :=
  match e with Go (GoSendCachedBatchNotification _ _ _ _) => true | _ => false end.

Definition isRunnerStart (e : Event) : bool :=
  match e with
  | Go (GoProcessAnalysisTask _) | Go (GoProcessBatchAnalysisTask _ _) => true
  | _ => false
  end.

(** What a run of a task runner for [taskID], from [w] to [w'], leaves
    alone: the store keeps its task IDs and its other tables, the run
    makes no request to Telegram, starts no goroutine, draws no random
    bytes and does not sleep, and it sends at most one work item, for
    [taskID] and the chat [chat], when the channel has room. *)
Definition runnerFootprint (taskID : string) (chat : Z) (w w' : World) : Prop :=
  dom (db_tasks (dbService w')) = dom (db_tasks (dbService w))
  /\ db_users (dbService w') = db_users (dbService w)
  /\ db_analysis_tweets (dbService w') = db_analysis_tweets (dbService w)
  /\ db_fresh (dbService w') = db_fresh (dbService w)
  /\ db_cached (dbService w') = db_cached (dbService w)
  /\ requests w' = requests w
  /\ draws w' = draws w
  /\ clock w' = clock w
  /\ exists evs,
      trace w' = trace w ++ evs
      /\ forallb (fun e => negb (isTelegramRequest e) && negb (isGo e)) evs = true
      /\ ((analysisChannel w' = analysisChannel w
           /\ List.filter isChanSend evs = [])
          \/ exists m,
              analysisChannel w' = chan_push m (analysisChannel w)
              /\ List.filter isChanSend evs = [ChanSend m]
              /\ chan_full (analysisChannel w) = false
              /\ msg_TaskID m = taskID
              /\ msg_IsManualAnalysis m = true
              /\ msg_ForceNotification m = true
              /\ msg_TelegramChatID m = chat).

(** The books of a launch loop that went over [n] entries from [w] to
    [w'] with the effects [evs], starting runners with [runner] and
    sleeping [delay] after each: [started] and [skipped] are what the
    loop added to its two counters. Every runner started stands for a
    task record created by the loop, pending, for the chat [chat] and
    without a progress message; the records the store held before are
    as they were; the clock has moved by [delay] for each runner; the
    only goroutines started are runners and cached notifications, at
    most one notification for each entry skipped; the loop makes no
    request to Telegram and sends nothing on the analysis channel. *)
Definition launchAccounts (runner : string -> Goroutine) (chat delay : Z)
    (n : nat) (w w' : World) (evs : list Event) (started skipped : Z) : Prop :=
  trace w' = trace w ++ evs
  /\ 0 <= started /\ 0 <= skipped
  /\ started + skipped <= Z.of_nat n
  /\ Z.of_nat (List.length (List.filter isRunnerStart evs)) = started
  /\ Z.of_nat (size (db_tasks (dbService w')))
     = Z.of_nat (size (db_tasks (dbService w))) + started
  /\ (forall k v, db_tasks (dbService w) !! k = Some v ->
                  db_tasks (dbService w') !! k = Some v)
  /\ clock w' = clock w + started * delay
  /\ Z.of_nat (List.length (List.filter isCachedNotification evs)) <= skipped
  /\ (forall e, In e evs -> isGo e = true ->
        isCachedNotification e = true
        \/ exists taskID task,
            e = Go (runner taskID)
            /\ db_tasks (dbService w') !! taskID = Some task
            /\ task_ID task = taskID
            /\ task_Status task = ANALYSIS_STATUS_PENDING
            /\ task_TelegramChatID task = chat
            /\ task_MessageID task = 0)
  /\ analysisChannel w' = analysisChannel w
  /\ requests w' = requests w
  /\ forallb (fun e => negb (isTelegramRequest e) && negb (isChanSend e)) evs = true.

(** The task is on record and its status is not terminal. *)
Definition stillRunning (taskID : string) (w : World) : Prop :=
  exists task,
    db_tasks (dbService w) !! taskID = Some task
    /\ isTerminal (task_Status task) = false.

(** The usernames the cached notifications started in a trace are for,
    in the order they were started. *)
Definition notifiedOf (e : Event) : list string :=
  match e with
  | Go (GoSendCachedBatchNotification username _ _ _) => [username]
  | _ => []
  end.

Definition notified (evs : list Event) : list string := flat_map notifiedOf evs.

(** Calls of [SetAnalysisTaskError] in a trace. *)
Definition recordsError (e : Event) : bool :=
  match e with Db (SetAnalysisTaskError _ _) => true | _ => false end.

End Telegram.

Arguments SecondStepClaudeResponse : clear implicits.
Arguments DatabaseService : clear implicits.
Arguments Goroutine : clear implicits.
Arguments Event : clear implicits.
Arguments World : clear implicits.
Arguments M : clear implicits.
Arguments TelegramService : clear implicits.
Arguments Started : clear implicits.
Arguments lookups : simpl never.
Arguments hasFreshResult : simpl never.

(* ================================================================== *)
(** * A concrete bot *)
(* ================================================================== *)

(** Stand-ins for the library functions the embedding leaves open: a
    probability is kept in percent, times are printed as numbers. *)
Definition demoPercent (p : Z) : string := itoa p.
Definition demoSeconds (d : Z) : string := itoa (d / Second).
Definition demoMinutes (d : Z) : string := itoa (d / Minute).
Definition demoTime (t : Z) : string := itoa t.

Definition alice : UserModel :=
  {| user_ID := "1001"; user_Username := "alice"; user_Name := "Alice" |}.

Definition bob : UserModel :=
  {| user_ID := "1002"; user_Username := "bob"; user_Name := "Bob" |}.

Definition aliceResult : SecondStepClaudeResponse Z :=
  {| resp_IsFUDUser := true; resp_FUDType := "coordinated_fud";
     resp_FUDProbability := 85; resp_UserRiskLevel := "high";
     resp_UserSummary := "repeats the same claims" |}.

(** A store that knows alice and bob and holds a fresh cached result for
    alice. *)
Definition demoDb (tasks : gmap string AnalysisTaskModel) : DatabaseService Z :=
  {| db_tasks := tasks;
     db_users := <["alice" := alice]> (<["bob" := bob]> ∅);
     db_analysis_tweets := ∅;
     db_fresh := {["1001"%string]};
     db_cached := <["1001"%string := aliceResult]> ∅;
     db_messages := fun _ => inr [] |}.

Definition demoWorld (tasks : gmap string AnalysisTaskModel) (c : Chan) : World Z :=
  {| dbService := demoDb tasks; analysisChannel := c; trace := [];
     clock := 1700000000 * Second;
     entropy := fun n => String (ascii_of_nat n) "seedsee";
     draws := O;
     telegram := fun n => inr (Z.of_nat n + 500);
     requests := O |}.

Definition demoTask (taskID username : string) (status : AnalysisStatus)
    : AnalysisTaskModel :=
  {| task_ID := taskID; task_Username := username; task_UserID := "";
     task_Status := status; task_CurrentStep := ANALYSIS_STEP_INIT;
     task_ProgressText := "Initializing analysis..."; task_ErrorMessage := "";
     task_TelegramChatID := 7; task_MessageID := 42;
     task_StartedAt := 1700000000 * Second |}.

(** A channel without room, one with room, a closed one. *)
Definition fullChan : Chan := {| chan_cap := 0; chan_buf := []; chan_closed := false |}.
Definition roomyChan : Chan := {| chan_cap := 4; chan_buf := []; chan_closed := false |}.
Definition closedChan : Chan := {| chan_cap := 4; chan_buf := []; chan_closed := true |}.

Definition oneTask (taskID username : string) (status : AnalysisStatus)
    : gmap string AnalysisTaskModel :=
  <[taskID := demoTask taskID username status]> ∅.

(** Worlds with one task; the store does not know carol. *)
Definition pendingCarol : World Z :=
  demoWorld (oneTask "t1" "carol" ANALYSIS_STATUS_PENDING) fullChan.

Definition closedCarol : World Z :=
  demoWorld (oneTask "t1" "carol" ANALYSIS_STATUS_PENDING) closedChan.

Definition roomyCarol : World Z :=
  demoWorld (oneTask "t1" "carol" ANALYSIS_STATUS_PENDING) roomyChan.

Definition roomyBob : World Z :=
  demoWorld (oneTask "t2" "bob" ANALYSIS_STATUS_PENDING) roomyChan.

(** A list of 21 usernames. *)
Definition twentyOne : string := "a,b,c,d,e,f,g,h,i,j,k,l,m,n,o,p,q,r,s,t,u".

Definition completedCarol : World Z :=
  demoWorld (oneTask "t1" "carol" ANALYSIS_STATUS_COMPLETED) roomyChan.


(** Alerts kept as their text; the two renderings of the formatter. *)
Definition demoFormat (alert notificationID : string) : string :=
  alert +:+ " /detail_" +:+ notificationID.

Definition demoDetail (alert : string) : string := "Details: " +:+ alert.

(** A service registered with the chats 7 and 9. *)
Definition demoService : TelegramService string :=
  {| chatIDs := <[7 := true]> (<[9 := true]> ∅); lastOffset := 0;
     isRunning := false; notifications := ∅; ticker := "BTC" |}.

(** A world in which the second request to Telegram fails. *)
Definition flakyWorld : World Z :=
  {| dbService := demoDb ∅; analysisChannel := roomyChan; trace := [];
     clock := 1700000000 * Second;
     entropy := fun n => String (ascii_of_nat n) "seedsee";
     draws := O;
     telegram := fun n => match n with 1%nat => inl "timeout"%string | _ => inr 500 end;
     requests := O |}.

(** The bot after /batch_analyze carol on the channel without room, and
    after the runner the handler started has gone as far as it gets. *)
Definition admittedCarol : World Z :=
  snd (handleBatchAnalyzeCommand 7 ["carol"] (demoWorld ∅ fullChan)).

Definition parkedCarol : World Z :=
  snd (processBatchAnalysisTask demoTime "0073656564736565" 7 admittedCarol).

(** The bot after /batch_analyze alice,alice,bob. *)
Definition twiceAlice : World Z :=
  snd (handleBatchAnalyzeCommand 7 ["alice,alice,bob"] (demoWorld ∅ roomyChan)).


(* ================================================================== *)
(** * Properties *)
(* ================================================================== *)

Section Properties.

Context {float64 : Type}.
Variable sprintfPercent : float64 -> string.
Variable sprintfSeconds : Z -> string.
Variable sprintfMinutes : Z -> string.
Variable formatRFC3339 : Z -> string.
Variable formatMinute : Z -> string.

(** ** Byte strings *)

Lemma length_append (s t : string) :
  String.length (s +:+ t) = (String.length s + String.length t)%nat.
Proof.
  induction s as [|c s IH]; [reflexivity|].
  change (String c s +:+ t) with (String c (s +:+ t)).
  cbn [String.length]. now rewrite IH.
Qed.

Lemma length_substring_0 (n : nat) (s : string) :
  (n <= String.length s)%nat -> String.length (String.substring 0 n s) = n.
Proof.
  revert s. induction n as [|n IH]; intros [|c s] Hn; cbn in *;
    try reflexivity; try lia.
  rewrite IH; lia.
Qed.

Lemma substring_append_r (s t : string) :
  String.substring (String.length s) (String.length t) (s +:+ t) = t.
Proof.
  induction s as [|c s IH].
  - change (EmptyString +:+ t) with t. cbn [String.length].
    induction t as [|d t IHt]; [reflexivity|]. cbn. now rewrite IHt.
  - change (String c s +:+ t) with (String c (s +:+ t)). cbn. exact IH.
Qed.

Lemma wrap64_id (z : Z) : is_int64 z -> wrap64 z = z.
Proof.
  unfold is_int64, MinInt64, MaxInt64, wrap64. intros H.
  rewrite Z.mod_small; lia.
Qed.

(** ** truncateText *)

(** C10. For a bound [maxLength >= 3], [truncateText] returns [text]
    itself when [len(text) <= maxLength]; otherwise it returns the first
    [maxLength - 3] bytes of [text] followed by "...", a string of exactly
    [maxLength] bytes whose last three bytes are "...". The bound is
    needed: with [maxLength < 3] and [len(text) > maxLength] the slice
    [text[:maxLength-3]] is out of range and the call panics. *)
Theorem truncateText_spec (text : string) (maxLength : Z) :
  is_int64 maxLength ->
  len text < MaxInt64 - 3 ->
  (3 <= maxLength ->
     (len text <= maxLength -> truncateText text maxLength = Done text)
     /\ (maxLength < len text ->
         exists r,
           truncateText text maxLength = Done r
           /\ r = String.substring 0 (Z.to_nat (maxLength - 3)) text +:+ "..."
           /\ len r = maxLength
           /\ String.substring (Z.to_nat (maxLength - 3)) 3 r = "..."%string))
  /\ (maxLength < 3 -> maxLength < len text ->
      exists v, truncateText text maxLength = Panic v).
Proof.
  intros Hint Hlen. unfold is_int64, MinInt64, MaxInt64 in Hint.
  unfold MaxInt64 in Hlen. split.
  - intros H3. split.
    + intros Hle. unfold truncateText.
      destruct (Z.leb_spec (len text) maxLength); [reflexivity | lia].
    + intros Hgt. unfold truncateText.
      destruct (Z.leb_spec (len text) maxLength); [lia|].
      rewrite wrap64_id by (unfold is_int64, MinInt64, MaxInt64; lia).
      unfold slicePrefix.
      destruct (Z.ltb_spec (maxLength - 3) 0); [lia|].
      destruct (Z.ltb_spec (len text) (maxLength - 3)); [lia|].
      eexists. split; [reflexivity|]. split; [reflexivity|].
      assert (Hp : String.length (String.substring 0 (Z.to_nat (maxLength - 3)) text)
                   = Z.to_nat (maxLength - 3)).
      { apply length_substring_0. unfold len in *. lia. }
      split.
      * unfold len. rewrite length_append, Hp. cbn [String.length]. lia.
      * rewrite <- Hp at 1.
        change 3%nat with (String.length "...").
        apply substring_append_r.
  - intros Hlt Hgt. unfold truncateText.
    destruct (Z.leb_spec (len text) maxLength); [lia|].
    unfold slicePrefix.
    destruct (Z.ltb_spec (wrap64 (maxLength - 3)) 0); [eauto|].
    destruct (Z.ltb_spec (len text) (wrap64 (maxLength - 3))); [eauto|].
    exfalso. unfold wrap64 in *.
    destruct (Z_lt_le_dec (maxLength - 3) (- 2 ^ 63)) as [Hw|Hw].
    + assert (E : (maxLength - 3 + 2 ^ 63) mod 2 ^ 64
                  = maxLength - 3 + 2 ^ 63 + 2 ^ 64).
      { symmetry. apply (Z.mod_unique_pos _ _ (-1)); lia. }
      rewrite E in *. lia.
    + rewrite Z.mod_small in * by lia. lia.
Qed.

(** ** /history_<username> *)

Lemma countByte_append (c : ascii) (s t : string) :
  countByte c (s +:+ t) = (countByte c s + countByte c t)%nat.
Proof.
  induction s as [|a s IH]; [reflexivity|].
  change (String a s +:+ t) with (String a (s +:+ t)).
  cbn [countByte]. rewrite IH. lia.
Qed.

Lemma Contains_byte_count (c : ascii) (s : string) :
  Contains s (String c EmptyString) = true -> (1 <= countByte c s)%nat.
Proof.
  induction s as [|a s IH]; cbn; [discriminate|].
  unfold HasPrefix; cbn. rewrite (Ascii.eqb_sym c a).
  destruct (Ascii.eqb a c); [lia|]. cbn. intros H. apply IH in H. lia.
Qed.

(** Splitting on a one byte separator yields one part more than the
    separator occurs. *)
Lemma Split_byte_length (c : ascii) (s : string) :
  List.length (Split s (String c EmptyString)) = S (countByte c s).
Proof.
  unfold Split. induction s as [|a s IH]; [reflexivity|].
  cbn [splitFrom countByte]. unfold HasPrefix; cbn [cutPrefix].
  rewrite (Ascii.eqb_sym c a).
  destruct (Ascii.eqb a c); cbn [String.length Nat.sub].
  - cbn [List.length]. rewrite IH. lia.
  - destruct (splitFrom (String c EmptyString) 0 s) as [|h r];
      cbn [List.length] in *; lia.
Qed.

(** C9. A command "/history_<username>" whose <username> contains an
    underscore splits on "_" into more than two parts: the handler sends
    the invalid-format reply and nothing else happens, in particular no
    message query reaches the store. The help text nevertheless gives
    "/history_john_doe" as its example. *)
Theorem handleHistoryCommand_underscore_username
    (chatID : Z) (username : string) (w : World float64) :
  Contains username "_" = true ->
  handleHistoryCommand formatMinute chatID ("/history_" +:+ username) w
  = (Done tt, next_request (emit (SendMessageCall chatID historyInvalidFormat) w))
  /\ Contains helpMessage (lit "Example: /history_john_doe\n") = true.
Proof.
  intros Hu. split; [|vm_compute; reflexivity].
  apply Contains_byte_count in Hu.
  pose proof (Split_byte_length "_" ("/history_" +:+ username)) as Hlen.
  rewrite countByte_append in Hlen.
  change (countByte "_" "/history_") with 1%nat in Hlen.
  unfold handleHistoryCommand.
  destruct (Split ("/history_" +:+ username) "_") as [|a [|b [|c l]]];
    cbn [List.length] in Hlen; try lia; reflexivity.
Qed.

(** ** /batch_analyze: the size bound *)

(** C5. When more than 20 usernames pass validation the handler answers
    with one error message and returns: the store and the analysis
    channel are as before, and the only effect in the trace is that
    message, so no task record is created, no runner started and no work
    item enqueued. *)
Theorem handleBatchAnalyzeCommand_over_limit
    (chatID : Z) (args : list string) (w : World float64) :
  (20 < List.length (fst (parseUsernames args)))%nat ->
  exists text w',
    handleBatchAnalyzeCommand chatID args w = (Done tt, w')
    /\ trace w' = trace w ++ [SendMessageCall chatID text]
    /\ dbService w' = dbService w
    /\ analysisChannel w' = analysisChannel w
    /\ (text = batchUsage
        \/ text = batchTooMany (Z.of_nat (List.length (fst (parseUsernames args))))).
Proof.
  intros Hn. unfold handleBatchAnalyzeCommand.
  destruct args as [|arg0 rest]; [cbn in Hn; lia|].
  destruct (String.eqb (TrimSpace arg0) "").
  - exists batchUsage. eexists. split; [reflexivity|]. cbn. auto.
  - destruct (parseUsernames (arg0 :: rest)) as [valid invalid]. cbn [fst] in Hn.
    destruct (Nat.eqb_spec (List.length valid) 0); [lia|].
    destruct (Nat.ltb_spec 20 (List.length valid)); [|lia].
    eexists. eexists. split; [reflexivity|]. cbn. auto.
Qed.

(** ** /analyze: admission *)

(** X11. With a username, an answer of Telegram to the first message
    and a task ID the store does not hold yet, /analyze stores the task
    record in [pending] and starts the runner and the monitor for it. *)
Lemma handleAnalyzeCommand_admits
    (chatID messageID : Z) (arg0 : string) (rest : list string) (w : World float64) :
  let taskID := hexEncode (eightBytes (entropy w (draws w))) in
  String.eqb (TrimSpace arg0) "" = false ->
  telegram w (requests w) = inr messageID ->
  db_tasks (dbService w) !! taskID = None ->
  exists w' task text,
    handleAnalyzeCommand chatID (arg0 :: rest) w = (Done tt, w')
    /\ db_tasks (dbService w') !! taskID = Some task
    /\ task_ID task = taskID
    /\ task_Username task = TrimSpace arg0
    /\ task_Status task = ANALYSIS_STATUS_PENDING
    /\ task_TelegramChatID task = chatID
    /\ task_MessageID task = messageID
    /\ trace w'
       = trace w ++ [SendMessageCall chatID text; Db (CreateAnalysisTask task);
                     Go (GoProcessAnalysisTask taskID);
                     Go (GoMonitorAnalysisProgress taskID)].
Proof.
  intros taskID Hblank Htg Hfree. unfold handleAnalyzeCommand. rewrite Hblank.
  unfold bind, generateNotificationID, SendMessageWithID, timeNow,
    dbCreateAnalysisTask, go, act, ret. cbn. rewrite Htg. cbn.
  fold taskID. rewrite Hfree. cbn.
  eexists. eexists. eexists. split; [reflexivity|]. cbn.
  rewrite lookup_insert_eq, <- !app_assoc. repeat split.
Qed.

(** ** The task runners *)

Ltac unfold_flow :=
  unfold processAnalysisTask, processBatchAnalysisTask, recovering,
    processAnalysisTaskBody, processBatchAnalysisTaskBody, bind,
    dbGetAnalysisTask, dbUpdateAnalysisTaskProgress, dbGetUserByUsername,
    dbUpdateAnalysisTask, dbGetUserTweetForAnalysis, dbSetAnalysisTaskError,
    timeNow, trySend, send, ret.

Ltac case_lookup :=
  match goal with
  | |- context [match ?m !! ?k with _ => _ end] =>
      let E := fresh "E" in destruct (m !! k) eqn:E
  end.

(** Opens the world into its fields and runs a flow on it as far as the
    store lookups allow. *)
Ltac open_world w :=
  destruct w as [[tasks users tweets fresh cached msgs] ch tr clk ent dr tg rq];
  unfold_flow; cbn in *.

Lemma lookup_alter_is_Some (f : AnalysisTaskModel -> AnalysisTaskModel)
    (k j : string) (m : gmap string AnalysisTaskModel) :
  is_Some (m !! j) -> is_Some (alter f k m !! j).
Proof.
  intros [t Ht]. rewrite lookup_alter. case_decide; subst; rewrite ?Ht; eauto.
Qed.

(** The record of [taskID] after the store calls of a runner. *)
Ltac find_record taskID Ht t0 Ht0 :=
  match goal with
  | |- context [alter ?f taskID ?M !! taskID] =>
      let Hs := fresh "Hs" in
      assert (Hs : is_Some (M !! taskID))
        by (repeat apply lookup_alter_is_Some; rewrite Ht; eauto);
      destruct Hs as [t0 Ht0]
  end.

(** X26. When [processAnalysisTask] finds the analysis channel full, the
    runner returns, the task record is [failed] with the error message
    "Analysis channel is full, please try again later" (not empty), the
    last call on the store is the one that records it, and nothing is
    sent on the channel: the work item is given up, not retried. *)
Theorem processAnalysisTask_queue_full
    (taskID : string) (w : World float64) (task : AnalysisTaskModel) :
  db_tasks (dbService w) !! taskID = Some task ->
  chan_closed (analysisChannel w) = false ->
  chan_full (analysisChannel w) = true ->
  exists w',
    processAnalysisTask formatRFC3339 taskID w = (Done tt, w')
    /\ analysisChannel w' = analysisChannel w
    /\ exists t' evs,
        db_tasks (dbService w') !! taskID = Some t'
        /\ task_Status t' = ANALYSIS_STATUS_FAILED
        /\ task_ErrorMessage t' = queueFullMessage
        /\ task_ErrorMessage t' <> ""%string
        /\ trace w' = trace w ++ evs
        /\ forallb (fun e => negb (isChanSend e)) evs = true
        /\ last evs = Some (Db (SetAnalysisTaskError taskID queueFullMessage)).
Proof.
  intros Ht Hc Hf. open_world w. rewrite Ht. cbn.
  case_lookup; cbn; case_lookup; cbn; rewrite Hc, Hf; cbn.
  all: eexists; split; [reflexivity|]; split; [reflexivity|]; cbn.
  all: find_record taskID Ht t0 Ht0; rewrite lookup_alter_eq, Ht0; cbn.
  all: rewrite <- !app_assoc.
  all: eexists; eexists; repeat split; try reflexivity; discriminate.
Qed.

(** The select of [processAnalysisTask] never parks the runner, whatever
    the state of the store and of the channel. *)
Lemma processAnalysisTask_never_parks (taskID : string) (w : World float64) :
  fst (processAnalysisTask formatRFC3339 taskID w) <> Blocked.
Proof.
  open_world w. case_lookup; cbn; [|discriminate].
  case_lookup; cbn; case_lookup; cbn;
    destruct (chan_closed ch); cbn; try discriminate;
    destruct (chan_full ch); cbn; discriminate.
Qed.

(** X19. The plain send of [processBatchAnalysisTask] parks the runner
    on every full channel that is open; nothing is added to the channel
    and the task record stays in a state that is not terminal, at the
    progress "Starting AI analysis...". *)
Lemma processBatchAnalysisTask_parks_when_full
    (taskID : string) (targetChatID : Z) (w : World float64) (task : AnalysisTaskModel) :
  db_tasks (dbService w) !! taskID = Some task ->
  chan_closed (analysisChannel w) = false ->
  chan_full (analysisChannel w) = true ->
  exists w',
    processBatchAnalysisTask formatRFC3339 taskID targetChatID w = (Blocked, w')
    /\ analysisChannel w' = analysisChannel w
    /\ exists t',
        db_tasks (dbService w') !! taskID = Some t'
        /\ isTerminal (task_Status t') = false
        /\ task_ProgressText t' = "Starting AI analysis..."%string.
Proof.
  intros Ht Hc Hf. open_world w. rewrite Ht. cbn.
  case_lookup; cbn; case_lookup; cbn; rewrite Hc, Hf; cbn.
  all: eexists; split; [reflexivity|]; split; [reflexivity|]; cbn.
  all: find_record taskID Ht t0 Ht0; rewrite lookup_alter_eq, Ht0; cbn.
  all: eexists; repeat split; reflexivity.
Qed.

(** *** Panics *)

Lemma recovering_catches (taskID : string) (body : M float64 unit)
    (w w1 : World float64) (r : string) (t : AnalysisTaskModel) :
  body w = (Panic r, w1) ->
  db_tasks (dbService w1) !! taskID = Some t ->
  exists w2,
    recovering taskID body w = (Done tt, w2)
    /\ db_tasks (dbService w2) !! taskID
       = Some (setError (lit "Internal error: " +:+ r) t).
Proof.
  intros Hb Ht. unfold recovering. rewrite Hb.
  unfold dbSetAnalysisTaskError. eexists. split; [reflexivity|].
  cbn. now rewrite lookup_alter_eq, Ht.
Qed.

Lemma recovering_no_panic (taskID : string) (body : M float64 unit) (w : World float64) (r : string) :
  fst (recovering taskID body w) <> Panic r.
Proof.
  unfold recovering. destruct (body w) as [[ [] | v | ] w1]; cbn; discriminate.
Qed.

(** A runner that panics has read its task record before, and the
    record is still there. *)
Lemma processAnalysisTaskBody_panic_record
    (taskID : string) (w w1 : World float64) (r : string) :
  processAnalysisTaskBody formatRFC3339 taskID w = (Panic r, w1) ->
  is_Some (db_tasks (dbService w1) !! taskID).
Proof.
  open_world w. destruct (tasks !! taskID) as [task|] eqn:Ht; cbn;
    [|discriminate].
  case_lookup; cbn; case_lookup; cbn;
    destruct (chan_closed ch); cbn;
    try (destruct (chan_full ch); cbn; discriminate).
  all: intros H; injection H as <- <-; cbn.
  all: repeat apply lookup_alter_is_Some; rewrite Ht; eauto.
Qed.

Lemma processBatchAnalysisTaskBody_panic_record
    (taskID : string) (targetChatID : Z) (w w1 : World float64) (r : string) :
  processBatchAnalysisTaskBody formatRFC3339 taskID targetChatID w = (Panic r, w1) ->
  is_Some (db_tasks (dbService w1) !! taskID).
Proof.
  open_world w. destruct (tasks !! taskID) as [task|] eqn:Ht; cbn;
    [|discriminate].
  case_lookup; cbn; case_lookup; cbn;
    destruct (chan_closed ch); cbn;
    try (destruct (chan_full ch); cbn; discriminate).
  all: try discriminate.
  all: intros H; injection H as <- <-; cbn.
  all: repeat apply lookup_alter_is_Some; rewrite Ht; eauto.
Qed.

(** C7. Both runners are their body under the deferred recovery. For
    every body, whatever raised the panic inside it, the recovery ends
    the runner normally after one call that gives the task the error
    "Internal error: " followed by the panic value; no panic leaves a
    runner. When the body of either runner panics, the task record is
    there and ends [failed] with that message. *)
Theorem runners_recover_panics (taskID : string) (targetChatID : Z) :
  processAnalysisTask (float64:=float64) formatRFC3339 taskID
  = recovering taskID (processAnalysisTaskBody formatRFC3339 taskID)
  /\ processBatchAnalysisTask (float64:=float64) formatRFC3339 taskID targetChatID
     = recovering taskID
         (processBatchAnalysisTaskBody formatRFC3339 taskID targetChatID)
  /\ (forall (body : M float64 unit) (w : World float64),
      (forall r, fst (recovering taskID body w) <> Panic r)
      /\ forall r w1,
          body w = (Panic r, w1) ->
          recovering taskID body w
          = dbSetAnalysisTaskError taskID (lit "Internal error: " +:+ r) w1)
  /\ (forall (w w1 : World float64) r,
      processAnalysisTaskBody formatRFC3339 taskID w = (Panic r, w1) ->
      exists w2 t,
        processAnalysisTask formatRFC3339 taskID w = (Done tt, w2)
        /\ db_tasks (dbService w2) !! taskID = Some t
        /\ task_Status t = ANALYSIS_STATUS_FAILED
        /\ task_ErrorMessage t = lit "Internal error: " +:+ r)
  /\ (forall (w w1 : World float64) r,
      processBatchAnalysisTaskBody formatRFC3339 taskID targetChatID w
      = (Panic r, w1) ->
      exists w2 t,
        processBatchAnalysisTask formatRFC3339 taskID targetChatID w = (Done tt, w2)
        /\ db_tasks (dbService w2) !! taskID = Some t
        /\ task_Status t = ANALYSIS_STATUS_FAILED
        /\ task_ErrorMessage t = lit "Internal error: " +:+ r).
Proof.
  split; [reflexivity|]. split; [reflexivity|]. split; [|split].
  - intros body w. split.
    + intros r. apply recovering_no_panic.
    + intros r w1 Hb. unfold recovering. now rewrite Hb.
  - intros w w1 r Hb.
    destruct (processAnalysisTaskBody_panic_record _ _ _ _ Hb) as [t Ht].
    destruct (recovering_catches taskID _ _ _ _ _ Hb Ht) as (w2 & Hr & Hl).
    exists w2. eexists. split; [exact Hr|]. split; [exact Hl|]. split; reflexivity.
  - intros w w1 r Hb.
    destruct (processBatchAnalysisTaskBody_panic_record _ _ _ _ _ Hb) as [t Ht].
    destruct (recovering_catches taskID _ _ _ _ _ Hb Ht) as (w2 & Hr & Hl).
    exists w2. eexists. split; [exact Hr|]. split; [exact Hl|]. split; reflexivity.
Qed.

(** *** Resolution of the username *)

(** C8. A username the store does not know does not stop a runner: with
    room in the channel it sends a work item for its task and the task
    is not [failed]; when no tweet is found either, the author of the
    work item carries the placeholder ID "unknown_" + username. The task
    record keeps the user ID it had. When the username is resolved, the
    runner calls [UpdateAnalysisTask] with the ID of the user found, and
    the task record carries that ID however the run ends. *)
Theorem runners_username_resolution
    (taskID : string) (targetChatID : Z) (w : World float64) (task : AnalysisTaskModel) :
  db_tasks (dbService w) !! taskID = Some task ->
  task_ID task = taskID ->
  (db_users (dbService w) !! task_Username task = None ->
   chan_closed (analysisChannel w) = false ->
   chan_full (analysisChannel w) = false ->
   (exists w' m,
       processAnalysisTask formatRFC3339 taskID w = (Done tt, w')
       /\ analysisChannel w' = chan_push m (analysisChannel w)
       /\ msg_TaskID m = taskID
       /\ (db_analysis_tweets (dbService w) !! task_Username task = None ->
           author_ID (msg_Author m) = "unknown_" +:+ task_Username task)
       /\ exists t',
           db_tasks (dbService w') !! taskID = Some t'
           /\ task_Status t' <> ANALYSIS_STATUS_FAILED
           /\ task_UserID t' = task_UserID task)
   /\ (exists w' m,
       processBatchAnalysisTask formatRFC3339 taskID targetChatID w = (Done tt, w')
       /\ analysisChannel w' = chan_push m (analysisChannel w)
       /\ msg_TaskID m = taskID
       /\ msg_TelegramChatID m = targetChatID
       /\ (db_analysis_tweets (dbService w) !! task_Username task = None ->
           author_ID (msg_Author m) = "unknown_" +:+ task_Username task)
       /\ exists t',
           db_tasks (dbService w') !! taskID = Some t'
           /\ task_Status t' <> ANALYSIS_STATUS_FAILED
           /\ task_UserID t' = task_UserID task))
  /\ (forall user,
      db_users (dbService w) !! task_Username task = Some user ->
      let update := Db (UpdateAnalysisTask (setUserID (user_ID user) task)) in
      (In update (trace (snd (processAnalysisTask formatRFC3339 taskID w)))
       /\ exists t',
          db_tasks (dbService (snd (processAnalysisTask formatRFC3339 taskID w)))
            !! taskID = Some t'
          /\ task_UserID t' = user_ID user)
      /\ (In update
            (trace (snd (processBatchAnalysisTask formatRFC3339 taskID targetChatID w)))
          /\ exists t',
             db_tasks
               (dbService (snd (processBatchAnalysisTask formatRFC3339 taskID
                                  targetChatID w)))
               !! taskID = Some t'
             /\ task_UserID t' = user_ID user)).
Proof.
  intros Ht Hid. split.
  - intros Hu Hc Hf. split.
    + open_world w. rewrite Ht. cbn. rewrite Hu. cbn.
      case_lookup; cbn; rewrite Hc, Hf; cbn.
      all: eexists; eexists; split; [reflexivity|]; split; [reflexivity|]; cbn.
      all: split; [reflexivity|]; split; [intros; congruence || reflexivity|].
      all: rewrite !lookup_alter_eq, Ht; cbn.
      all: eexists; repeat split; try reflexivity; discriminate.
    + open_world w. rewrite Ht. cbn. rewrite Hu. cbn.
      case_lookup; cbn; rewrite Hc, Hf; cbn.
      all: eexists; eexists; split; [reflexivity|]; split; [reflexivity|]; cbn.
      all: split; [reflexivity|]; split; [reflexivity|].
      all: split; [intros; congruence || reflexivity|].
      all: rewrite !lookup_alter_eq, Ht; cbn.
      all: eexists; repeat split; try reflexivity; discriminate.
  - intros user Hu update. subst update. split.
    + open_world w. rewrite Ht. cbn. rewrite Hu. cbn. rewrite Hid.
      case_lookup; cbn;
        destruct (chan_closed ch); cbn; try destruct (chan_full ch); cbn.
      all: rewrite !lookup_alter_eq, Ht; cbn.
      all: split; [|eexists; split; reflexivity].
      all: rewrite <- !app_assoc; apply in_or_app; right; cbn.
      all: repeat (first [left; reflexivity | right]).
    + open_world w. rewrite Ht. cbn. rewrite Hu. cbn. rewrite Hid.
      case_lookup; cbn;
        destruct (chan_closed ch); cbn; try destruct (chan_full ch); cbn.
      all: rewrite !lookup_alter_eq, Ht; cbn.
      all: split; [|eexists; split; reflexivity].
      all: rewrite <- !app_assoc; apply in_or_app; right; cbn.
      all: repeat (first [left; reflexivity | right]).
Qed.

(** ** /batch_analyze: the launch loop *)

Ltac unfold_batch :=
  unfold bind, dbGetUserByUsername, dbHasValidCachedAnalysis,
    dbGetCachedAnalysis, dbCreateAnalysisTask, generateNotificationID,
    timeNow, timeSleep, go, act, ret.

(** C4, as the code has it. The cache short cut works per entry of the
    list, not per username. An entry of the batch whose username
    resolves to a user with a fresh cached result that the store returns
    is skipped: the loop reads the store three times, starts one
    goroutine [sendCachedBatchNotification] for the chat of the request,
    counts the entry as skipped and goes on with the rest of the list,
    where the same username may come again. It creates no task record,
    starts no runner and leaves the store and the analysis channel as
    they were. The goroutine makes exactly one sendMessage request, to
    that chat, with the message formatted from the cached result. *)
Theorem batchLaunch_cached_user
    (chatID : Z) (username : string) (rest : list string)
    (analysisCount skippedCount : Z) (w : World float64)
    (user : UserModel) (cachedResult : SecondStepClaudeResponse float64) :
  db_users (dbService w) !! username = Some user ->
  user_ID user ∈ db_fresh (dbService w) ->
  db_cached (dbService w) !! user_ID user = Some cachedResult ->
  exists w1,
    batchLaunch chatID (username :: rest) analysisCount skippedCount w
    = batchLaunch chatID rest analysisCount (skippedCount + 1) w1
    /\ trace w1 = trace w ++
         [Db (GetUserByUsername username);
          Db (HasValidCachedAnalysis (user_ID user));
          Db (GetCachedAnalysis (user_ID user));
          Go (GoSendCachedBatchNotification username (user_ID user)
                cachedResult chatID)]
    /\ dbService w1 = dbService w
    /\ analysisChannel w1 = analysisChannel w
    /\ forall w2,
        sendCachedBatchNotification sprintfPercent username (user_ID user)
          cachedResult chatID w2
        = (Done tt,
           next_request
             (emit (SendMessageCall chatID
                      (cachedBatchMessage sprintfPercent username cachedResult))
                w2)).
Proof.
  intros Hu Hf Hc. cbn [batchLaunch]. unfold_batch. cbn.
  rewrite Hu. cbn. rewrite bool_decide_eq_true_2 by exact Hf. cbn.
  rewrite Hc. cbn.
  eexists. split; [reflexivity|]. cbn. rewrite <- !app_assoc.
  repeat split.
Qed.

Lemma cleanUsernames_filter (usernames valid invalid : list string) :
  fst (cleanUsernames usernames valid invalid)
  = valid ++ List.filter acceptedName (map cleanName usernames).
Proof.
  revert valid invalid.
  induction usernames as [|u us IH]; intros valid invalid; cbn.
  - now rewrite app_nil_r.
  - fold (cleanName u). unfold acceptedName at 1.
    destruct (String.eqb (cleanName u) ""); cbn; [apply IH|].
    destruct ((50 <? len (cleanName u)) || Contains (cleanName u) " "); cbn.
    + apply IH.
    + rewrite IH, <- app_assoc. reflexivity.
Qed.

Lemma lookups_snoc (evs : list (Event float64)) (e : Event float64) :
  lookups (evs ++ [e]) = lookups evs ++ lookupOf e.
Proof.
  unfold lookups. rewrite flat_map_app. cbn. now rewrite app_nil_r.
Qed.

Lemma filter_hasFreshResult (d d' : DatabaseService float64) (l : list string) :
  db_users d' = db_users d ->
  db_fresh d' = db_fresh d ->
  List.filter (hasFreshResult d') l = List.filter (hasFreshResult d) l
  /\ List.filter (fun u => negb (hasFreshResult d' u)) l
     = List.filter (fun u => negb (hasFreshResult d u)) l.
Proof.
  intros E1 E2. split; apply filter_ext; intros x;
    unfold hasFreshResult; now rewrite E1, E2.
Qed.

Ltac batch_step IH w :=
  match goal with
  | |- context [batchLaunch ?c ?rest ?A ?S ?W] =>
      let a' := fresh "a'" in
      let s' := fresh "s'" in
      let w' := fresh "w'" in
      destruct (IH A S W) as (a' & s' & w' & Hrun & Hl & Hs & Ha & Hdu & Hdf);
      rewrite Hrun; exists a', s', w';
      destruct (filter_hasFreshResult (dbService w) (dbService W) rest
                  eq_refl eq_refl) as [F1 F2];
      rewrite F1 in Hs; rewrite F2 in Ha; clear F1 F2;
      cbn in Hl, Hdu, Hdf;
      rewrite ?lookups_snoc in Hl; cbn [lookupOf] in Hl;
      rewrite ?app_nil_r, <- ?app_assoc in Hl
  end.

(** The launch loop takes the entries one by one: it resolves every
    entry of the list, in order and as often as the entry occurs; it
    skips the entries with a fresh cached result and counts the others
    when their task record could be created. *)
Lemma batchLaunch_every_entry
    (chatID : Z) (validUsernames : list string) :
  forall (analysisCount skippedCount : Z) (w : World float64),
  exists analysisCount' skippedCount' w',
    batchLaunch chatID validUsernames analysisCount skippedCount w
    = (Done (analysisCount', skippedCount'), w')
    /\ lookups (trace w') = lookups (trace w) ++ validUsernames
    /\ skippedCount' = skippedCount
         + Z.of_nat (List.length
                       (List.filter (hasFreshResult (dbService w)) validUsernames))
    /\ analysisCount <= analysisCount'
       <= analysisCount
          + Z.of_nat (List.length
                        (List.filter (fun u => negb (hasFreshResult (dbService w) u))
                           validUsernames))
    /\ db_users (dbService w') = db_users (dbService w)
    /\ db_fresh (dbService w') = db_fresh (dbService w).
Proof.
  induction validUsernames as [|username rest IH]; intros a s w.
  - exists a, s, w. cbn. rewrite app_nil_r. repeat split; lia.
  - cbn [batchLaunch]. unfold_batch. cbn.
    cbn [List.filter].
    destruct (db_users (dbService w) !! username) as [u|] eqn:Hu; cbn.
    + destruct (bool_decide (user_ID u ∈ db_fresh (dbService w))) eqn:Hf; cbn.
      * assert (Hfr : hasFreshResult (dbService w) username = true)
          by (unfold hasFreshResult; now rewrite Hu).
        rewrite Hfr. cbn [negb].
        destruct (db_cached (dbService w) !! user_ID u); cbn;
          batch_step IH w; (split; [reflexivity|]);
          (split; [exact Hl|]); cbn [List.length];
          repeat split; try assumption; lia.
      * assert (Hfr : hasFreshResult (dbService w) username = false)
          by (unfold hasFreshResult; now rewrite Hu).
        rewrite Hfr. cbn [negb].
        case_lookup; cbn; batch_step IH w; (split; [reflexivity|]);
          (split; [exact Hl|]); cbn [List.length];
          repeat split; try assumption; lia.
    + assert (Hfr : hasFreshResult (dbService w) username = false)
        by (unfold hasFreshResult; now rewrite Hu).
      rewrite Hfr. cbn [negb].
      case_lookup; cbn; batch_step IH w; (split; [reflexivity|]);
        (split; [exact Hl|]); cbn [List.length];
        repeat split; try assumption; lia.
Qed.



(** ** The progress monitor *)

Ltac unfold_tick :=
  unfold monitorTick, bind, dbGetAnalysisTask, timeNow, EditMessage, ret.

Lemma monitorTick_outcome (taskID : string) (w : World float64) :
  fst (monitorTick sprintfSeconds sprintfMinutes taskID w)
  = Done match db_tasks (dbService w) !! taskID with
         | None => false
         | Some task => negb (isTerminal (task_Status task))
         end.
Proof.
  unfold_tick. cbn.
  destruct (db_tasks (dbService w) !! taskID) as [task|]; cbn; [|reflexivity].
  destruct (isTerminal (task_Status task)); reflexivity.
Qed.

Lemma monitorLoop_returned (between : nat -> World float64 -> World float64) (taskID : string)
    (ticks : nat) :
  forall (n : nat) (w w' : World float64),
    monitorLoop sprintfSeconds sprintfMinutes between taskID ticks n w = (Done Returned, w') ->
    exists w0, monitorTick sprintfSeconds sprintfMinutes taskID w0 = (Done false, w').
Proof.
  induction ticks as [|ticks IH]; intros n w w' H; cbn [monitorLoop] in H;
    [discriminate|].
  destruct (monitorTick sprintfSeconds sprintfMinutes taskID (between n w))
    as [[[]|v|] w1] eqn:Ht;
    try discriminate.
  - eapply IH, H.
  - injection H as <-. eauto.
Qed.

(** C6, as the code has it. A tick that reads a terminal status edits
    the message once, with the final view of the task (which does not
    depend on the clock), and returns from the monitor; once a tick has
    returned the monitor has returned for every number of later firings
    of the ticker, so no edit follows. The monitor has two exits: a tick
    returns exactly when its read of the task record fails or shows a
    terminal status, and after a failed read it returns without an
    edit. *)
Theorem monitor_exits (between : nat -> World float64 -> World float64) (taskID : string) :
  (forall (w : World float64) task,
      db_tasks (dbService w) !! taskID = Some task ->
      isTerminal (task_Status task) = true ->
      monitorTick sprintfSeconds sprintfMinutes taskID w
      = (Done false,
         next_request
           (emit (EditMessageCall (task_TelegramChatID task) (task_MessageID task)
                    (formatAnalysisProgress sprintfSeconds sprintfMinutes (clock w) task))
              (emit (Db (GetAnalysisTask taskID)) w)))
      /\ forall now, formatAnalysisProgress sprintfSeconds sprintfMinutes now task
                     = formatAnalysisProgress sprintfSeconds sprintfMinutes (clock w) task)
  /\ (forall ticks n (w w' : World float64),
      monitorTick sprintfSeconds sprintfMinutes taskID (between n w) = (Done false, w') ->
      monitorLoop sprintfSeconds sprintfMinutes between taskID (S ticks) n w = (Done Returned, w'))
  /\ (forall w : World float64,
      fst (monitorTick sprintfSeconds sprintfMinutes taskID w) = Done false
      <-> (db_tasks (dbService w) !! taskID = None
           \/ exists task,
               db_tasks (dbService w) !! taskID = Some task
               /\ isTerminal (task_Status task) = true))
  /\ (forall w : World float64,
      db_tasks (dbService w) !! taskID = None ->
      monitorTick sprintfSeconds sprintfMinutes taskID w = (Done false, emit (Db (GetAnalysisTask taskID)) w))
  /\ (forall ticks (w w' : World float64),
      monitorAnalysisProgress sprintfSeconds sprintfMinutes between taskID ticks w = (Done Returned, w') ->
      exists w0,
        monitorTick sprintfSeconds sprintfMinutes taskID w0 = (Done false, w')
        /\ (db_tasks (dbService w0) !! taskID = None
            \/ exists task,
                db_tasks (dbService w0) !! taskID = Some task
                /\ isTerminal (task_Status task) = true)).
Proof.
  assert (Hexit : forall w : World float64,
      fst (monitorTick sprintfSeconds sprintfMinutes taskID w) = Done false
      <-> (db_tasks (dbService w) !! taskID = None
           \/ exists task,
               db_tasks (dbService w) !! taskID = Some task
               /\ isTerminal (task_Status task) = true)).
  { intros w. rewrite monitorTick_outcome.
    destruct (db_tasks (dbService w) !! taskID) as [task|]; split.
    - intros H. right. exists task. split; [reflexivity|].
      destruct (isTerminal (task_Status task)); [reflexivity|discriminate].
    - intros [H|(t & Ht & Hterm)]; [discriminate|].
      injection Ht as <-. now rewrite Hterm.
    - auto.
    - reflexivity. }
  split; [|split; [|split; [exact Hexit|split]]].
  - intros w task Ht Hterm. split.
    + unfold_tick. cbn. rewrite Ht. cbn. rewrite Hterm. reflexivity.
    + intros now. unfold formatAnalysisProgress, isTerminal in *.
      destruct (status_eqb (task_Status task) ANALYSIS_STATUS_FAILED);
        [reflexivity|].
      destruct (status_eqb (task_Status task) ANALYSIS_STATUS_COMPLETED);
        [reflexivity|discriminate].
  - intros ticks n w w' H. cbn [monitorLoop]. now rewrite H.
  - intros w Ht. unfold_tick. cbn. now rewrite Ht.
  - intros ticks w w' H. unfold monitorAnalysisProgress in H.
    destruct (monitorLoop_returned _ _ _ _ _ _ H) as [w0 Hw0].
    exists w0. split; [exact Hw0|]. apply Hexit. now rewrite Hw0.
Qed.


(* ------------------------------------------------------------------ *)
(** * The rest of the service *)
(* ------------------------------------------------------------------ *)

Context {FUDAlertNotification : Type}.
Variable FormatForTelegramWithDetail : FUDAlertNotification -> string -> string.
Variable FormatDetailedView : FUDAlertNotification -> string.
Variable urlParse : string -> option string.

(** Takes the library functions the statement does not mention out of
    the context, so that no proof search picks them up. *)
Ltac forget_library :=
  try clear urlParse; try clear FormatDetailedView;
  try clear FormatForTelegramWithDetail; try clear formatMinute;
  try clear formatRFC3339; try clear sprintfMinutes; try clear sprintfSeconds;
  try clear sprintfPercent.

(** ** Commands with the argument after an underscore *)

Lemma splitFrom_not_nil (sep : string) (s : string) : splitFrom sep 0 s <> [].
Proof using Type.
  destruct s as [|a s]; cbn; [discriminate|].
  destruct (HasPrefix (String a s) sep); [discriminate|].
  destruct (splitFrom sep 0 s); discriminate.
Qed.

(** Joining the parts of a split on one byte with that byte gives the
    string back. *)
Lemma Join_Split_byte (c : ascii) (s : string) :
  Join (Split s (String c EmptyString)) (String c EmptyString) = s.
Proof using Type.
  unfold Join, Split. induction s as [|a s IH]; [reflexivity|].
  cbn [splitFrom]. unfold HasPrefix; cbn [cutPrefix].
  pose proof (splitFrom_not_nil (String c EmptyString) s) as Hne.
  destruct (Ascii.eqb_spec c a) as [->|Hca]; cbn [String.length Nat.sub].
  - destruct (splitFrom (String a EmptyString) 0 s) as [|h r] eqn:E;
      [contradiction|].
    rewrite <- IH. reflexivity.
  - destruct (splitFrom (String c EmptyString) 0 s) as [|h r] eqn:E;
      [contradiction|].
    rewrite <- IH. destruct r; reflexivity.
Qed.

Lemma Split_two (c : ascii) (s p u : string) :
  Split s (String c EmptyString) = [p; u] -> s = p +:+ String c u.
Proof using Type.
  intros H. rewrite <- (Join_Split_byte c s) at 1. rewrite H. reflexivity.
Qed.

Lemma Split_three (c : ascii) (s a b u : string) :
  Split s (String c EmptyString) = [a; b; u] ->
  s = a +:+ String c (b +:+ String c u).
Proof using Type.
  intros H. rewrite <- (Join_Split_byte c s) at 1. rewrite H. reflexivity.
Qed.

(** With a bound of at least 3 that fits 64 bits [truncateText]
    returns. *)
Lemma truncateText_returns (text : string) (maxLength : Z) :
  3 <= maxLength <= MaxInt64 -> exists r, truncateText text maxLength = Done r.
Proof using Type.
  intros H. unfold MaxInt64 in H. unfold truncateText.
  destruct (Z.leb_spec (len text) maxLength); [eauto|].
  rewrite wrap64_id by (unfold is_int64, MinInt64, MaxInt64; lia).
  unfold slicePrefix.
  destruct (Z.ltb_spec (maxLength - 3) 0); [lia|].
  destruct (Z.ltb_spec (len text) (maxLength - 3)); [lia|]. eauto.
Qed.

Lemma historyEntries_returns (tweets : list TweetModel) :
  forall i b, exists r, historyEntries formatMinute i tweets b = Done r.
Proof using Type.
  induction tweets as [|tweet rest IH]; intros i b; cbn [historyEntries];
    [eauto|].
  destruct (truncateText_returns (tweet_Text tweet) 200) as [r ->];
    [unfold MaxInt64; lia|].
  apply IH.
Qed.

(** X1. Every /history command is answered with exactly one message to
    the chat it came from, and the handler returns, whatever the command
    text and the store hold: it cannot panic (the bounds it passes to
    [truncateText] are above 3), it writes nothing to the store and
    sends nothing on the analysis channel. The store is asked, once and
    for 20 messages, exactly when the text holds exactly one underscore;
    the username asked for is everything after that underscore. *)
Theorem handleHistoryCommand_always_replies
    (chatID : Z) (command : string) (w : World float64) :
  exists text w',
    handleHistoryCommand formatMinute chatID command w = (Done tt, w')
    /\ dbService w' = dbService w
    /\ analysisChannel w' = analysisChannel w
    /\ requests w' = S (requests w)
    /\ ((countByte "_" command <> 1%nat
         /\ text = historyInvalidFormat
         /\ trace w' = trace w ++ [SendMessageCall chatID text])
        \/ (countByte "_" command = 1%nat
            /\ exists prefix username,
                command = prefix +:+ "_" +:+ username
                /\ trace w'
                   = trace w ++ [Db (GetUserMessagesByUsername username 20);
                                 SendMessageCall chatID text])).
Proof using Type.
  pose proof (Split_byte_length "_" command) as Hlen.
  unfold handleHistoryCommand.
  destruct (Split command "_") as [|p [|u [|x l]]] eqn:Hs;
    cbn [List.length] in Hlen.
  1, 2, 4: exists historyInvalidFormat; eexists;
    (split; [reflexivity|]); cbn; repeat split; left; repeat split; lia.
  apply Split_two in Hs.
  unfold bind, dbGetUserMessagesByUsername. cbn -[historyEntries take].
  destruct (db_messages (dbService w) u) as [err|tweets].
  - eexists. eexists. split; [reflexivity|]. cbn. repeat split.
    right. split; [lia|]. exists p, u. split; [exact Hs|].
    now rewrite <- app_assoc.
  - destruct (take (Z.to_nat 20) tweets) as [|tweet rest].
    + eexists. eexists. split; [reflexivity|]. cbn. repeat split.
      right. split; [lia|]. exists p, u. split; [exact Hs|].
      now rewrite <- app_assoc.
    + unfold liftO.
      match goal with
      | |- context [historyEntries formatMinute 0 ?l ?b] =>
          destruct (historyEntries_returns l 0 b) as [r ->]
      end.
      eexists. eexists. split; [reflexivity|]. cbn. repeat split.
      right. split; [lia|]. exists p, u. split; [exact Hs|].
      now rewrite <- app_assoc.
Qed.

Lemma tickerHistoryEntries_returns (opinions : list TickerOpinion) :
  forall i b, exists r, tickerHistoryEntries formatMinute i opinions b = Done r.
Proof using Type.
  induction opinions as [|opinion rest IH]; intros i b;
    cbn [tickerHistoryEntries]; [eauto|].
  destruct (truncateText_returns (op_Text opinion) 200) as [r ->];
    [unfold MaxInt64; lia|].
  destruct (negb (String.eqb (op_InReplyToID opinion) "")
            && negb (String.eqb (op_RepliedToAuthor opinion) "")).
  - destruct (truncateText_returns (op_RepliedToText opinion) 100) as [r' ->];
      [unfold MaxInt64; lia|].
    apply IH.
  - apply IH.
Qed.

(** X2. Every /ticker_history command is answered with exactly one
    message and nothing else happens. A text that does not hold exactly
    two underscores gets the invalid-format reply whatever the store
    holds; with two, the username is everything after the second one,
    the opinions are asked for that username, the ticker of the service
    and a limit of 20, and the reply is the error, the no-messages text
    or the formatted list, whose loop always returns. *)
Theorem handleTickerHistoryCommand_always_replies
    (opinionsOf : string -> string -> Z -> string + list TickerOpinion)
    (t : TelegramService FUDAlertNotification) (chatID : Z) (command : string)
    (w : World float64) :
  exists text,
    handleTickerHistoryCommand formatMinute opinionsOf t chatID command w
    = (Done tt, next_request (emit (SendMessageCall chatID text) w))
    /\ (countByte "_" command <> 2%nat -> text = tickerInvalidFormat)
    /\ (countByte "_" command = 2%nat ->
        exists a b username,
          command = a +:+ "_" +:+ b +:+ "_" +:+ username
          /\ (forall err,
                 opinionsOf username (ticker t) 20 = inl err ->
                 text = lit "❌ Error retrieving ticker history for @"
                        +:+ username +:+ lit ": " +:+ err)
          /\ (opinionsOf username (ticker t) 20 = inr [] ->
              text = lit "📭 No ticker-related messages found for @"
                     +:+ username +:+ lit " and " +:+ ticker t)
          /\ (forall opinions,
                 opinionsOf username (ticker t) 20 = inr opinions ->
                 opinions <> [] ->
                 exists body,
                   tickerHistoryEntries formatMinute 0 opinions
                     (lit "💰 <b>Ticker History for @" +:+ username
                      +:+ lit " (" +:+ ticker t +:+ lit ")</b> (Last 20)\n\n")
                   = Done body
                   /\ text = body
                        +:+ lit "📊 Total ticker mentions found: "
                        +:+ itoa (Z.of_nat (List.length opinions)) +:+ lit "\n"
                        +:+ lit "📄 For full message history: /export_"
                        +:+ username)).
Proof using Type.
  pose proof (Split_byte_length "_" command) as Hlen.
  unfold handleTickerHistoryCommand.
  destruct (Split command "_") as [|a [|b [|u [|x l]]]] eqn:Hs;
    cbn [List.length] in Hlen.
  1, 2, 3, 5: exists tickerInvalidFormat; split; [reflexivity|];
    split; [reflexivity | intros; lia].
  apply Split_three in Hs.
  destruct (opinionsOf u (ticker t) 20) as [err|[|opinion rest]] eqn:Ho.
  - eexists. split; [reflexivity|]. split; [intros; lia|]. intros _.
    exists a, b, u. split; [exact Hs|]. rewrite Ho.
    repeat split; try discriminate. now intros err' [= <-].
  - eexists. split; [reflexivity|]. split; [intros; lia|]. intros _.
    exists a, b, u. split; [exact Hs|]. rewrite Ho.
    repeat split; try discriminate. intros opinions [= <-]. congruence.
  - unfold bind, liftO.
    match goal with
    | |- context [tickerHistoryEntries formatMinute 0 ?l ?b0] =>
        destruct (tickerHistoryEntries_returns l 0 b0) as [r Hr]; rewrite Hr
    end.
    eexists. split; [reflexivity|]. split; [intros; lia|]. intros _.
    exists a, b, u. split; [exact Hs|]. rewrite Ho.
    repeat split; try discriminate.
    intros opinions [= <-] _. exists r. split; [exact Hr | reflexivity].
Qed.

(** X3. Every /detail command is answered with exactly one message and
    nothing else happens. With exactly one underscore in the text the
    ID looked up is everything after it; an ID the registry does not
    hold gets "Notification not found or expired", any other number of
    underscores the invalid-format reply. *)
Theorem handleDetailCommand_always_replies
    (t : TelegramService FUDAlertNotification) (chatID : Z) (command : string)
    (w : World float64) :
  exists text,
    handleDetailCommand FormatDetailedView t chatID command w
    = (Done tt, next_request (emit (SendMessageCall chatID text) w))
    /\ (countByte "_" command <> 1%nat -> text = detailInvalidFormat)
    /\ (countByte "_" command = 1%nat ->
        exists prefix notificationID,
          command = prefix +:+ "_" +:+ notificationID
          /\ text = match notifications t !! notificationID with
                    | Some alert => FormatDetailedView alert
                    | None => detailNotFound
                    end).
Proof using Type.
  pose proof (Split_byte_length "_" command) as Hlen.
  unfold handleDetailCommand.
  destruct (Split command "_") as [|p [|u [|x l]]] eqn:Hs;
    cbn [List.length] in Hlen.
  1, 2, 4: exists detailInvalidFormat; split; [reflexivity|];
    split; [reflexivity | intros; lia].
  apply Split_two in Hs.
  destruct (notifications t !! u) as [alert|] eqn:Hn.
  - eexists. split; [reflexivity|]. split; [intros; lia|]. intros _.
    exists p, u. now rewrite Hn.
  - eexists. split; [reflexivity|]. split; [intros; lia|]. intros _.
    exists p, u. now rewrite Hn.
Qed.

(** ** Identifiers *)

Lemma hexDigit_isHexDigit (n : N) : (n < 16)%N -> isHexDigit (hexDigit n) = true.
Proof using Type.
  intros H. destruct n as [|p]; [reflexivity|].
  do 5 (destruct p as [p|p|]; try reflexivity; try lia).
Qed.

Lemma hexDigit_inj (x y : N) :
  (x < 16)%N -> (y < 16)%N -> hexDigit x = hexDigit y -> x = y.
Proof using Type.
  intros Hx Hy H. unfold hexDigit in H.
  apply (f_equal N_of_ascii) in H.
  rewrite !N_ascii_embedding in H
    by (destruct (N.ltb_spec x 10), (N.ltb_spec y 10); lia).
  destruct (N.ltb_spec x 10), (N.ltb_spec y 10); lia.
Qed.

Lemma byte_nibbles (c : ascii) :
  (N_of_ascii c / 16 < 16)%N /\ (N_of_ascii c mod 16 < 16)%N.
Proof using Type.
  pose proof (N_ascii_bounded c). split.
  - apply N.Div0.div_lt_upper_bound. lia.
  - apply N.mod_lt. lia.
Qed.

Lemma hexEncode_length (s : string) :
  String.length (hexEncode s) = (2 * String.length s)%nat.
Proof using Type. induction s as [|c s IH]; cbn; [reflexivity | rewrite IH; lia]. Qed.

Lemma hexEncode_digits (s : string) :
  forallb isHexDigit (list_ascii_of_string (hexEncode s)) = true.
Proof using Type.
  induction s as [|c s IH]; [reflexivity|].
  destruct (byte_nibbles c) as [H1 H2].
  cbn [hexEncode list_ascii_of_string forallb].
  now rewrite !hexDigit_isHexDigit, IH.
Qed.

Lemma hexEncode_inj (a : string) : forall b, hexEncode a = hexEncode b -> a = b.
Proof using Type.
  induction a as [|c a IH]; intros [|d b] H; cbn in H; try discriminate;
    [reflexivity|].
  injection H; clear H; intros H3 H2 H1.
  destruct (byte_nibbles c) as [Hc1 Hc2], (byte_nibbles d) as [Hd1 Hd2].
  apply hexDigit_inj in H1; [|assumption..].
  apply hexDigit_inj in H2; [|assumption..].
  f_equal; [|now apply IH].
  rewrite <- (ascii_N_embedding c), <- (ascii_N_embedding d). f_equal.
  rewrite (N.div_mod (N_of_ascii c) 16), (N.div_mod (N_of_ascii d) 16) by lia.
  now rewrite H1, H2.
Qed.

Lemma digits_no_underscore (s : string) :
  forallb isHexDigit (list_ascii_of_string s) = true -> countByte "_" s = 0%nat.
Proof using Type.
  induction s as [|c s IH]; cbn; [reflexivity|].
  intros [Hc Hs]%andb_prop. rewrite (IH Hs).
  destruct (Ascii.eqb_spec c "_") as [->|]; [discriminate Hc | reflexivity].
Qed.

Lemma eightBytes_length (s : string) : String.length (eightBytes s) = 8%nat.
Proof using Type.
  unfold eightBytes. apply length_substring_0.
  rewrite length_append. cbn. lia.
Qed.

(** X4. An ID from [generateNotificationID] is 16 lower case hexadecimal
    digits, so it holds no underscore; the call uses up one draw of
    random bytes and changes nothing else; two calls give the same ID
    exactly when their eight bytes are the same. *)
Theorem generateNotificationID_format (w : World float64) :
  exists id,
    generateNotificationID w = (Done id, next_draw w)
    /\ String.length id = 16%nat
    /\ forallb isHexDigit (list_ascii_of_string id) = true
    /\ countByte "_" id = 0%nat
    /\ forall w2 : World float64,
        fst (generateNotificationID w2) = Done id
        <-> eightBytes (entropy w2 (draws w2)) = eightBytes (entropy w (draws w)).
Proof using Type.
  eexists. split; [reflexivity|].
  split; [now rewrite hexEncode_length, eightBytes_length|].
  split; [apply hexEncode_digits|].
  split; [apply digits_no_underscore, hexEncode_digits|].
  intros w2. cbn. split.
  - intros [= H]. now apply hexEncode_inj.
  - now intros ->.
Qed.

(** ** The chat registry and the broadcast *)

Lemma broadcastLoop_run (text : string) (rangeOrder : list Z) :
  forall (errors : list string) (w : World float64),
  exists errors' w',
    broadcastLoop rangeOrder text errors w = (Done errors', w')
    /\ trace w' = trace w ++ map (fun c => SendMessageCall c text) rangeOrder
    /\ requests w' = (requests w + List.length rangeOrder)%nat
    /\ telegram w' = telegram w
    /\ dbService w' = dbService w
    /\ analysisChannel w' = analysisChannel w
    /\ List.length errors'
       = (List.length errors
          + failures (telegram w) (requests w) (List.length rangeOrder))%nat.
Proof using Type.
  induction rangeOrder as [|c rest IH]; intros errors w.
  - exists errors, w. cbn. rewrite app_nil_r. repeat split; lia.
  - cbn [broadcastLoop]. unfold bind, SendMessage.
    destruct (telegram w (requests w)) as [e|m] eqn:Hr.
    + match goal with
      | |- context [broadcastLoop rest text ?E ?W] =>
          destruct (IH E W) as (errors' & w' & Hrun & Htr & Hrq & Htg & Hdb & Hch & Hn)
      end.
      rewrite Hrun. exists errors', w'. split; [reflexivity|].
      cbn in *. rewrite Htr, Hrq, Htg, Hdb, Hch, Hn, Hr, <- app_assoc.
      rewrite length_app. cbn. repeat split; lia.
    + match goal with
      | |- context [broadcastLoop rest text ?E ?W] =>
          destruct (IH E W) as (errors' & w' & Hrun & Htr & Hrq & Htg & Hdb & Hch & Hn)
      end.
      rewrite Hrun. exists errors', w'. split; [reflexivity|].
      cbn in *. rewrite Htr, Hrq, Htg, Hdb, Hch, Hn, Hr, <- app_assoc.
      repeat split; lia.
Qed.

Lemma sends_to_each (text : string) (c : Z) (l : list Z) :
  NoDup l ->
  List.length (List.filter (sendsTo (float64:=float64) c)
                 (map (fun c => SendMessageCall c text) l))
  = if bool_decide (c ∈ l) then 1%nat else 0%nat.
Proof using Type.
  forget_library.
  induction 1 as [|x l Hx Hl IH]; [reflexivity|].
  cbn [map List.filter sendsTo].
  destruct (Z.eqb_spec x c) as [->|Hne].
  - cbn [List.length]. rewrite IH.
    rewrite (bool_decide_eq_false_2 (c ∈ l)) by exact Hx.
    rewrite bool_decide_eq_true_2 by (left). reflexivity.
  - rewrite IH. apply (f_equal (fun b : bool => if b then 1%nat else 0%nat)).
    apply bool_decide_ext. rewrite elem_of_cons. intuition congruence.
Qed.

(** X5. [BroadcastMessage] sends the text once to every registered
    chat and to no other, in the order the range yields them, and goes
    on after a send that fails: it makes as many requests as there are
    chats. Its result is nil when no send failed and otherwise the error
    "failed to send to N chats" with N the number of sends that failed.
    The store is not touched. *)
Theorem BroadcastMessage_every_chat
    (t : TelegramService FUDAlertNotification) (rangeOrder : list Z)
    (text : string) (w : World float64) :
  isRangeOrder t rangeOrder ->
  let failed := failures (telegram w) (requests w) (List.length rangeOrder) in
  exists w',
    BroadcastMessage t rangeOrder text w
    = (Done (if (failed =? 0)%nat then None
             else Some (lit "failed to send to " +:+ itoa (Z.of_nat failed)
                        +:+ lit " chats")), w')
    /\ trace w' = trace w ++ map (fun c => SendMessageCall c text) rangeOrder
    /\ requests w' = (requests w + List.length rangeOrder)%nat
    /\ dbService w' = dbService w
    /\ forall c,
        List.length (List.filter (sendsTo (float64:=float64) c)
                       (map (fun c => SendMessageCall c text) rangeOrder))
        = match chatIDs t !! c with Some _ => 1%nat | None => 0%nat end.
Proof using Type.
  intros [Hnd Hkeys] failed.
  assert (Hcount : forall c,
    List.length (List.filter (sendsTo (float64:=float64) c)
                   (map (fun c => SendMessageCall c text) rangeOrder))
    = match chatIDs t !! c with Some _ => 1%nat | None => 0%nat end).
  { intros c. rewrite sends_to_each by exact Hnd.
    destruct (chatIDs t !! c) as [b|] eqn:Hc.
    - rewrite bool_decide_eq_true_2; [reflexivity|].
      apply Hkeys. rewrite Hc. eauto.
    - rewrite bool_decide_eq_false_2; [reflexivity|].
      rewrite Hkeys, Hc. now intros [? ?]. }
  unfold BroadcastMessage.
  destruct (Nat.eqb_spec (size (chatIDs t)) 0) as [Hz|Hnz].
  - apply map_size_empty_inv in Hz.
    assert (Hnil : rangeOrder = []).
    { destruct rangeOrder as [|c l]; [reflexivity|].
      assert (Hin : c ∈ c :: l) by left.
      apply Hkeys in Hin. rewrite Hz, lookup_empty in Hin. now destruct Hin. }
    subst rangeOrder failed. exists w. cbn. rewrite app_nil_r.
    repeat split; try lia. exact Hcount.
  - unfold bind.
    destruct (broadcastLoop_run text rangeOrder [] w)
      as (errors' & w' & Hrun & Htr & Hrq & _ & Hdb & _ & Hn).
    rewrite Hrun. cbn [List.length Nat.add] in Hn. fold failed in Hn.
    exists w'. rewrite Hn.
    destruct failed; cbn; (split; [reflexivity|]); auto.
Qed.

Lemma Split_none (c : ascii) (s : string) :
  countByte c s = 0%nat -> Split s (String c EmptyString) = [s].
Proof using Type.
  unfold Split. induction s as [|a s IH]; [reflexivity|].
  cbn [countByte splitFrom]. unfold HasPrefix; cbn [cutPrefix].
  rewrite (Ascii.eqb_sym c a).
  destruct (Ascii.eqb a c); [discriminate|]. cbn [Nat.add].
  intros H. now rewrite (IH H).
Qed.

Lemma Split_append_byte (c : ascii) (p s : string) :
  countByte c p = 0%nat ->
  Split (p +:+ String c s) (String c EmptyString)
  = p :: Split s (String c EmptyString).
Proof using Type.
  unfold Split. induction p as [|a p IH].
  - intros _. change (EmptyString +:+ String c s) with (String c s).
    cbn [splitFrom]. unfold HasPrefix; cbn [cutPrefix].
    now rewrite Ascii.eqb_refl.
  - change (String a p +:+ String c s) with (String a (p +:+ String c s)).
    cbn [countByte splitFrom]. unfold HasPrefix; cbn [cutPrefix].
    rewrite (Ascii.eqb_sym c a).
    destruct (Ascii.eqb a c); [discriminate|]. cbn [Nat.add].
    intros H. now rewrite (IH H).
Qed.

(** X6. [StoreAndBroadcastNotification] stores the alert under the ID it
    draws, whether or not there are chats and whether or not the sends
    succeed; every message it sends is the alert formatted with that ID;
    the chats and the store are as before. From then on /detail_<id>
    with that ID answers with the detailed view of that alert. *)
Theorem notification_round_trip
    (t : TelegramService FUDAlertNotification) (rangeOrder : list Z)
    (alert : FUDAlertNotification) (chatID : Z) (w w2 : World float64) :
  let notificationID := hexEncode (eightBytes (entropy w (draws w))) in
  exists t' err w',
    StoreAndBroadcastNotification FormatForTelegramWithDetail t rangeOrder alert w
    = (Done (t', err), w')
    /\ notifications t' = <[notificationID := alert]> (notifications t)
    /\ chatIDs t' = chatIDs t
    /\ dbService w' = dbService w
    /\ (forall e, In e (drop (List.length (trace w)) (trace w')) ->
        exists c,
          e = SendMessageCall c (FormatForTelegramWithDetail alert notificationID))
    /\ handleDetailCommand FormatDetailedView t' chatID
         ("/detail_" +:+ notificationID) w2
       = (Done tt,
          next_request (emit (SendMessageCall chatID (FormatDetailedView alert)) w2)).
Proof using Type.
  intros notificationID.
  assert (Hdetail : forall t' : TelegramService FUDAlertNotification,
    notifications t' = <[notificationID := alert]> (notifications t) ->
    handleDetailCommand FormatDetailedView t' chatID
      ("/detail_" +:+ notificationID) w2
    = (Done tt,
       next_request (emit (SendMessageCall chatID (FormatDetailedView alert)) w2))).
  { intros t' Hn. unfold handleDetailCommand.
    change ("/detail_" +:+ notificationID)
      with ("/detail" +:+ String "_" notificationID).
    rewrite Split_append_byte by reflexivity.
    rewrite Split_none
      by (apply digits_no_underscore, hexEncode_digits).
    now rewrite Hn, lookup_insert_eq. }
  unfold StoreAndBroadcastNotification, bind, generateNotificationID.
  fold notificationID. unfold BroadcastMessage. cbn [chatIDs set_notifications].
  destruct (size (chatIDs t) =? 0)%nat.
  - eexists. eexists. eexists. split; [reflexivity|]. cbn.
    repeat split; [|now apply Hdetail].
    intros e. rewrite drop_all. intros [].
  - unfold bind.
    match goal with
    | |- context [broadcastLoop rangeOrder ?T [] ?W] =>
        destruct (broadcastLoop_run T rangeOrder [] W)
          as (errors' & w' & Hrun & Htr & _ & _ & Hdb & _ & _)
    end.
    rewrite Hrun.
    destruct (0 <? List.length errors')%nat; cbn.
    all: eexists; eexists; eexists; (split; [reflexivity|]); cbn.
    all: repeat split; [exact Hdb | | now apply Hdetail].
    all: intros e; rewrite Htr; cbn; rewrite drop_app_length.
    all: intros (c & <- & _)%in_map_iff; eauto.
Qed.

(** ** [processUpdates] *)

Lemma dispatchCommand_stops (update : TelegramUpdate) :
  String.eqb (upd_Text update) "" = false ->
  match dispatchCommand (float64:=float64) (upd_ChatID update) (upd_Text update) with
  | Some _ => stopsBatch update = false
  | None => stopsBatch update = true
  end.
Proof using Type.
  intros He. unfold dispatchCommand, stopsBatch. rewrite He. cbn [negb andb].
  destruct (Fields (TrimSpace (upd_Text update))); reflexivity.
Qed.

Lemma chatRegistered_insert (t : TelegramService FUDAlertNotification) (c c' : Z) :
  chatRegistered (set_chatIDs (<[c := true]> (chatIDs t)) t) c'
  = if Z.eqb c' c then true else chatRegistered t c'.
Proof using Type.
  unfold chatRegistered. cbn [chatIDs set_chatIDs].
  destruct (Z.eqb_spec c' c) as [->|Hne].
  - now rewrite lookup_insert_eq.
  - now rewrite lookup_insert_ne by congruence.
Qed.

(** One registration step followed by the steps after it: [reg], [reg']
    are the registry before and after, [w1] and [w] the chats welcomed
    by the step and after it, [P] the chats met after the step. *)
Lemma registry_compose (reg reg' : Z -> bool) (c0 : Z) (P : Z -> Prop)
    (w1 w : list Z) :
  w1 = (if reg c0 then [] else [c0]) ->
  (forall c, reg' c = true
             <-> ((if Z.eqb c c0 then true else reg c) = true \/ P c)) ->
  List.NoDup w ->
  (forall c, In c w
             <-> ((if Z.eqb c c0 then true else reg c) = false /\ reg' c = true)) ->
  (forall c, reg' c = true <-> (reg c = true \/ (c0 = c \/ P c)))
  /\ List.NoDup (w1 ++ w)
  /\ (forall c, In c (w1 ++ w) <-> (reg c = false /\ reg' c = true)).
Proof using Type.
  forget_library.
  intros -> Hreg Hnd Hw. split; [|split].
  - intros c. rewrite Hreg. destruct (Z.eqb_spec c c0) as [->|Hne];
      intuition congruence.
  - destruct (reg c0); [exact Hnd|]. constructor; [|exact Hnd].
    intros [H _]%Hw. rewrite Z.eqb_refl in H. discriminate.
  - intros c. pose proof (Hreg c) as Hc. pose proof (Hw c) as Hwc.
    rewrite in_app_iff.
    destruct (Z.eqb_spec c c0) as [Heq|Hne]; [subst c|];
      destruct (reg c0) eqn:Hc0; cbn;
      intuition (try congruence; try discriminate).
Qed.

(** X7. The chat registry under [processUpdates]: a chat is registered
    afterwards exactly when it was before or is the chat of an update
    the loop got to, so no chat is ever dropped; the registration reply
    is started once for each chat that is new, and for no other; the
    goroutines already started and the stored notifications are kept. *)
Theorem processUpdateList_registry (updates : list TelegramUpdate) :
  forall (t : TelegramService FUDAlertNotification) (started : list (Started float64)),
  exists t' news,
    processUpdateList updates t started = (t', started ++ news)
    /\ notifications t' = notifications t
    /\ (forall c,
         chatRegistered t' c = true
         <-> (chatRegistered t c = true
              \/ exists u, In u (processed updates) /\ upd_ChatID u = c))
    /\ List.NoDup (welcomed news)
    /\ (forall c,
         In c (welcomed news)
         <-> (chatRegistered t c = false /\ chatRegistered t' c = true)).
Proof using Type.
  forget_library.
  induction updates as [|update rest IH]; intros t started.
  - exists t, []. cbn. rewrite app_nil_r.
    split; [reflexivity|]. split; [reflexivity|]. split; [|split].
    + intros c. split; [auto|]. intros [H|(u & [] & _)]; exact H.
    + constructor.
    + intros c. split; [intros [] | intros [H1 H2]; congruence].
  - cbn [processUpdateList processed].
    set (t1 := set_lastOffset (wrap64 (upd_UpdateID update + 1)) t).
    set (c0 := upd_ChatID update).
    assert (Hstep : exists t2 news1,
      (if chatRegistered t1 c0 then (t1, started)
       else (set_chatIDs (<[c0 := true]> (chatIDs t1)) t1,
             started ++ [StartSendMessage c0 (registrationInfo update)]))
      = (t2, started ++ news1)
      /\ notifications t2 = notifications t
      /\ (forall c, chatRegistered t2 c
                    = if Z.eqb c c0 then true else chatRegistered t c)
      /\ welcomed news1 = (if chatRegistered t c0 then [] else [c0])).
    { change (chatRegistered t1 c0) with (chatRegistered t c0).
      destruct (chatRegistered t c0) eqn:Hc.
      - exists t1, []. rewrite app_nil_r. repeat split.
        intros c. change (chatRegistered t1 c) with (chatRegistered t c).
        destruct (Z.eqb_spec c c0); congruence.
      - eexists. exists [StartSendMessage c0 (registrationInfo update)].
        repeat split. intros c. now rewrite chatRegistered_insert. }
    destruct Hstep as (t2 & news1 & -> & Hn2 & Hreg2 & Hw1).
    (* the result when the loop ends at this update *)
    assert (Hend : exists t' news,
      (t2, started ++ news1) = (t', started ++ news)
      /\ notifications t' = notifications t
      /\ (forall c,
           chatRegistered t' c = true
           <-> (chatRegistered t c = true
                \/ exists u, In u [update] /\ upd_ChatID u = c))
      /\ List.NoDup (welcomed news)
      /\ (forall c,
           In c (welcomed news)
           <-> (chatRegistered t c = false /\ chatRegistered t' c = true))).
    { exists t2, news1. split; [reflexivity|]. split; [exact Hn2|].
      destruct (registry_compose (chatRegistered t) (chatRegistered t2) c0
                  (fun _ => False) (welcomed news1) [] Hw1)
        as (R1 & R2 & R3).
      - intros c. rewrite Hreg2. tauto.
      - constructor.
      - intros c. rewrite Hreg2. cbn.
        destruct (if (c =? c0) then true else chatRegistered t c);
          intuition discriminate.
      - rewrite app_nil_r in R2, R3. split; [|split; assumption].
        intros c. rewrite R1. split.
        + intros [H|[H|[]]]; [now left|]. right. exists update.
          split; [now left | exact H].
        + intros [H|(u & [<-|[]] & Hu)]; [now left|]. right. now left. }
    (* the result when the loop goes on *)
    assert (Hnext : forall started2,
      exists t' news,
        processUpdateList rest t2 (started ++ news1 ++ started2)
        = (t', started ++ news)
        /\ notifications t' = notifications t
        /\ (forall c,
             chatRegistered t' c = true
             <-> (chatRegistered t c = true
                  \/ exists u, In u (update :: processed rest) /\ upd_ChatID u = c))
        /\ (welcomed started2 = [] ->
            List.NoDup (welcomed news)
            /\ (forall c,
                 In c (welcomed news)
                 <-> (chatRegistered t c = false /\ chatRegistered t' c = true)))).
    { intros started2.
      destruct (IH t2 (started ++ news1 ++ started2))
        as (t' & news & Hrun & Hn & Hreg & Hnd & Hw).
      exists t', (news1 ++ started2 ++ news).
      split; [rewrite Hrun; now rewrite <- !app_assoc|].
      split; [congruence|].
      destruct (registry_compose (chatRegistered t) (chatRegistered t') c0
                  (fun c => exists u, In u (processed rest) /\ upd_ChatID u = c)
                  (welcomed news1) (welcomed news) Hw1)
        as (R1 & R2 & R3).
      - intros c. rewrite Hreg, Hreg2. reflexivity.
      - exact Hnd.
      - intros c. rewrite Hw, Hreg2. reflexivity.
      - split.
        + intros c. rewrite R1. split.
          * intros [H|[H|(u & Hu & Hc)]]; [now left | |].
            -- right. exists update. split; [now left | exact H].
            -- right. exists u. split; [now right | exact Hc].
          * intros [H|(u & [<-|Hu] & Hc)]; [now left | |].
            -- right. now left.
            -- right. right. eauto.
        + intros Hs2. unfold welcomed in *.
          rewrite !flat_map_app, Hs2. cbn [app]. split; assumption. }
    destruct (String.eqb (upd_Text update) "") eqn:He.
    + (* no text: the loop goes on *)
      assert (Hs : stopsBatch update = false)
        by (unfold stopsBatch; now rewrite He).
      rewrite Hs.
      destruct (Hnext []) as (t' & news & Hrun & Hn & Hreg & Hrest).
      rewrite !app_nil_r in Hrun.
      exists t', news. split; [exact Hrun|]. split; [exact Hn|].
      split; [exact Hreg|]. now apply Hrest.
    + pose proof (dispatchCommand_stops update He) as Hd. fold c0 in Hd.
      destruct (dispatchCommand c0 (upd_Text update)) as [g|] eqn:Hg;
        rewrite Hd.
      * destruct (Hnext [StartHandler g]) as (t' & news & Hrun & Hn & Hreg & Hrest).
        rewrite app_assoc in Hrun.
        exists t', news. split; [exact Hrun|]. split; [exact Hn|].
        split; [exact Hreg|]. now apply Hrest.
      * exact Hend.
Qed.

Lemma processed_prefix (before after : list TelegramUpdate) (u : TelegramUpdate) :
  forallb (fun x => negb (stopsBatch x)) before = true ->
  stopsBatch u = true ->
  processed (before ++ u :: after) = before ++ [u].
Proof using Type.
  intros Hb Hu. induction before as [|x before IH]; cbn in *.
  - now rewrite Hu.
  - apply andb_prop in Hb as [Hx Hb].
    destruct (stopsBatch x); [discriminate|]. now rewrite IH.
Qed.

(** One turn of the loop of [processUpdates]. *)
Lemma processUpdateList_cons (update : TelegramUpdate)
    (t : TelegramService FUDAlertNotification) (started : list (Started float64)) :
  exists t2 welcome,
    lastOffset t2 = wrap64 (upd_UpdateID update + 1)
    /\ handlers welcome = []
    /\ forall rest,
        processUpdateList (update :: rest) t started
        = if stopsBatch update then (t2, started ++ welcome)
          else processUpdateList rest t2
                 (started ++ welcome ++ map StartHandler (commandOf update)).
Proof using Type.
  cbn [processUpdateList].
  set (t1 := set_lastOffset (wrap64 (upd_UpdateID update + 1)) t).
  set (c0 := upd_ChatID update).
  assert (Hstep : exists t2 welcome,
    lastOffset t2 = wrap64 (upd_UpdateID update + 1)
    /\ handlers welcome = []
    /\ (if chatRegistered t1 c0 then (t1, started)
        else (set_chatIDs (<[c0 := true]> (chatIDs t1)) t1,
              started ++ [StartSendMessage c0 (registrationInfo update)]))
       = (t2, started ++ welcome)).
  { destruct (chatRegistered t1 c0).
    - exists t1, []. now rewrite app_nil_r.
    - eexists. exists [StartSendMessage c0 (registrationInfo update)].
      repeat split; reflexivity. }
  destruct Hstep as (t2 & welcome & Ho & Hh & ->).
  exists t2, welcome. split; [exact Ho|]. split; [exact Hh|]. intros rest.
  unfold commandOf. fold c0.
  destruct (String.eqb (upd_Text update) "") eqn:He.
  - assert (Hs : stopsBatch update = false)
      by (unfold stopsBatch; now rewrite He).
    rewrite Hs. unfold dispatchCommand. rewrite He. cbn [map].
    now rewrite app_nil_r.
  - pose proof (dispatchCommand_stops update He) as Hd. fold c0 in Hd.
    destruct (dispatchCommand c0 (upd_Text update)) as [g|]; rewrite Hd;
      [|reflexivity].
    cbn [map]. now rewrite app_assoc.
Qed.

Lemma stopsBatch_commandOf (update : TelegramUpdate) :
  stopsBatch update = true -> commandOf (float64:=float64) update = [].
Proof using Type.
  intros Hs. unfold commandOf.
  assert (He : String.eqb (upd_Text update) "" = false)
    by (unfold stopsBatch in Hs; now destruct (String.eqb (upd_Text update) "")).
  pose proof (dispatchCommand_stops update He) as Hd.
  destruct (dispatchCommand (upd_ChatID update) (upd_Text update));
    [congruence | reflexivity].
Qed.

Lemma handlers_app (a b : list (Started float64)) :
  handlers (a ++ b) = handlers a ++ handlers b.
Proof using Type. unfold handlers. apply flat_map_app. Qed.

Lemma handlers_StartHandler (gs : list (Goroutine float64)) :
  handlers (map StartHandler gs) = gs.
Proof using Type.
  induction gs as [|g gs IH]; [reflexivity|].
  cbn [map]. change (handlers (StartHandler g :: map StartHandler gs))
    with (g :: handlers (map StartHandler gs)). now rewrite IH.
Qed.

(** X8. [processUpdates] returns at the first update whose text is not
    empty but holds no field (white space only): the updates after it
    are not looked at in this call. For the updates it gets to it starts
    the handler of the command switch, one for each update with a
    field, in order; the offset of the next poll is the ID of the last
    update it got to plus one, so the updates it left out are fetched
    again. *)
Theorem processUpdateList_stops (updates : list TelegramUpdate) :
  forall (t : TelegramService FUDAlertNotification) (started : list (Started float64)),
  processUpdateList updates t started
  = processUpdateList (processed updates) t started
  /\ lastOffset (fst (processUpdateList updates t started))
     = match last (processed updates) with
       | Some u => wrap64 (upd_UpdateID u + 1)
       | None => lastOffset t
       end
  /\ handlers (snd (processUpdateList updates t started))
     = handlers started ++ flat_map commandOf (processed updates)
  /\ forall before u after,
      updates = before ++ u :: after ->
      forallb (fun x => negb (stopsBatch x)) before = true ->
      stopsBatch u = true ->
      processed updates = before ++ [u].
Proof using Type.
  induction updates as [|update rest IH]; intros t started.
  - cbn. rewrite app_nil_r. repeat split.
    intros [|x before] u after H; discriminate H.
  - destruct (processUpdateList_cons update t started)
      as (t2 & welcome & Ho & Hh & Hrun).
    split; [|split; [|split]].
    4: { intros before u after -> Hb Hu. now apply processed_prefix. }
    all: cbn [processed]; rewrite !Hrun.
    all: destruct (stopsBatch update) eqn:Hs.
    + now rewrite Hrun.
    + rewrite Hrun. apply IH.
    + exact Ho.
    + destruct (IH t2 (started ++ welcome ++ map StartHandler (commandOf update)))
        as (_ & I2 & _).
      rewrite I2, last_cons, Ho. now destruct (last (processed rest)).
    + cbn [snd flat_map]. rewrite handlers_app, Hh.
      now rewrite (stopsBatch_commandOf update Hs).
    + destruct (IH t2 (started ++ welcome ++ map StartHandler (commandOf update)))
        as (_ & _ & I3 & _).
      rewrite I3, !handlers_app, Hh, handlers_StartHandler. cbn [flat_map].
      now rewrite <- app_assoc.
Qed.

(** ** [NewTelegramService] *)

Lemma addInitialChatIDs_spec (entries : list string) :
  forall ids : gmap Z bool,
    (forall c, default false (addInitialChatIDs entries ids !! c) = true
               <-> (default false (ids !! c) = true
                    \/ exists entry,
                        In entry entries /\ ParseInt (TrimSpace entry) = Some c))
    /\ ((forall c b, ids !! c = Some b -> b = true) ->
        forall c b, addInitialChatIDs entries ids !! c = Some b -> b = true).
Proof using Type.
  induction entries as [|entry rest IH]; intros ids.
  - cbn. split; [|auto]. intros c. split; [auto|].
    intros [H|(e & [] & _)]; exact H.
  - cbn [addInitialChatIDs].
    assert (Hskip : ParseInt (TrimSpace entry) = None ->
      (forall c, default false (addInitialChatIDs rest ids !! c) = true
                 <-> (default false (ids !! c) = true
                      \/ exists e,
                          In e (entry :: rest) /\ ParseInt (TrimSpace e) = Some c))
      /\ ((forall c b, ids !! c = Some b -> b = true) ->
          forall c b, addInitialChatIDs rest ids !! c = Some b -> b = true)).
    { intros Hp. destruct (IH ids) as [I1 I2]. split; [|exact I2].
      intros c. rewrite I1. split.
      - intros [H|(e & He & Hc)]; [now left|]. right. exists e.
        split; [now right | exact Hc].
      - intros [H|(e & [<-|He] & Hc)]; [now left | congruence |].
        right. eauto. }
    destruct (String.eqb_spec (TrimSpace entry) "") as [He|He].
    + apply Hskip. now rewrite He.
    + destruct (ParseInt (TrimSpace entry)) as [chatID|] eqn:Hp;
        [|now apply Hskip].
      destruct (IH (<[chatID := true]> ids)) as [I1 I2]. split.
      * intros c. rewrite I1. split.
        -- intros [H|(e & He' & Hc)].
           ++ destruct (Z.eq_dec chatID c) as [<-|Hne].
              ** right. exists entry. split; [now left | exact Hp].
              ** rewrite lookup_insert_ne in H by exact Hne. now left.
           ++ right. exists e. split; [now right | exact Hc].
        -- intros [H|(e & [<-|He'] & Hc)].
           ++ left. destruct (Z.eq_dec chatID c) as [<-|Hne].
              ** now rewrite lookup_insert_eq.
              ** now rewrite lookup_insert_ne by exact Hne.
           ++ left. rewrite Hp in Hc. injection Hc as <-.
              now rewrite lookup_insert_eq.
           ++ right. eauto.
      * intros Hall. apply I2. intros c b.
        destruct (Z.eq_dec chatID c) as [<-|Hne].
        -- rewrite lookup_insert_eq. now intros [= <-].
        -- rewrite lookup_insert_ne by exact Hne. apply Hall.
Qed.

(** X9. [NewTelegramService] fails exactly on a proxy DSN that is not
    empty and does not parse, with the error wrapped in "telegram
    service proxy dsn error: ". Otherwise the service starts with
    offset 0, not running, without notifications, and with the chats
    whose IDs are the comma separated entries of the list that, once
    trimmed, parse as 64 bit decimal numbers; an entry that is empty or
    does not parse is left out and fails nothing. Every chat ID in the
    registry maps to true. *)
Theorem NewTelegramService_initial_chats (proxyDSN initialChatIDs : string) :
  (forall err,
      proxyDSN <> ""%string ->
      urlParse proxyDSN = Some err ->
      NewTelegramService (FUDAlertNotification:=FUDAlertNotification)
        urlParse proxyDSN initialChatIDs
      = inl (lit "telegram service proxy dsn error: " +:+ err))
  /\ (proxyDSN = ""%string \/ urlParse proxyDSN = None ->
      exists t : TelegramService FUDAlertNotification,
        NewTelegramService urlParse proxyDSN initialChatIDs = inr t
        /\ lastOffset t = 0
        /\ isRunning t = false
        /\ notifications t = ∅
        /\ (forall c b, chatIDs t !! c = Some b -> b = true)
        /\ forall c,
            chatRegistered t c = true
            <-> exists entry,
                In entry (Split initialChatIDs ",")
                /\ ParseInt (TrimSpace entry) = Some c).
Proof using Type.
  unfold NewTelegramService. split.
  - intros err Hne Hp.
    destruct (String.eqb_spec proxyDSN ""); [contradiction|]. now rewrite Hp.
  - intros Hok.
    assert (Hnone : (if String.eqb proxyDSN "" then None else urlParse proxyDSN)
                    = None).
    { destruct Hok as [->|Hp]; [reflexivity|].
      now destruct (String.eqb proxyDSN ""). }
    rewrite Hnone. eexists. split; [reflexivity|]. cbn.
    split; [reflexivity|]. split; [reflexivity|]. split; [reflexivity|].
    unfold chatRegistered. cbn [chatIDs].
    destruct (String.eqb_spec initialChatIDs "") as [->|Hne].
    + split.
      * intros c b. rewrite lookup_empty. discriminate.
      * intros c. rewrite lookup_empty. cbn. split; [discriminate|].
        intros (e & [<-|[]] & Hc). discriminate Hc.
    + destruct (addInitialChatIDs_spec (Split initialChatIDs ",") ∅) as [S1 S2].
      split.
      * apply S2. intros c b. rewrite lookup_empty. discriminate.
      * intros c. rewrite S1, lookup_empty. cbn. split.
        -- intros [H|H]; [discriminate | exact H].
        -- auto.
Qed.

(** *** Chat IDs written in decimal *)

Lemma string_of_uint_numeric (d : Decimal.uint) :
  numeric (NilEmpty.string_of_uint d) = true.
Proof using Type. induction d; cbn; auto. Qed.

Lemma itoa_numeric (z : Z) : numeric (itoa z) = true.
Proof using Type.
  unfold itoa. destruct (Z.to_int z) as [d|d]; cbn;
    apply string_of_uint_numeric.
Qed.

Lemma numeric_no_comma (s : string) : numeric s = true -> countByte "," s = 0%nat.
Proof using Type.
  unfold numeric. induction s as [|c s IH]; cbn; [reflexivity|].
  intros [Hc Hs]%andb_prop. rewrite (IH Hs).
  destruct (Ascii.eqb_spec c ",") as [->|]; [discriminate Hc | reflexivity].
Qed.

Lemma dropSpaces_numeric (back : bool) (s : string) :
  numeric s = true -> dropSpaces back s = s.
Proof using Type.
  destruct s as [|a t]; [reflexivity|]. unfold numeric. cbn [list_ascii_of_string forallb].
  intros [Ha _]%andb_prop. unfold isNumChar in Ha. cbn [dropSpaces].
  unfold asciiSpace, isSpace2, isSpace3, byte.
  set (n := N_of_ascii a) in *.
  assert (Hn : (45 <= n <= 57)%N).
  { cbn zeta in Ha. apply orb_prop in Ha as [[H1 H2]%andb_prop|H].
    - apply N.leb_le in H1, H2. lia.
    - apply N.eqb_eq in H. lia. }
  repeat match goal with
  | |- context [(n =? ?k)%N] =>
      replace (n =? k)%N with false by (symmetry; apply N.eqb_neq; lia)
  | |- context [(?k <=? n)%N] =>
      replace (k <=? n)%N with false by (symmetry; apply N.leb_gt; lia)
  end.
  cbn [orb andb].
  destruct t as [|b u]; [reflexivity|].
  destruct back; rewrite ?andb_false_r; cbn [orb andb];
    (destruct u as [|c v]; [reflexivity|]);
    rewrite ?andb_false_r; reflexivity.
Qed.

Lemma revOnto_revOnto (s : string) :
  forall a b, revOnto (revOnto s a) b = revOnto a (s +:+ b).
Proof using Type.
  induction s as [|c s IH]; intros a b; [reflexivity|].
  cbn [revOnto]. now rewrite IH.
Qed.

Lemma reverse_reverse (s : string) : reverse (reverse s) = s.
Proof using Type.
  unfold reverse. rewrite revOnto_revOnto. cbn [revOnto].
  induction s as [|c s IH]; [reflexivity|].
  change (String c s +:+ "") with (String c (s +:+ "")). now rewrite IH.
Qed.

Lemma revOnto_numeric (s : string) :
  forall acc, numeric s = true -> numeric acc = true ->
              numeric (revOnto s acc) = true.
Proof using Type.
  unfold numeric. induction s as [|c s IH]; intros acc Hs Ha; [exact Ha|].
  cbn in Hs. apply andb_prop in Hs as [Hc Hs].
  cbn [revOnto]. apply IH; [exact Hs|]. cbn. now rewrite Hc.
Qed.

Lemma TrimSpace_numeric (s : string) : numeric s = true -> TrimSpace s = s.
Proof using Type.
  intros H. unfold TrimSpace.
  rewrite (dropSpaces_numeric false s H).
  rewrite dropSpaces_numeric by (now apply revOnto_numeric).
  apply reverse_reverse.
Qed.

Lemma string_of_uint_head (d : Decimal.uint) :
  d <> Decimal.Nil ->
  exists c t,
    NilEmpty.string_of_uint d = String c t
    /\ Ascii.eqb c "+" = false /\ Ascii.eqb c "-" = false.
Proof using Type.
  destruct d; [contradiction| ..]; intros _; cbn; eexists; eexists;
    repeat split.
Qed.

Lemma ParseInt_unsigned (d : Decimal.uint) :
  d <> Decimal.Nil ->
  ParseInt (NilEmpty.string_of_uint d)
  = if 2 ^ 63 <=? Z.of_uint d then None else Some (Z.of_uint d).
Proof using Type.
  intros Hd. pose proof (NilEmpty.usu d) as Hu.
  destruct (string_of_uint_head d Hd) as (c & t & Hs & H1 & H2).
  rewrite Hs in *. unfold ParseInt. rewrite H1, H2. cbn [orb]. now rewrite Hu.
Qed.

Lemma ParseInt_negative (d : Decimal.uint) :
  d <> Decimal.Nil ->
  ParseInt (String "-" (NilEmpty.string_of_uint d))
  = if 2 ^ 63 <? Z.of_uint d then None else Some (- Z.of_uint d).
Proof using Type.
  intros Hd. pose proof (NilEmpty.usu d) as Hu.
  destruct (string_of_uint_head d Hd) as (c & t & Hs & _).
  rewrite Hs in *. unfold ParseInt. cbn [Ascii.eqb Bool.eqb orb andb].
  now rewrite Hu.
Qed.

(** [ParseInt] reads back what [%d] prints. *)
Lemma ParseInt_itoa (z : Z) : is_int64 z -> ParseInt (itoa z) = Some z.
Proof using Type.
  unfold is_int64, MinInt64, MaxInt64, itoa. intros Hz.
  destruct z as [|p|p]; [reflexivity| |]; cbn [Z.to_int NilEmpty.string_of_int].
  - rewrite ParseInt_unsigned by apply DecimalPos.Unsigned.to_uint_nonnil.
    unfold Z.of_uint. rewrite DecimalPos.Unsigned.of_to. cbn [Z.of_N].
    destruct (Z.leb_spec (2 ^ 63) (Z.pos p)); [lia | reflexivity].
  - rewrite ParseInt_negative by apply DecimalPos.Unsigned.to_uint_nonnil.
    unfold Z.of_uint. rewrite DecimalPos.Unsigned.of_to. cbn [Z.of_N].
    destruct (Z.ltb_spec (2 ^ 63) (Z.pos p)); [lia | reflexivity].
Qed.

Lemma itoa_nonempty (z : Z) : itoa z <> ""%string.
Proof using Type.
  unfold itoa. destruct z as [|p|p]; cbn; try discriminate.
  destruct (string_of_uint_head (Pos.to_uint p)
              (DecimalPos.Unsigned.to_uint_nonnil p)) as (c & t & -> & _).
  discriminate.
Qed.

Lemma Join_nonempty (x sep : string) (l : list string) :
  x <> ""%string -> Join (x :: l) sep <> ""%string.
Proof using Type.
  intros Hx. unfold Join. destruct l as [|y l]; cbn [String.concat];
    [exact Hx|].
  destruct x; [contradiction | discriminate].
Qed.

Lemma Split_Join_byte (c : ascii) (l : list string) :
  l <> [] ->
  Forall (fun s => countByte c s = 0%nat) l ->
  Split (Join l (String c EmptyString)) (String c EmptyString) = l.
Proof using Type.
  intros Hne Hall. induction Hall as [|x l Hx Hl IH]; [contradiction|].
  destruct l as [|y l'].
  - cbn. now apply Split_none.
  - change (Join (x :: y :: l') (String c EmptyString))
      with (x +:+ String c (Join (y :: l') (String c EmptyString))).
    rewrite Split_append_byte by exact Hx. now rewrite IH.
Qed.

(** X10. Chat IDs that fit 64 bits, printed in decimal and joined with
    commas, are read back: the new service is registered with exactly
    those chats. *)
Theorem NewTelegramService_decimal_ids (ids : list Z) :
  Forall is_int64 ids ->
  exists t : TelegramService FUDAlertNotification,
    NewTelegramService urlParse "" (Join (map itoa ids) ",") = inr t
    /\ forall c, chatRegistered t c = true <-> In c ids.
Proof using Type.
  intros Hids. unfold NewTelegramService. cbn [String.eqb].
  eexists. split; [reflexivity|]. unfold chatRegistered. cbn [chatIDs].
  intros c. destruct ids as [|z ids'].
  - cbn. rewrite lookup_empty. cbn. split; [discriminate | intros []].
  - assert (Hne : map itoa (z :: ids') <> []) by discriminate.
    assert (Hje : String.eqb (Join (map itoa (z :: ids')) ",") "" = false)
      by (apply String.eqb_neq, Join_nonempty, itoa_nonempty).
    remember (z :: ids') as ids eqn:Hl. clear Hl.
    assert (Hs : Split (Join (map itoa ids) ",") "," = map itoa ids).
    { apply Split_Join_byte; [exact Hne|]. apply List.Forall_forall.
      intros s (z' & <- & _)%in_map_iff. apply numeric_no_comma, itoa_numeric. }
    rewrite Hs, Hje.
    destruct (addInitialChatIDs_spec (map itoa ids) ∅) as [S1 _].
    rewrite S1, lookup_empty. cbn [default]. split.
    + intros [H|(e & (z' & <- & Hz')%in_map_iff & Hp)]; [discriminate|].
      rewrite TrimSpace_numeric in Hp by apply itoa_numeric.
      rewrite ParseInt_itoa in Hp
        by (rewrite List.Forall_forall in Hids; now apply Hids).
      now injection Hp as <-.
    + intros Hin. right. exists (itoa c). split; [now apply in_map|].
      rewrite TrimSpace_numeric by apply itoa_numeric.
      apply ParseInt_itoa. rewrite List.Forall_forall in Hids. now apply Hids.
Qed.

(** ** /analyze *)

(** X12. /analyze always returns and never touches the analysis
    channel. Either it admitted the request: its effects are the first
    message, the creation of a pending task record for the chat under an
    ID the store did not hold, and the start of the runner and of the
    monitor for that ID, in that order. Or it did not: then the store is
    as before, no goroutine was started, and the last effect is a
    request to Telegram telling the chat so. *)
Theorem handleAnalyzeCommand_outcomes
    (chatID : Z) (args : list string) (w : World float64) :
  exists w' evs,
    handleAnalyzeCommand chatID args w = (Done tt, w')
    /\ trace w' = trace w ++ evs
    /\ analysisChannel w' = analysisChannel w
    /\ ((exists taskID task text,
            evs = [SendMessageCall chatID text; Db (CreateAnalysisTask task);
                   Go (GoProcessAnalysisTask taskID);
                   Go (GoMonitorAnalysisProgress taskID)]
            /\ task_ID task = taskID
            /\ db_tasks (dbService w) !! taskID = None
            /\ db_tasks (dbService w')
               = <[taskID := task]> (db_tasks (dbService w))
            /\ task_Status task = ANALYSIS_STATUS_PENDING
            /\ task_TelegramChatID task = chatID)
        \/ (dbService w' = dbService w
            /\ forallb (fun e => negb (isGo e)) evs = true
            /\ exists e, last evs = Some e /\ isTelegramRequest e = true)).
Proof using Type.
  unfold handleAnalyzeCommand.
  destruct args as [|arg0 rest].
  { eexists. eexists. split; [reflexivity|]. cbn. split; [reflexivity|].
    split; [reflexivity|]. right. repeat split. eexists. split; reflexivity. }
  destruct (String.eqb (TrimSpace arg0) "").
  { eexists. eexists. split; [reflexivity|]. cbn. split; [reflexivity|].
    split; [reflexivity|]. right. repeat split. eexists. split; reflexivity. }
  unfold bind, generateNotificationID, SendMessageWithID, SendMessage,
    EditMessage, timeNow, dbCreateAnalysisTask, go, act, ret. cbn.
  destruct (telegram w (requests w)) as [err|messageID]; cbn.
  { eexists. eexists. split; [reflexivity|]. cbn.
    split; [now rewrite <- app_assoc|]. split; [reflexivity|].
    right. repeat split. eexists. split; reflexivity. }
  destruct (db_tasks (dbService w) !! hexEncode (eightBytes (entropy w (draws w))))
    eqn:Hfree; cbn.
  - eexists. eexists. split; [reflexivity|]. cbn.
    split; [now rewrite <- !app_assoc|]. split; [reflexivity|].
    right. repeat split. eexists. split; reflexivity.
  - eexists. eexists. split; [reflexivity|]. cbn.
    split; [now rewrite <- !app_assoc|]. split; [reflexivity|].
    left. eexists. eexists. eexists. split; [cbn [app]; reflexivity|]. cbn. auto.
Qed.

(** ** The task runners *)

(** X13. A runner whose task record is missing returns after its read of
    the record: it writes nothing, sends nothing and records no
    error. *)
Theorem runners_missing_task
    (taskID : string) (targetChatID : Z) (w : World float64) :
  db_tasks (dbService w) !! taskID = None ->
  processAnalysisTask formatRFC3339 taskID w
  = (Done tt, emit (Db (GetAnalysisTask taskID)) w)
  /\ processBatchAnalysisTask formatRFC3339 taskID targetChatID w
     = (Done tt, emit (Db (GetAnalysisTask taskID)) w).
Proof using Type.
  intros Ht. split; unfold_flow; cbn; now rewrite Ht.
Qed.

(** X14. [processAnalysisTask] returns on every store and every state of
    the channel. [processBatchAnalysisTask] parks for ever exactly when
    its task record exists and the channel is open and full; in every
    other case it returns. *)
Theorem runners_outcome (taskID : string) (targetChatID : Z) (w : World float64) :
  fst (processAnalysisTask formatRFC3339 taskID w) = Done tt
  /\ (fst (processBatchAnalysisTask formatRFC3339 taskID targetChatID w) = Blocked
      <-> (is_Some (db_tasks (dbService w) !! taskID)
           /\ chan_closed (analysisChannel w) = false
           /\ chan_full (analysisChannel w) = true))
  /\ (fst (processBatchAnalysisTask formatRFC3339 taskID targetChatID w) <> Blocked ->
      fst (processBatchAnalysisTask formatRFC3339 taskID targetChatID w) = Done tt).
Proof using Type.
  split; [|split].
  - open_world w. case_lookup; cbn; [|reflexivity].
    case_lookup; cbn; case_lookup; cbn;
      destruct (chan_closed ch); cbn; try reflexivity;
      destruct (chan_full ch); cbn; reflexivity.
  - open_world w. case_lookup; cbn.
    + case_lookup; cbn; case_lookup; cbn;
        destruct (chan_closed ch); cbn;
        try (split; [discriminate | intros (_ & H & _); discriminate H]);
        destruct (chan_full ch); cbn;
        try (split; [discriminate | intros (_ & _ & H); discriminate H]);
        (split; [eauto | reflexivity]).
    + split; [discriminate | intros ([? H] & _); discriminate H].
  - open_world w. case_lookup; cbn; [|reflexivity].
    case_lookup; cbn; case_lookup; cbn;
      destruct (chan_closed ch); cbn; try reflexivity;
      destruct (chan_full ch); cbn; try reflexivity; intros H; now contradiction H.
Qed.

Lemma dom_alter_tasks (f : AnalysisTaskModel -> AnalysisTaskModel) (k : string)
    (m : gmap string AnalysisTaskModel) :
  dom (alter f k m) = dom m.
Proof using Type. apply dom_alter_L. Qed.

(** X15. What a run of either runner leaves alone, however it ends: the
    store keeps exactly its task IDs and all its other tables, the run
    makes no request to Telegram, starts no goroutine, draws no random
    bytes, does not sleep, and sends at most one work item, which
    carries the task ID, both manual-analysis flags and the target chat
    (0 for /analyze, the requesting chat for a batch). *)
Theorem runners_footprint (taskID : string) (targetChatID : Z) (w : World float64) :
  runnerFootprint taskID 0 w (snd (processAnalysisTask formatRFC3339 taskID w))
  /\ runnerFootprint taskID targetChatID w
       (snd (processBatchAnalysisTask formatRFC3339 taskID targetChatID w)).
Proof using Type.
  unfold runnerFootprint. split.
  - open_world w. case_lookup; cbn.
    + case_lookup; cbn; case_lookup; cbn;
        destruct (chan_closed ch) eqn:Hc; cbn;
        try destruct (chan_full ch) eqn:Hf; cbn.
      all: rewrite ?dom_alter_tasks.
      all: repeat (split; [reflexivity|]).
      all: rewrite <- ?app_assoc; eexists; (split; [reflexivity|]).
      all: cbn; (split; [reflexivity|]).
      all: first [ left; split; reflexivity
                 | right; eexists; repeat split; reflexivity ].
    + repeat (split; [reflexivity|]).
      eexists. split; [reflexivity|]. cbn. split; [reflexivity|].
      left. split; reflexivity.
  - open_world w. case_lookup; cbn.
    + case_lookup; cbn; case_lookup; cbn;
        destruct (chan_closed ch) eqn:Hc; cbn;
        try destruct (chan_full ch) eqn:Hf; cbn.
      all: rewrite ?dom_alter_tasks.
      all: repeat (split; [reflexivity|]).
      all: rewrite <- ?app_assoc; eexists; (split; [reflexivity|]).
      all: cbn; (split; [reflexivity|]).
      all: first [ left; split; reflexivity
                 | right; eexists; repeat split; reflexivity ].
    + repeat (split; [reflexivity|]).
      eexists. split; [reflexivity|]. cbn. split; [reflexivity|].
      left. split; reflexivity.
Qed.

(** X16. With its task record there and room in an open channel, a
    runner returns after appending exactly one work item at the back of
    the channel. The item is built from the stored tweet of the user
    when there is one, and is the placeholder "manual_analysis_<user>"
    resp. "batch_analysis_<user>" stamped with the current time
    otherwise. [processAnalysisTask] then records the progress
    "Processing with neural network..." as its last effect;
    [processBatchAnalysisTask] ends with the send and leaves the
    progress at "Starting AI analysis...". The task is not terminal in
    either case. *)
Theorem runners_enqueue
    (taskID : string) (targetChatID : Z) (w : World float64)
    (task : AnalysisTaskModel) :
  db_tasks (dbService w) !! taskID = Some task ->
  chan_closed (analysisChannel w) = false ->
  chan_full (analysisChannel w) = false ->
  let username := task_Username task in
  let carries (m : NewMessage) (placeholder : string) :=
    author_UserName (msg_Author m) = username
    /\ author_Name (msg_Author m) = username
    /\ match db_analysis_tweets (dbService w) !! username with
       | Some tweet =>
           msg_TweetID m = tweet_ID tweet
           /\ msg_ReplyTweetID m = tweet_InReplyToID tweet
           /\ msg_Text m = tweet_Text tweet
           /\ author_ID (msg_Author m) = tweet_UserID tweet
           /\ msg_CreatedAt m = formatRFC3339 (tweet_CreatedAt tweet)
       | None =>
           msg_TweetID m = placeholder +:+ username
           /\ msg_ReplyTweetID m = ""%string
           /\ msg_CreatedAt m = formatRFC3339 (clock w)
       end in
  (exists w' m,
      processAnalysisTask formatRFC3339 taskID w = (Done tt, w')
      /\ chan_buf (analysisChannel w') = chan_buf (analysisChannel w) ++ [m]
      /\ carries m "manual_analysis_"%string
      /\ last (trace w')
         = Some (Db (UpdateAnalysisTaskProgress taskID ANALYSIS_STEP_CLAUDE_ANALYSIS
                       "Processing with neural network..."))
      /\ exists t',
          db_tasks (dbService w') !! taskID = Some t'
          /\ isTerminal (task_Status t') = false
          /\ task_CurrentStep t' = ANALYSIS_STEP_CLAUDE_ANALYSIS
          /\ task_ProgressText t' = "Processing with neural network..."%string)
  /\ (exists w' m,
      processBatchAnalysisTask formatRFC3339 taskID targetChatID w = (Done tt, w')
      /\ chan_buf (analysisChannel w') = chan_buf (analysisChannel w) ++ [m]
      /\ carries m "batch_analysis_"%string
      /\ last (trace w') = Some (ChanSend m)
      /\ exists t',
          db_tasks (dbService w') !! taskID = Some t'
          /\ isTerminal (task_Status t') = false
          /\ task_CurrentStep t' = ANALYSIS_STEP_CLAUDE_ANALYSIS
          /\ task_ProgressText t' = "Starting AI analysis..."%string).
Proof using Type.
  intros Ht Hc Hf username carries. subst username carries. split.
  - open_world w. rewrite Ht. cbn.
    case_lookup; cbn; case_lookup; cbn; rewrite Hc, Hf; cbn.
    all: eexists; eexists; (split; [reflexivity|]); cbn.
    all: rewrite ?last_snoc.
    all: split; [reflexivity|].
    all: split; [repeat split|].
    all: split; [reflexivity|].
    all: find_record taskID Ht t0 Ht0; rewrite lookup_alter_eq, Ht0; cbn.
    all: eexists; (split; [reflexivity|]); repeat split; reflexivity.
  - open_world w. rewrite Ht. cbn.
    case_lookup; cbn; case_lookup; cbn; rewrite Hc, Hf; cbn.
    all: eexists; eexists; (split; [reflexivity|]); cbn.
    all: rewrite ?last_snoc.
    all: split; [reflexivity|].
    all: split; [repeat split|].
    all: split; [reflexivity|].
    all: find_record taskID Ht t0 Ht0; rewrite lookup_alter_eq, Ht0; cbn.
    all: eexists; (split; [reflexivity|]); repeat split; reflexivity.
Qed.

(** X17. On a closed channel the send of either runner panics; the
    deferred recovery turns that into a normal return with the task
    failed and the error "Internal error: send on closed channel", the
    recording of which is the last effect. Nothing is added to the
    channel. *)
Theorem runners_closed_channel
    (taskID : string) (targetChatID : Z) (w : World float64)
    (task : AnalysisTaskModel) :
  db_tasks (dbService w) !! taskID = Some task ->
  chan_closed (analysisChannel w) = true ->
  let failed (w' : World float64) :=
    analysisChannel w' = analysisChannel w
    /\ last (trace w')
       = Some (Db (SetAnalysisTaskError taskID
                     (lit "Internal error: " +:+ "send on closed channel")))
    /\ exists t',
        db_tasks (dbService w') !! taskID = Some t'
        /\ task_Status t' = ANALYSIS_STATUS_FAILED
        /\ task_ErrorMessage t'
           = lit "Internal error: " +:+ "send on closed channel" in
  (exists w', processAnalysisTask formatRFC3339 taskID w = (Done tt, w')
              /\ failed w')
  /\ (exists w',
        processBatchAnalysisTask formatRFC3339 taskID targetChatID w = (Done tt, w')
        /\ failed w').
Proof using Type.
  intros Ht Hc failed. subst failed. split.
  - open_world w. rewrite Ht. cbn.
    case_lookup; cbn; case_lookup; cbn; rewrite Hc; cbn.
    all: eexists; (split; [reflexivity|]); cbn.
    all: rewrite ?last_snoc.
    all: do 2 (split; [reflexivity|]).
    all: find_record taskID Ht t0 Ht0; rewrite lookup_alter_eq, Ht0; cbn.
    all: eexists; (split; [reflexivity|]); split; reflexivity.
  - open_world w. rewrite Ht. cbn.
    case_lookup; cbn; case_lookup; cbn; rewrite Hc; cbn.
    all: eexists; (split; [reflexivity|]); cbn.
    all: rewrite ?last_snoc.
    all: do 2 (split; [reflexivity|]).
    all: find_record taskID Ht t0 Ht0; rewrite lookup_alter_eq, Ht0; cbn.
    all: eexists; (split; [reflexivity|]); split; reflexivity.
Qed.

Lemma alter_keeps (P : AnalysisTaskModel -> Prop)
    (f : AnalysisTaskModel -> AnalysisTaskModel) (k j : string)
    (m : gmap string AnalysisTaskModel) :
  (forall t, P t -> P (f t)) ->
  (exists t, m !! j = Some t /\ P t) ->
  exists t, alter f k m !! j = Some t /\ P t.
Proof using Type.
  intros Hf (t & Ht & HP). rewrite lookup_alter. case_decide; subst.
  - rewrite Ht. cbn. eauto.
  - eauto.
Qed.

(** X18. Whatever a runner does to its task record, the record is still
    there afterwards and keeps its ID, its username, its chat, its
    progress message and its start time: the monitor goes on editing the
    same message. *)
Theorem runners_keep_task_identity
    (taskID : string) (targetChatID : Z) (w : World float64)
    (task : AnalysisTaskModel) :
  db_tasks (dbService w) !! taskID = Some task ->
  let same (t' : AnalysisTaskModel) :=
    task_ID t' = task_ID task
    /\ task_Username t' = task_Username task
    /\ task_TelegramChatID t' = task_TelegramChatID task
    /\ task_MessageID t' = task_MessageID task
    /\ task_StartedAt t' = task_StartedAt task in
  (exists t',
      db_tasks (dbService (snd (processAnalysisTask formatRFC3339 taskID w)))
        !! taskID = Some t'
      /\ same t')
  /\ (exists t',
        db_tasks
          (dbService (snd (processBatchAnalysisTask formatRFC3339 taskID
                             targetChatID w)))
          !! taskID = Some t'
        /\ same t').
Proof using Type.
  intros Ht same.
  assert (H0 : exists t, db_tasks (dbService w) !! taskID = Some t /\ same t)
    by (exists task; split; [exact Ht | repeat split]).
  assert (Hp : forall step text t, same t -> same (setProgress step text t))
    by (intros step text t H; exact H).
  assert (He : forall msg t, same t -> same (setError msg t))
    by (intros msg t H; exact H).
  assert (Hu : forall uid t, same t -> same ((fun _ => setUserID uid task) t))
    by (intros uid t _; repeat split).
  clear H0. split.
  - open_world w. rewrite Ht. cbn.
    assert (H0 : exists t, tasks !! taskID = Some t /\ same t)
      by (exists task; split; [exact Ht | repeat split]).
    case_lookup; cbn; case_lookup; cbn;
      destruct (chan_closed ch); cbn; try destruct (chan_full ch); cbn.
    all: repeat first [ apply alter_keeps; [solve [apply Hp | apply He | apply Hu]|]
                      | exact H0 ].
  - open_world w. rewrite Ht. cbn.
    assert (H0 : exists t, tasks !! taskID = Some t /\ same t)
      by (exists task; split; [exact Ht | repeat split]).
    case_lookup; cbn; case_lookup; cbn;
      destruct (chan_closed ch); cbn; try destruct (chan_full ch); cbn.
    all: repeat first [ apply alter_keeps; [solve [apply Hp | apply He | apply Hu]|]
                      | exact H0 ].
Qed.

(** X20. /analyze on a full channel, end to end. After the handler has
    admitted the request and the runner has run, the next tick of the
    monitor edits the progress message of the request, in the chat of
    the request, into the failure view with the error "Analysis channel
    is full, please try again later", and the monitor returns. The
    channel holds what it held. *)
Theorem analyze_full_queue_shown
    (chatID messageID : Z) (arg0 : string) (rest : list string) (w : World float64) :
  let taskID := hexEncode (eightBytes (entropy w (draws w))) in
  String.eqb (TrimSpace arg0) "" = false ->
  telegram w (requests w) = inr messageID ->
  db_tasks (dbService w) !! taskID = None ->
  chan_closed (analysisChannel w) = false ->
  chan_full (analysisChannel w) = true ->
  let w1 := snd (handleAnalyzeCommand chatID (arg0 :: rest) w) in
  let w2 := snd (processAnalysisTask formatRFC3339 taskID w1) in
  exists w3,
    monitorTick sprintfSeconds sprintfMinutes taskID w2 = (Done false, w3)
    /\ last (trace w3)
       = Some (EditMessageCall chatID messageID
                 (lit "❌ <b>Analysis Failed for @" +:+ TrimSpace arg0
                  +:+ lit "</b>\n\n⚠️ <b>Error:</b> " +:+ queueFullMessage
                  +:+ lit "\n🆔 <b>Task ID:</b> <code>" +:+ taskID
                  +:+ lit "</code>\n\n🔄 You can try running the analysis again."))
    /\ analysisChannel w3 = analysisChannel w.
Proof using Type.
  intros taskID Hblank Htg Hfree Hc Hf w1 w2. subst w1 w2 taskID.
  destruct w as [[tasks users tweets fresh cached msgs] ch tr clk ent dr tg rq].
  cbn in Htg, Hfree, Hc, Hf.
  unfold handleAnalyzeCommand. rewrite Hblank.
  unfold bind, generateNotificationID, SendMessageWithID, timeNow,
    dbCreateAnalysisTask, go, act, ret. cbn. rewrite Htg. cbn.
  rewrite Hfree. cbn.
  unfold_flow. cbn. rewrite lookup_insert_eq. cbn.
  destruct (users !! TrimSpace arg0) as [user|]; cbn;
    destruct (tweets !! TrimSpace arg0) as [tweet|]; cbn;
    rewrite Hc, Hf; cbn.
  all: unfold_tick; cbn.
  all: rewrite !lookup_alter_eq, lookup_insert_eq; cbn.
  all: eexists; (split; [reflexivity|]); cbn.
  all: rewrite last_snoc; split; reflexivity.
Qed.

(** ** The launch loops *)

Lemma launchAccounts_nil (runner : string -> Goroutine float64) (chat delay : Z)
    (w : World float64) :
  launchAccounts runner chat delay 0 w w [] 0 0.
Proof using Type.
  unfold launchAccounts. rewrite app_nil_r. cbn.
  repeat split; try lia; auto. all: intros e [].
Qed.

Lemma launchAccounts_trans (runner : string -> Goroutine float64) (chat delay : Z)
    (n1 n2 : nat) (w w1 w2 : World float64) (evs1 evs2 : list (Event float64))
    (a1 s1 a2 s2 : Z) :
  launchAccounts runner chat delay n1 w w1 evs1 a1 s1 ->
  launchAccounts runner chat delay n2 w1 w2 evs2 a2 s2 ->
  launchAccounts runner chat delay (n1 + n2) w w2 (evs1 ++ evs2) (a1 + a2) (s1 + s2).
Proof using Type.
  intros (T1 & A1 & S1 & N1 & R1 & Z1 & M1 & C1 & K1 & G1 & H1 & Q1 & F1)
         (T2 & A2 & S2 & N2 & R2 & Z2 & M2 & C2 & K2 & G2 & H2 & Q2 & F2).
  unfold launchAccounts.
  rewrite !List.filter_app, !length_app, forallb_app, F1, F2.
  repeat split; try lia; try congruence.
  - rewrite T2, T1. now rewrite app_assoc.
  - auto.
  - intros e [He|He]%in_app_iff Hgo.
    + destruct (G1 e He Hgo) as [Hc|(id & task & -> & Ht & Hrest)]; [now left|].
      right. exists id, task. split; [reflexivity|]. split; [now apply M2|].
      exact Hrest.
    + apply (G2 e He Hgo).
Qed.

(** One entry with a fresh cached result. *)
Lemma launchAccounts_skip (runner : string -> Goroutine float64) (chat delay : Z)
    (w w' : World float64) (evs : list (Event float64)) :
  trace w' = trace w ++ evs ->
  dbService w' = dbService w ->
  clock w' = clock w ->
  analysisChannel w' = analysisChannel w ->
  requests w' = requests w ->
  forallb (fun e => negb (isTelegramRequest e) && negb (isChanSend e)) evs = true ->
  forallb (fun e => negb (isGo e) || isCachedNotification e) evs = true ->
  (List.length (List.filter isCachedNotification evs) <= 1)%nat ->
  launchAccounts runner chat delay 1 w w' evs 0 1.
Proof using Type.
  intros T D C H Q F R K. unfold launchAccounts. rewrite D.
  assert (Hall : forall e, In e evs -> isGo e = true ->
                           isCachedNotification e = true).
  { intros e He Hgo. rewrite forallb_forall in R. apply R in He.
    now rewrite Hgo in He. }
  assert (Hr : List.filter isRunnerStart evs = []).
  { clear -Hall. induction evs as [|e evs IH]; [reflexivity|].
    cbn. rewrite IH by (intros; apply Hall; [now right | assumption]).
    pose proof (Hall e (or_introl eq_refl)) as He.
    destruct e as [| | | |[]|]; cbn in *; try reflexivity;
      now discriminate He. }
  rewrite Hr. cbn [List.length].
  repeat split; try lia; try assumption; auto.
Qed.

(** One entry whose task record could not be created. *)
Lemma launchAccounts_dropped (runner : string -> Goroutine float64) (chat delay : Z)
    (w w' : World float64) (evs : list (Event float64)) :
  trace w' = trace w ++ evs ->
  dbService w' = dbService w ->
  clock w' = clock w ->
  analysisChannel w' = analysisChannel w ->
  requests w' = requests w ->
  forallb (fun e => negb (isTelegramRequest e) && negb (isChanSend e)
                    && negb (isGo e)) evs = true ->
  launchAccounts runner chat delay 1 w w' evs 0 0.
Proof using Type.
  intros T D C H Q F. unfold launchAccounts. rewrite D.
  assert (Hall : forall e, In e evs ->
    isTelegramRequest e = false /\ isChanSend e = false /\ isGo e = false).
  { intros e He. rewrite forallb_forall in F. apply F in He.
    destruct (isTelegramRequest e), (isChanSend e), (isGo e); auto;
      discriminate. }
  assert (Hr : List.filter isRunnerStart evs = []
               /\ List.filter isCachedNotification evs = []).
  { clear -Hall. induction evs as [|e evs IH]; [auto|].
    destruct IH as [I1 I2]; [intros; apply Hall; now right|].
    destruct (Hall e (or_introl eq_refl)) as (_ & _ & Hg).
    cbn. rewrite I1, I2.
    destruct e as [| | | |[]|]; cbn in *; try discriminate; auto. }
  destruct Hr as [-> ->]. cbn [List.length].
  repeat split; try lia; try assumption; auto.
  - intros e He Hgo. destruct (Hall e He) as (_ & _ & Hg). congruence.
  - apply forallb_forall. intros e He. destruct (Hall e He) as (-> & -> & _).
    reflexivity.
Qed.

(** One entry for which a runner is started. *)
Lemma launchAccounts_started (runner : string -> Goroutine float64) (chat delay : Z)
    (w w' : World float64) (pre : list (Event float64))
    (taskID : string) (task : AnalysisTaskModel) :
  trace w' = trace w ++ pre ++ [Db (CreateAnalysisTask task); Go (runner taskID);
                                Sleep delay] ->
  forallb (fun e => negb (isTelegramRequest e) && negb (isChanSend e)
                    && negb (isGo e)) pre = true ->
  isRunnerStart (Go (runner taskID)) = true ->
  db_tasks (dbService w) !! taskID = None ->
  db_tasks (dbService w') = <[taskID := task]> (db_tasks (dbService w)) ->
  task_ID task = taskID ->
  task_Status task = ANALYSIS_STATUS_PENDING ->
  task_TelegramChatID task = chat ->
  task_MessageID task = 0 ->
  clock w' = clock w + delay ->
  analysisChannel w' = analysisChannel w ->
  requests w' = requests w ->
  launchAccounts runner chat delay 1 w w'
    (pre ++ [Db (CreateAnalysisTask task); Go (runner taskID); Sleep delay]) 1 0.
Proof using Type.
  intros T F R Hfree D I1 I2 I3 I4 C H Q. unfold launchAccounts. rewrite D.
  assert (Hall : forall e, In e pre ->
    isTelegramRequest e = false /\ isChanSend e = false /\ isGo e = false).
  { intros e He. rewrite forallb_forall in F. apply F in He.
    destruct (isTelegramRequest e), (isChanSend e), (isGo e); auto;
      discriminate. }
  assert (Hr : List.filter isRunnerStart pre = []
               /\ List.filter isCachedNotification pre = []).
  { clear -Hall. induction pre as [|e pre IH]; [auto|].
    destruct IH as [J1 J2]; [intros; apply Hall; now right|].
    destruct (Hall e (or_introl eq_refl)) as (_ & _ & Hg).
    cbn. rewrite J1, J2.
    destruct e as [| | | |[]|]; cbn in *; try discriminate; auto. }
  destruct Hr as [Hr1 Hr2].
  assert (Hnc : isCachedNotification (Go (runner taskID)) = false).
  { destruct (runner taskID); cbn in *; congruence. }
  assert (E1 : List.filter isRunnerStart
                 [Db (CreateAnalysisTask task); Go (runner taskID); Sleep delay]
               = [Go (runner taskID)])
    by (cbn [List.filter]; rewrite R; reflexivity).
  assert (E2 : List.filter isCachedNotification
                 [Db (CreateAnalysisTask task); Go (runner taskID); Sleep delay]
               = [])
    by (cbn [List.filter]; rewrite Hnc; reflexivity).
  rewrite !List.filter_app, Hr1, Hr2, E1, E2. cbn [List.length app].
  rewrite map_size_insert_None by exact Hfree.
  split; [exact T|]. repeat split; try lia; try assumption.
  - intros k v Hk. rewrite lookup_insert_ne; [exact Hk|]. congruence.
  - intros e [He|He]%in_app_iff Hgo.
    + destruct (Hall e He) as (_ & _ & Hg). congruence.
    + destruct He as [<-|[<-|[<-|[]]]]; try discriminate Hgo.
      right. exists taskID, task. rewrite lookup_insert_eq.
      repeat split; assumption.
  - rewrite forallb_app. apply andb_true_intro. split.
    + apply forallb_forall. intros e He. destruct (Hall e He) as (-> & -> & _).
      reflexivity.
    + cbn. destruct (runner taskID); reflexivity.
Qed.

Ltac launch_next IH :=
  match goal with
  | |- context [?loop ?c ?rest ?A ?S ?W] =>
      lazymatch loop with
      | batchLaunch => idtac
      | top20Launch => idtac
      end;
      let a' := fresh "a'" in
      let s' := fresh "s'" in
      let w' := fresh "w'" in
      let evs := fresh "evs" in
      let Hrun := fresh "Hrun" in
      let Hacc := fresh "Hacc" in
      destruct (IH A S W) as (a' & s' & w' & evs & Hrun & Hacc);
      rewrite Hrun
  end.

(** The books of the launch loop of /batch_analyze. *)
Lemma batchLaunch_accounts (chatID : Z) (validUsernames : list string) :
  forall (analysisCount skippedCount : Z) (w : World float64),
  exists analysisCount' skippedCount' w' evs,
    batchLaunch chatID validUsernames analysisCount skippedCount w
    = (Done (analysisCount', skippedCount'), w')
    /\ launchAccounts (fun taskID => GoProcessBatchAnalysisTask taskID chatID)
         chatID (150 * Millisecond) (List.length validUsernames) w w' evs
         (analysisCount' - analysisCount) (skippedCount' - skippedCount).
Proof using Type.
  induction validUsernames as [|username rest IH]; intros a s w.
  - exists a, s, w, []. split; [reflexivity|].
    rewrite !Z.sub_diag. apply launchAccounts_nil.
  - cbn [batchLaunch]. unfold_batch. cbn.
    destruct (db_users (dbService w) !! username) as [u|] eqn:Hu; cbn.
    + destruct (bool_decide (user_ID u ∈ db_fresh (dbService w))) eqn:Hf; cbn.
      * destruct (db_cached (dbService w) !! user_ID u); cbn; launch_next IH.
        all: eexists; eexists; eexists; eexists; (split; [reflexivity|]).
        all: replace (s' - s) with (1 + (s' - (s + 1))) by lia.
        all: eapply (launchAccounts_trans _ _ _ 1 (List.length rest)
                       _ _ _ _ evs 0 1 (a' - a) (s' - (s + 1)));
          [|exact Hacc].
        all: apply launchAccounts_skip;
          [cbn; rewrite <- ?app_assoc; reflexivity | reflexivity.. | cbn; lia].
      * destruct (db_tasks (dbService w)
                    !! hexEncode (eightBytes (entropy w (draws w)))) eqn:Hfree;
          cbn; launch_next IH.
        all: eexists; eexists; eexists; eexists; (split; [reflexivity|]).
        -- eapply (launchAccounts_trans _ _ _ 1 (List.length rest)
                     _ _ _ _ evs 0 0 (a' - a) (s' - s));
             [|exact Hacc].
           apply launchAccounts_dropped;
             [cbn; rewrite <- ?app_assoc; reflexivity | reflexivity..].
        -- replace (a' - a) with (1 + (a' - (a + 1))) by lia.
           eapply (launchAccounts_trans _ _ _ 1 (List.length rest)
                     _ _ _ _ evs 1 0 (a' - (a + 1)) (s' - s));
             [|exact Hacc].
           eapply (launchAccounts_started _ _ _ _ _
                     [Db (GetUserByUsername username);
                      Db (HasValidCachedAnalysis (user_ID u))]);
             [cbn; rewrite <- ?app_assoc; reflexivity | try reflexivity..];
             exact Hfree.
    + destruct (db_tasks (dbService w)
                  !! hexEncode (eightBytes (entropy w (draws w)))) eqn:Hfree;
        cbn; launch_next IH.
      all: eexists; eexists; eexists; eexists; (split; [reflexivity|]).
      * eapply (launchAccounts_trans _ _ _ 1 (List.length rest)
                  _ _ _ _ evs 0 0 (a' - a) (s' - s));
          [|exact Hacc].
        apply launchAccounts_dropped;
          [cbn; rewrite <- ?app_assoc; reflexivity | reflexivity..].
      * replace (a' - a) with (1 + (a' - (a + 1))) by lia.
        eapply (launchAccounts_trans _ _ _ 1 (List.length rest)
                  _ _ _ _ evs 1 0 (a' - (a + 1)) (s' - s));
          [|exact Hacc].
        eapply (launchAccounts_started _ _ _ _ _
                  [Db (GetUserByUsername username)]);
          [cbn; rewrite <- ?app_assoc; reflexivity | try reflexivity..];
          exact Hfree.
Qed.

(** The books of the launch loop of /top20_analyze; the users skipped
    are those with a fresh cached result, and they get no
    notification. *)
Lemma top20Launch_accounts (chatID : Z) (users : list UserModel) :
  forall (analysisCount skippedCount : Z) (w : World float64),
  exists analysisCount' skippedCount' w' evs,
    top20Launch chatID users analysisCount skippedCount w
    = (Done (analysisCount', skippedCount'), w')
    /\ launchAccounts GoProcessAnalysisTask chatID (100 * Millisecond)
         (List.length users) w w' evs
         (analysisCount' - analysisCount) (skippedCount' - skippedCount)
    /\ List.filter isCachedNotification evs = []
    /\ skippedCount' - skippedCount
       = Z.of_nat
           (List.length
              (List.filter
                 (fun user => bool_decide (user_ID user ∈ db_fresh (dbService w)))
                 users)).
Proof using Type.
  induction users as [|user rest IH]; intros a s w.
  - exists a, s, w, []. split; [reflexivity|].
    rewrite !Z.sub_diag. split; [apply launchAccounts_nil|]. split; reflexivity.
  - cbn [top20Launch]. unfold_batch. cbn -[List.filter].
    cbn [List.filter].
    destruct (bool_decide (user_ID user ∈ db_fresh (dbService w))) eqn:Hf; cbn.
    + destruct (IH a (s + 1) (emit (Db (HasValidCachedAnalysis (user_ID user))) w))
        as (a' & s' & w' & evs & Hrun & Hacc & Hnone & Hsk).
      rewrite Hrun. cbn [dbService emit] in Hsk.
      eexists; eexists; eexists; eexists; (split; [reflexivity|]).
      replace (s' - s) with (1 + (s' - (s + 1))) by lia.
      split; [|split].
      * eapply (launchAccounts_trans _ _ _ 1 (List.length rest)
                  _ _ _ _ evs 0 1 (a' - a) (s' - (s + 1)));
          [|exact Hacc].
        apply launchAccounts_skip;
          [cbn; rewrite <- ?app_assoc; reflexivity | reflexivity.. | cbn; lia].
      * rewrite List.filter_app, Hnone. reflexivity.
      * rewrite Hsk. lia.
    + destruct (db_tasks (dbService w)
                  !! hexEncode (eightBytes (entropy w (draws w)))) eqn:Hfree;
        cbn.
      * match goal with
        | |- context [top20Launch chatID rest ?A ?S ?W] =>
            destruct (IH A S W)
              as (a' & s' & w' & evs & Hrun & Hacc & Hnone & Hsk)
        end.
        rewrite Hrun. cbn in Hsk.
        eexists; eexists; eexists; eexists; (split; [reflexivity|]).
        split; [|split].
        -- eapply (launchAccounts_trans _ _ _ 1 (List.length rest)
                     _ _ _ _ evs 0 0 (a' - a) (s' - s));
             [|exact Hacc].
           apply launchAccounts_dropped;
             [cbn; rewrite <- ?app_assoc; reflexivity | reflexivity..].
        -- rewrite List.filter_app, Hnone. reflexivity.
        -- exact Hsk.
      * match goal with
        | |- context [top20Launch chatID rest ?A ?S ?W] =>
            destruct (IH A S W)
              as (a' & s' & w' & evs & Hrun & Hacc & Hnone & Hsk)
        end.
        rewrite Hrun. cbn in Hsk.
        eexists; eexists; eexists; eexists; (split; [reflexivity|]).
        replace (a' - a) with (1 + (a' - (a + 1))) by lia.
        split; [|split].
        -- eapply (launchAccounts_trans _ _ _ 1 (List.length rest)
                     _ _ _ _ evs 1 0 (a' - (a + 1)) (s' - s));
             [|exact Hacc].
           eapply (launchAccounts_started _ _ _ _ _
                     [Db (HasValidCachedAnalysis (user_ID user))]);
             [cbn; rewrite <- ?app_assoc; reflexivity | try reflexivity..];
             exact Hfree.
        -- rewrite List.filter_app, Hnone. reflexivity.
        -- exact Hsk.
Qed.

(** X21. /batch_analyze always returns. Either it sends one message and
    does nothing else (usage, no valid username, more than 20), which
    is what happens when no entry is valid; or it sends the
    confirmation, runs the launch loop over the 1 to 20 valid usernames
    and sends the summary, and then the numbers of the summary are
    those of the books of the loop: "Started" is the number of runners
    started, each for a pending task record the loop created for this
    chat, and of 150 ms pauses; started and skipped together are at
    most the number of usernames; the loop starts no monitor and sends
    nothing on the channel. *)
Theorem handleBatchAnalyzeCommand_books
    (chatID : Z) (args : list string) (w : World float64) :
  exists w',
    handleBatchAnalyzeCommand chatID args w = (Done tt, w')
    /\ ((exists text, w' = next_request (emit (SendMessageCall chatID text) w))
        \/ exists valid invalid started skipped evs w2,
            parseUsernames args = (valid, invalid)
            /\ (1 <= List.length valid <= 20)%nat
            /\ launchAccounts (fun taskID => GoProcessBatchAnalysisTask taskID chatID)
                 chatID (150 * Millisecond) (List.length valid)
                 (next_request
                    (emit (SendMessageCall chatID (batchConfirmation valid invalid)) w))
                 w2 evs started skipped
            /\ w' = next_request
                      (emit (SendMessageCall chatID
                               (batchSummary started skipped
                                  (Z.of_nat (List.length valid)))) w2))
    /\ (fst (parseUsernames args) = [] ->
        exists text, w' = next_request (emit (SendMessageCall chatID text) w)).
Proof using Type.
  unfold handleBatchAnalyzeCommand.
  destruct args as [|arg0 rest].
  { eexists. split; [reflexivity|]. split; [left|intros _]; eexists; reflexivity. }
  destruct (String.eqb (TrimSpace arg0) "").
  { eexists. split; [reflexivity|]. split; [left|intros _]; eexists; reflexivity. }
  destruct (parseUsernames (arg0 :: rest)) as [valid invalid]. cbn [fst].
  destruct (Nat.eqb_spec (List.length valid) 0) as [Hz|Hnz].
  { eexists. split; [reflexivity|]. split; [left|intros _]; eexists; reflexivity. }
  destruct (Nat.ltb_spec 20 (List.length valid)) as [Hbig|Hsmall].
  { eexists. split; [reflexivity|]. split; [left|intros _]; eexists; reflexivity. }
  unfold bind at 1. unfold SendMessage at 1. unfold bind at 1.
  match goal with
  | |- context [batchLaunch chatID valid 0 0 ?W] =>
      destruct (batchLaunch_accounts chatID valid 0 0 W)
        as (a' & s' & w2 & evs & Hrun & Hacc);
      rewrite Hrun
  end.
  rewrite !Z.sub_0_r in Hacc.
  eexists. split; [reflexivity|]. split.
  - right. exists valid, invalid, a', s', evs, w2.
    split; [reflexivity|]. split; [lia|]. split; [exact Hacc | reflexivity].
  - intros ->. cbn in Hnz. lia.
Qed.

(** X22. /top20_analyze always returns. On an error of the ranking query
    and on an empty ranking it sends one message and does nothing else.
    Otherwise it sends the confirmation with the number of users, runs
    the launch loop and sends the summary with the numbers of the books
    of the loop: one runner [processAnalysisTask] and one 100 ms pause
    for each task record created. The users counted as skipped are
    exactly those with a fresh cached result, as many as the ranking
    holds of them; unlike in a batch, they are sent no notification. *)
Theorem handleTop20AnalyzeCommand_books
    (topUsers : string + list UserModel) (chatID : Z) (w : World float64) :
  exists w',
    handleTop20AnalyzeCommand topUsers chatID w = (Done tt, w')
    /\ match topUsers with
       | inl err =>
           w' = next_request
                  (emit (SendMessageCall chatID
                           (lit "❌ Error retrieving top users: " +:+ err)) w)
       | inr [] =>
           w' = next_request
                  (emit (SendMessageCall chatID (lit "📭 No users found in database")) w)
       | inr users =>
           exists started skipped evs w2,
             launchAccounts GoProcessAnalysisTask chatID (100 * Millisecond)
               (List.length users)
               (next_request
                  (emit (SendMessageCall chatID
                           (lit "🔄 <b>Starting Top 20 Analysis</b>\n\n📊 Found "
                            +:+ itoa (Z.of_nat (List.length users))
                            +:+ lit " users to analyze\n⏳ This will take several minutes...\n\n💡 Use /tasks to monitor progress"))
                     w))
               w2 evs started skipped
             /\ skipped
                = Z.of_nat
                    (List.length
                       (List.filter
                          (fun user =>
                             bool_decide (user_ID user ∈ db_fresh (dbService w)))
                          users))
             /\ List.filter isCachedNotification evs = []
             /\ w' = next_request
                       (emit (SendMessageCall chatID
                                (top20Summary started skipped
                                   (Z.of_nat (List.length users)))) w2)
       end.
Proof using Type.
  unfold handleTop20AnalyzeCommand.
  destruct topUsers as [err|[|user rest]].
  - eexists. split; reflexivity.
  - eexists. split; reflexivity.
  - unfold bind at 1. unfold SendMessage at 1. unfold bind at 1.
    match goal with
    | |- context [top20Launch chatID ?l 0 0 ?W] =>
        destruct (top20Launch_accounts chatID l 0 0 W)
          as (a' & s' & w2 & evs & Hrun & Hacc & Hnone & Hsk);
        rewrite Hrun
    end.
    repeat rewrite Z.sub_0_r in Hacc. repeat rewrite Z.sub_0_r in Hsk.
    cbn [dbService emit next_request] in Hsk.
    eexists. split; [reflexivity|].
    exists a', s', evs, w2.
    split; [exact Hacc|]. split; [exact Hsk|]. split; [exact Hnone | reflexivity].
Qed.

(** ** The usernames of /batch_analyze *)

Lemma countByte_revOnto (c : ascii) (s : string) :
  forall acc, countByte c (revOnto s acc) = (countByte c s + countByte c acc)%nat.
Proof using Type.
  induction s as [|a s IH]; intros acc; [reflexivity|].
  cbn [revOnto countByte]. rewrite IH. cbn [countByte]. lia.
Qed.

Lemma dropSpaces_step (back : bool) (a : ascii) (t : string) :
  dropSpaces back (String a t)
  = if asciiSpace a then dropSpaces back t
    else
      match t with
      | EmptyString => String a t
      | String b u =>
          if (if back then isSpace2 (byte b) (byte a)
              else isSpace2 (byte a) (byte b))
          then dropSpaces back u
          else
            match u with
            | EmptyString => String a t
            | String d v =>
                if (if back then isSpace3 (byte d) (byte b) (byte a)
                    else isSpace3 (byte a) (byte b) (byte d))
                then dropSpaces back v
                else String a t
            end
      end.
Proof using Type. reflexivity. Qed.

Lemma countByte_dropSpaces (c : ascii) (back : bool) (n : nat) :
  forall s, (String.length s <= n)%nat ->
            (countByte c (dropSpaces back s) <= countByte c s)%nat.
Proof using Type.
  induction n as [|n IH]; intros s Hn.
  - destruct s; [reflexivity | cbn in Hn; lia].
  - destruct s as [|a t]; [reflexivity|]. rewrite dropSpaces_step.
    cbn [String.length] in Hn.
    assert (Ht : (countByte c (dropSpaces back t) <= countByte c (String a t))%nat).
    { etransitivity; [apply IH; lia|]. cbn [countByte]. lia. }
    destruct (asciiSpace a); [exact Ht|].
    destruct t as [|b u]; [reflexivity|]. cbn [String.length] in Hn.
    assert (Hu : (countByte c (dropSpaces back u)
                  <= countByte c (String a (String b u)))%nat).
    { etransitivity; [apply IH; lia|]. cbn [countByte]. lia. }
    destruct (if back then isSpace2 (byte b) (byte a)
              else isSpace2 (byte a) (byte b)); [exact Hu|].
    destruct u as [|d v]; [reflexivity|]. cbn [String.length] in Hn.
    destruct (if back then isSpace3 (byte d) (byte b) (byte a)
              else isSpace3 (byte a) (byte b) (byte d)); [|reflexivity].
    etransitivity; [apply IH; lia|]. cbn [countByte]. lia.
Qed.

Lemma countByte_TrimSpace (c : ascii) (s : string) :
  (countByte c (TrimSpace s) <= countByte c s)%nat.
Proof using Type.
  unfold TrimSpace, reverse. rewrite countByte_revOnto. cbn [countByte].
  etransitivity; [rewrite Nat.add_0_r; eapply countByte_dropSpaces; reflexivity|].
  rewrite countByte_revOnto. cbn [countByte]. rewrite Nat.add_0_r.
  eapply countByte_dropSpaces; reflexivity.
Qed.

Lemma countByte_cutPrefix (c : ascii) (p : string) :
  forall s t, cutPrefix p s = Some t -> (countByte c t <= countByte c s)%nat.
Proof using Type.
  induction p as [|a p IH]; intros s t H; cbn in H.
  - injection H as <-. reflexivity.
  - destruct s as [|b s]; [discriminate|].
    destruct (Ascii.eqb a b); [|discriminate].
    apply IH in H. cbn. lia.
Qed.

Lemma countByte_cleanName (c : ascii) (raw : string) :
  (countByte c (cleanName raw) <= countByte c raw)%nat.
Proof using Type.
  unfold cleanName, TrimPrefix.
  destruct (cutPrefix "@" (TrimSpace raw)) as [t|] eqn:H.
  - apply (countByte_cutPrefix c) in H.
    etransitivity; [exact H | apply countByte_TrimSpace].
  - apply countByte_TrimSpace.
Qed.

Lemma Split_parts (c : ascii) (s : string) :
  Forall (fun p => countByte c p = 0%nat) (Split s (String c EmptyString)).
Proof using Type.
  unfold Split. induction s as [|a s IH]; [repeat constructor|].
  cbn [splitFrom]. unfold HasPrefix; cbn [cutPrefix].
  destruct (Ascii.eqb_spec c a) as [->|Hne]; cbn [String.length Nat.sub].
  - constructor; [reflexivity | exact IH].
  - destruct (splitFrom (String c EmptyString) 0 s) as [|h r].
    + repeat constructor. cbn. destruct (Ascii.eqb_spec a c); [congruence|].
      reflexivity.
    + inversion IH as [|? ? Hh Hr]; subst. constructor; [|exact Hr].
      cbn. destruct (Ascii.eqb_spec a c); [congruence | exact Hh].
Qed.

Lemma cleanUsernames_sorts (usernames : list string) :
  forall valid invalid : list string,
    Forall (fun u => acceptedName u = true) valid ->
    Forall (fun u => u <> ""%string /\ acceptedName u = false) invalid ->
    let result := cleanUsernames usernames valid invalid in
    Forall (fun u => acceptedName u = true) (fst result)
    /\ Forall (fun u => u <> ""%string /\ acceptedName u = false) (snd result)
    /\ (List.length (fst result) + List.length (snd result)
        <= List.length valid + List.length invalid + List.length usernames)%nat
    /\ forall u, In u (fst result) \/ In u (snd result) ->
                 In u valid \/ In u invalid \/ In u (map cleanName usernames).
Proof using Type.
  forget_library.
  induction usernames as [|raw rest IH]; intros valid invalid Hv Hi.
  - cbn. repeat split; try assumption; try lia. tauto.
  - cbn [cleanUsernames]. fold (cleanName raw).
    destruct (String.eqb_spec (cleanName raw) "") as [He|He].
    + destruct (IH valid invalid Hv Hi) as (I1 & I2 & I3 & I4).
      repeat split; try assumption; [cbn [List.length]; lia|].
      intros u Hu. destruct (I4 u Hu) as [H|[H|H]]; auto. right. right. now right.
    + destruct ((50 <? len (cleanName raw)) || Contains (cleanName raw) " ")
        eqn:Hbad.
      * destruct (IH valid (invalid ++ [cleanName raw])) as (I1 & I2 & I3 & I4).
        { exact Hv. }
        { apply Forall_app. split; [exact Hi|]. repeat constructor; [exact He|].
          unfold acceptedName. rewrite Hbad. apply andb_false_r. }
        repeat split; try assumption.
        -- rewrite length_app in I3. cbn [List.length] in *. lia.
        -- intros u Hu. destruct (I4 u Hu) as [H|[H|H]]; auto.
           ++ apply in_app_iff in H as [H|[<-|[]]]; auto. right. right. now left.
           ++ right. right. now right.
      * destruct (IH (valid ++ [cleanName raw]) invalid) as (I1 & I2 & I3 & I4).
        { apply Forall_app. split; [exact Hv|]. repeat constructor.
          unfold acceptedName. rewrite Hbad.
          destruct (String.eqb_spec (cleanName raw) ""); [contradiction|].
          reflexivity. }
        { exact Hi. }
        repeat split; try assumption.
        -- rewrite length_app in I3. cbn [List.length] in *. lia.
        -- intros u Hu. destruct (I4 u Hu) as [H|[H|H]]; auto.
           ++ apply in_app_iff in H as [H|[<-|[]]]; auto. right. right. now left.
           ++ right. right. now right.
Qed.

(** X23. What /batch_analyze makes of its arguments: every username it
    accepts is 1 to 50 bytes long and holds neither a space nor a
    comma; every entry it reports as invalid is not empty and is longer
    than 50 bytes or holds a space; accepted and invalid entries
    together are at most one more than the commas typed. *)
Theorem parseUsernames_sorts (args : list string) :
  let valid := fst (parseUsernames args) in
  let invalid := snd (parseUsernames args) in
  (forall u, In u valid ->
     u <> ""%string /\ len u <= 50 /\ Contains u " " = false
     /\ countByte "," u = 0%nat)
  /\ (forall u, In u invalid ->
        u <> ""%string /\ (50 < len u \/ Contains u " " = true)
        /\ countByte "," u = 0%nat)
  /\ (List.length valid + List.length invalid
      <= S (countByte "," (Join args " ")))%nat.
Proof using Type.
  intros valid invalid. subst valid invalid. unfold parseUsernames.
  destruct (cleanUsernames_sorts (Split (Join args " ") ",") [] [])
    as (Hv & Hi & Hn & Hfrom); [constructor..|].
  assert (Hcomma : forall u,
    In u (fst (cleanUsernames (Split (Join args " ") ",") [] []))
    \/ In u (snd (cleanUsernames (Split (Join args " ") ",") [] [])) ->
    countByte "," u = 0%nat).
  { intros u Hu. destruct (Hfrom u Hu) as [[]|[[]|H]].
    apply in_map_iff in H as (raw & <- & Hraw).
    pose proof (Split_parts "," (Join args " ")) as Hp.
    rewrite List.Forall_forall in Hp. apply Hp in Hraw.
    pose proof (countByte_cleanName "," raw). lia. }
  split; [|split].
  - intros u Hu. rewrite List.Forall_forall in Hv. pose proof (Hv u Hu) as Ha.
    unfold acceptedName in Ha. apply andb_prop in Ha as [H1 H2].
    apply negb_true_iff in H1, H2. apply orb_false_elim in H2 as [H2 H3].
    split; [now apply String.eqb_neq|]. split; [apply Z.ltb_ge; exact H2|].
    split; [exact H3 | apply Hcomma; now left].
  - intros u Hu. rewrite List.Forall_forall in Hi.
    destruct (Hi u Hu) as [Hne Ha]. split; [exact Hne|].
    split; [|apply Hcomma; now right].
    unfold acceptedName in Ha.
    destruct (String.eqb_spec u ""); [contradiction|]. cbn in Ha.
    apply negb_false_iff, orb_prop in Ha as [H|H]; [left | now right].
    now apply Z.ltb_lt.
  - cbn [List.length Nat.add] in Hn.
    now rewrite Split_byte_length in Hn.
Qed.

(** ** The progress monitor *)

(** X24. A tick of the monitor only reads: the store, the channel and the
    clock are as before. With the task on record it makes exactly one
    request, an edit of the task's progress message in the task's chat
    with the view of the task at the current time. Whether the monitor
    goes on depends on the task record alone: an edit that fails does
    not stop it. *)
Theorem monitorTick_reads_only (taskID : string) (w : World float64) :
  let w' := snd (monitorTick sprintfSeconds sprintfMinutes taskID w) in
  dbService w' = dbService w
  /\ analysisChannel w' = analysisChannel w
  /\ clock w' = clock w
  /\ (forall task,
        db_tasks (dbService w) !! taskID = Some task ->
        trace w'
        = trace w ++ [Db (GetAnalysisTask taskID);
                      EditMessageCall (task_TelegramChatID task) (task_MessageID task)
                        (formatAnalysisProgress sprintfSeconds sprintfMinutes
                           (clock w) task)]
        /\ requests w' = S (requests w))
  /\ (forall w2 : World float64,
        db_tasks (dbService w2) !! taskID = db_tasks (dbService w) !! taskID ->
        fst (monitorTick sprintfSeconds sprintfMinutes taskID w2)
        = fst (monitorTick sprintfSeconds sprintfMinutes taskID w)).
Proof using Type.
  unfold_tick. cbn.
  destruct (db_tasks (dbService w) !! taskID) as [task|] eqn:Ht; cbn.
  - destruct (isTerminal (task_Status task)) eqn:Hterm; cbn.
    all: repeat (split; [reflexivity|]).
    all: split; [intros t [= <-]; rewrite <- app_assoc; split; reflexivity|].
    all: intros w2 ->; cbn; now rewrite Hterm.
  - repeat (split; [reflexivity|]).
    split; [intros t H; discriminate H|].
    intros w2 ->. reflexivity.
Qed.

(** X25. The monitor has no time limit of its own. As long as the rest
    of the system keeps the task on record in a status that is not
    terminal, the monitor is still polling after any number of ticks,
    and it has made one request to Telegram per tick. *)
Theorem monitor_polls_while_running
    (between : nat -> World float64 -> World float64) (taskID : string) :
  (forall n w, stillRunning taskID w -> stillRunning taskID (between n w)) ->
  (forall n w, requests (between n w) = requests w) ->
  forall ticks n (w : World float64),
    stillRunning taskID w ->
    exists w',
      monitorLoop sprintfSeconds sprintfMinutes between taskID ticks n w
      = (Done Polling, w')
      /\ stillRunning taskID w'
      /\ requests w' = (requests w + ticks)%nat.
Proof using Type.
  intros Hkeep Hreq. induction ticks as [|ticks IH]; intros n w Hw.
  - exists w. cbn. repeat split; [exact Hw | lia].
  - cbn [monitorLoop].
    pose proof (Hkeep n w Hw) as (task & Ht & Hterm).
    assert (Htick : exists w1,
      monitorTick sprintfSeconds sprintfMinutes taskID (between n w) = (Done true, w1)
      /\ dbService w1 = dbService (between n w)
      /\ requests w1 = S (requests (between n w))).
    { unfold_tick. cbn. rewrite Ht. cbn. rewrite Hterm.
      eexists. split; [reflexivity|]. split; reflexivity. }
    destruct Htick as (w1 & -> & Hdb & Hrq).
    destruct (IH (S n) w1) as (w' & Hrun & Hstill & Hrq').
    { exists task. now rewrite Hdb. }
    exists w'. split; [exact Hrun|]. split; [exact Hstill|].
    rewrite Hrq', Hrq, Hreq. lia.
Qed.

End Properties.

(* ================================================================== *)
(** * The properties on the concrete bot *)
(* ================================================================== *)

(** ** The string functions and the command switch on examples *)

Example Split_examples :
  Split "/history_john_doe" "_" = ["/history"; "john"; "doe"]
  /\ Split "/history_alice" "_" = ["/history"; "alice"]
  /\ Split "a,,b," "," = ["a"; ""; "b"; ""]
  /\ Split "" "," = [""]
  /\ Split "a, b, c" ", " = ["a"; "b"; "c"].
Proof. vm_compute. repeat split. Qed.

Example TrimSpace_examples :
  TrimSpace (lit "  alice \n") = "alice"%string
  /\ TrimSpace (lit " a b\n\n") = "a b"%string
  /\ TrimSpace (String (ascii_of_nat 194) (String (ascii_of_nat 160) "x")) = "x"%string
  /\ TrimSpace "   " = ""%string
  /\ TrimPrefix "@@bob" "@" = "@bob"%string
  /\ Fields (lit "/batch_analyze  alice,\nbob ") = ["/batch_analyze"; "alice,"; "bob"].
Proof. vm_compute. repeat split. Qed.

Example dispatchCommand_examples :
  dispatchCommand (float64:=Z) 7 "/history_john_doe"
  = Some (GoHandleHistoryCommand 7 "/history_john_doe")
  /\ dispatchCommand (float64:=Z) 7 " /batch_analyze alice, alice, bob "
     = Some (GoHandleBatchAnalyzeCommand 7 ["alice,"; "alice,"; "bob"])
  /\ dispatchCommand (float64:=Z) 7 "/ticker_history_bob"
     = Some (GoHandleTickerHistoryCommand 7 "/ticker_history_bob")
  /\ dispatchCommand (float64:=Z) 7 "hello" = Some (GoHandleHelpCommand 7)
  /\ dispatchCommand (float64:=Z) 7 "   " = None.
Proof. vm_compute. repeat split. Qed.

(** ** truncateText *)

(** The bound holds at 10 on a 19 byte text, and fails at 2 on a 5
    byte text. *)
Lemma truncateText_spec_witness :
  truncateText "hello, telegram bot" 10 = Done "hello, ..."%string
  /\ exists v, truncateText "hello" 2 = Panic v.
Proof.
  split.
  - destruct (truncateText_spec "hello, telegram bot" 10) as [H _];
      [unfold is_int64, MinInt64, MaxInt64; lia
      | unfold len, MaxInt64; cbn; lia |].
    destruct (H ltac:(lia)) as [_ H2].
    destruct (H2 ltac:(unfold len; cbn; lia)) as (r & Hr & Hv & _).
    rewrite Hr, Hv. reflexivity.
  - destruct (truncateText_spec "hello" 2) as [_ H];
      [unfold is_int64, MinInt64, MaxInt64; lia
      | unfold len, MaxInt64; cbn; lia |].
    apply H; [lia | unfold len; cbn; lia].
Defined.

(** ** The two runners on a full channel *)

(** C1, at a full channel. The runner of /analyze gives the work item
    up and returns with the task [failed]; the runner of /batch_analyze
    parks on its send, with nothing added to the channel and the task in
    a state that is not terminal: its enqueue waits for the worker to
    make room. *)
Lemma batch_runner_parks_on_full_channel :
  chan_full (analysisChannel pendingCarol) = true
  /\ fst (processAnalysisTask demoTime "t1" pendingCarol) = Done tt
  /\ task_Status
       <$> db_tasks (dbService (snd (processAnalysisTask demoTime "t1" pendingCarol)))
           !! "t1"
     = Some ANALYSIS_STATUS_FAILED
  /\ fst (processBatchAnalysisTask demoTime "t1" 7 pendingCarol) = Blocked
  /\ chan_buf (analysisChannel (snd (processBatchAnalysisTask demoTime "t1" 7
                                       pendingCarol))) = []
  /\ (fun t => isTerminal (task_Status t))
       <$> db_tasks (dbService (snd (processBatchAnalysisTask demoTime "t1" 7
                                       pendingCarol)))
           !! "t1"
     = Some false.
Proof. vm_compute. repeat split. Qed.

Lemma processAnalysisTask_queue_full_witness :
  exists w',
    processAnalysisTask demoTime "t1" pendingCarol = (Done tt, w')
    /\ task_Status <$> db_tasks (dbService w') !! "t1" = Some ANALYSIS_STATUS_FAILED
    /\ task_ErrorMessage <$> db_tasks (dbService w') !! "t1"
       = Some queueFullMessage.
Proof.
  destruct (processAnalysisTask_queue_full demoTime "t1" pendingCarol
              (demoTask "t1" "carol" ANALYSIS_STATUS_PENDING))
    as (w' & Hrun & _ & t' & evs & Ht & Hs & Hm & _);
    [reflexivity | reflexivity | reflexivity |].
  exists w'. split; [exact Hrun|]. rewrite Ht. cbn. rewrite Hs, Hm. split; reflexivity.
Defined.

(** C3, at an admission of a batch. /batch_analyze carol on a full
    channel: the handler returns, having created the task record and
    started the runner [processBatchAnalysisTask] for it. The runner
    parks on its send. The task record is then [running], not [failed],
    its error message is empty, no call of [SetAnalysisTaskError] was
    made and nothing is on the channel. The runner of /analyze on the
    same record and the same channel returns with the record [failed]
    and the message of the full channel. *)
Lemma batch_admission_on_full_channel_is_not_failed :
  chan_full (analysisChannel (demoWorld ∅ fullChan)) = true
  /\ fst (handleBatchAnalyzeCommand 7 ["carol"] (demoWorld ∅ fullChan)) = Done tt
  /\ List.filter isGo (trace admittedCarol)
     = [Go (GoProcessBatchAnalysisTask "0073656564736565" 7)]
  /\ (fun t => (task_Username t, task_Status t))
       <$> db_tasks (dbService admittedCarol) !! "0073656564736565"
     = Some ("carol"%string, ANALYSIS_STATUS_PENDING)
  /\ chan_full (analysisChannel admittedCarol) = true
  /\ fst (processBatchAnalysisTask demoTime "0073656564736565" 7 admittedCarol)
     = Blocked
  /\ task_Status <$> db_tasks (dbService parkedCarol) !! "0073656564736565"
     = Some ANALYSIS_STATUS_RUNNING
  /\ task_ErrorMessage <$> db_tasks (dbService parkedCarol) !! "0073656564736565"
     = Some ""%string
  /\ List.filter recordsError (trace parkedCarol) = []
  /\ chan_buf (analysisChannel parkedCarol) = []
  /\ fst (processAnalysisTask demoTime "0073656564736565" admittedCarol) = Done tt
  /\ (fun t => (task_Status t, task_ErrorMessage t))
       <$> db_tasks (dbService (snd (processAnalysisTask demoTime "0073656564736565"
                                       admittedCarol)))
           !! "0073656564736565"
     = Some (ANALYSIS_STATUS_FAILED, queueFullMessage).
Proof. vm_compute. repeat split. Qed.

(** ** A panic in a runner *)

Lemma runners_recover_panics_witness :
  exists w2 t,
    processBatchAnalysisTask demoTime "t1" 7 closedCarol = (Done tt, w2)
    /\ db_tasks (dbService w2) !! "t1" = Some t
    /\ task_Status t = ANALYSIS_STATUS_FAILED
    /\ task_ErrorMessage t = "Internal error: send on closed channel"%string.
Proof.
  destruct (runners_recover_panics (float64:=Z) demoTime "t1" 7)
    as (_ & _ & _ & _ & Hbatch).
  assert (Ho : fst (processBatchAnalysisTaskBody demoTime "t1" 7 closedCarol)
               = Panic "send on closed channel") by (vm_compute; reflexivity).
  destruct (processBatchAnalysisTaskBody demoTime "t1" 7 closedCarol)
    as [o w1] eqn:Hb.
  cbn [fst] in Ho. subst o.
  destruct (Hbatch closedCarol w1 _ Hb) as (w2 & t & Hrun & Ht & Hs & Hm).
  exists w2, t. repeat split; assumption.
Defined.

(** ** Resolution of the username *)

Lemma runners_username_resolution_witness :
  (exists w' m,
      processAnalysisTask demoTime "t1" roomyCarol = (Done tt, w')
      /\ analysisChannel w' = chan_push m roomyChan
      /\ author_ID (msg_Author m) = "unknown_carol"%string)
  /\ (exists t',
         db_tasks (dbService (snd (processBatchAnalysisTask demoTime "t2" 7 roomyBob)))
           !! "t2" = Some t'
         /\ task_UserID t' = "1002"%string).
Proof.
  split.
  - destruct (runners_username_resolution demoTime "t1" 7 roomyCarol
                (demoTask "t1" "carol" ANALYSIS_STATUS_PENDING) eq_refl eq_refl)
      as [Hunknown _].
    destruct (Hunknown eq_refl eq_refl eq_refl)
      as [(w' & m & Hrun & Hch & _ & Hid & _) _].
    exists w', m. repeat split; [exact Hrun | exact Hch | exact (Hid eq_refl)].
  - destruct (runners_username_resolution demoTime "t2" 7 roomyBob
                (demoTask "t2" "bob" ANALYSIS_STATUS_PENDING) eq_refl eq_refl)
      as [_ Hknown].
    destruct (Hknown bob eq_refl) as [_ (_ & t' & Ht & Hid)].
    exists t'. split; [exact Ht | exact Hid].
Defined.

(** ** /history with an underscore in the username *)

Lemma handleHistoryCommand_underscore_username_witness :
  trace (snd (handleHistoryCommand demoTime 7 "/history_john_doe" (demoWorld ∅ roomyChan)))
  = [SendMessageCall 7 historyInvalidFormat].
Proof.
  destruct (handleHistoryCommand_underscore_username demoTime 7 "john_doe"
              (demoWorld ∅ roomyChan) eq_refl) as [Hrun _].
  change ("/history_" +:+ "john_doe") with "/history_john_doe"%string in Hrun.
  rewrite Hrun. reflexivity.
Defined.

(** ** /batch_analyze *)

Lemma handleBatchAnalyzeCommand_over_limit_witness :
  exists text w',
    handleBatchAnalyzeCommand 7 [twentyOne] (demoWorld ∅ roomyChan) = (Done tt, w')
    /\ trace w' = [SendMessageCall 7 text]
    /\ dbService w' = demoDb ∅.
Proof.
  destruct (handleBatchAnalyzeCommand_over_limit 7 [twentyOne] (demoWorld ∅ roomyChan))
    as (text & w' & Hrun & Htr & Hdb & _).
  - vm_compute. lia.
  - exists text, w'. repeat split; assumption.
Defined.

Lemma batchLaunch_cached_user_witness :
  exists w1,
    batchLaunch 7 ["alice"; "bob"] 0 0 (demoWorld ∅ roomyChan)
    = batchLaunch 7 ["bob"] 0 1 w1
    /\ trace w1
       = [Db (GetUserByUsername "alice"); Db (HasValidCachedAnalysis "1001");
          Db (GetCachedAnalysis "1001");
          Go (GoSendCachedBatchNotification "alice" "1001" aliceResult 7)]
    /\ dbService w1 = demoDb ∅.
Proof.
  destruct (batchLaunch_cached_user demoPercent 7 "alice" ["bob"] 0 0
              (demoWorld ∅ roomyChan) alice aliceResult)
    as (w1 & Hrun & Htr & Hdb & _).
  - reflexivity.
  - apply elem_of_singleton. reflexivity.
  - reflexivity.
  - exists w1. repeat split; assumption.
Defined.

(** C4, a username listed twice. For the list alice, alice, bob with a
    fresh cached result for alice the handler creates no task for alice
    and starts no runner for her, but it starts two goroutines
    [sendCachedBatchNotification] for the one username alice, one for
    each entry. Each of them makes one sendMessage request, so the chat
    of the request is sent the cached result of alice twice, not exactly
    once. *)
Lemma batch_cached_user_is_notified_per_entry :
  fst (parseUsernames ["alice,alice,bob"]) = ["alice"; "alice"; "bob"]
  /\ fst (handleBatchAnalyzeCommand 7 ["alice,alice,bob"] (demoWorld ∅ roomyChan))
     = Done tt
  /\ (task_Username ∘ snd) <$> map_to_list (db_tasks (dbService twiceAlice))
     = ["bob"]
  /\ List.filter isGo (trace twiceAlice)
     = [Go (GoSendCachedBatchNotification "alice" "1001" aliceResult 7);
        Go (GoSendCachedBatchNotification "alice" "1001" aliceResult 7);
        Go (GoProcessBatchAnalysisTask "0073656564736565" 7)]
  /\ notified (trace twiceAlice) = ["alice"; "alice"]
  /\ List.length (notified (trace twiceAlice)) <> 1%nat
  /\ trace (snd (sendCachedBatchNotification demoPercent "alice" "1001" aliceResult 7
                   (snd (sendCachedBatchNotification demoPercent "alice" "1001"
                           aliceResult 7 twiceAlice))))
     = trace twiceAlice
       ++ [SendMessageCall 7 (cachedBatchMessage demoPercent "alice" aliceResult);
           SendMessageCall 7 (cachedBatchMessage demoPercent "alice" aliceResult)].
Proof. vm_compute. repeat split; discriminate. Qed.



(** ** The progress monitor *)

(** C6, the second exit. With no record under the task ID the first
    tick returns from the monitor: no terminal status was read, none
    could be, and no message was edited. *)
Lemma monitor_returns_without_terminal_status :
  db_tasks (dbService (demoWorld ∅ roomyChan)) !! "t1" = None
  /\ monitorAnalysisProgress demoSeconds demoMinutes (fun _ w => w) "t1" 1
       (demoWorld ∅ roomyChan)
     = (Done Returned, emit (Db (GetAnalysisTask "t1")) (demoWorld ∅ roomyChan)).
Proof. split; reflexivity. Qed.

Lemma monitor_exits_witness :
  exists text,
    monitorAnalysisProgress demoSeconds demoMinutes (fun _ w => w) "t1" 5
      completedCarol
    = (Done Returned,
       next_request (emit (EditMessageCall 7 42 text)
                       (emit (Db (GetAnalysisTask "t1")) completedCarol))).
Proof.
  destruct (monitor_exits (float64:=Z) demoSeconds demoMinutes (fun _ w => w) "t1")
    as (Hterm & Hstop & _).
  destruct (Hterm completedCarol (demoTask "t1" "carol" ANALYSIS_STATUS_COMPLETED)
              eq_refl eq_refl) as [Htick _].
  eexists. apply (Hstop 4%nat O completedCarol). exact Htick.
Defined.

(* ================================================================== *)
(** * The rest of the service on the concrete bot *)
(* ================================================================== *)

(** ** The broadcast *)

(** Two chats, the second send fails: both are tried, one failure is
    reported. *)
Lemma BroadcastMessage_every_chat_witness :
  isRangeOrder demoService [9; 7]
  /\ exists w',
      BroadcastMessage demoService [9; 7] "hello" flakyWorld
      = (Done (Some "failed to send to 1 chats"%string), w')
      /\ trace w' = [SendMessageCall 9 "hello"; SendMessageCall 7 "hello"].
Proof.
  assert (Horder : isRangeOrder demoService [9; 7]).
  { split.
    - repeat constructor; rewrite ?elem_of_cons, ?elem_of_nil; lia.
    - intros c. cbn [chatIDs demoService]. split.
      + intros Hc. apply elem_of_cons in Hc as [->|Hc]; [eexists; reflexivity|].
        apply elem_of_cons in Hc as [->|Hc]; [eexists; reflexivity|].
        inversion Hc.
      + intros [b Hb]. rewrite !elem_of_cons.
        destruct (decide (c = 9)) as [->|H9]; [now left|].
        destruct (decide (c = 7)) as [->|H7]; [right; now left|].
        rewrite !lookup_insert_ne, lookup_empty in Hb by congruence.
        discriminate Hb. }
  split; [exact Horder|].
  destruct (BroadcastMessage_every_chat demoService [9; 7] "hello" flakyWorld Horder)
    as (w' & Hrun & Htr & _).
  exists w'. split; [exact Hrun | exact Htr].
Defined.

(** ** The initial chat IDs *)

Lemma NewTelegramService_decimal_ids_witness :
  exists t : TelegramService string,
    NewTelegramService (fun _ => None) "" (Join (map itoa [7; -1001234567890]) ",")
    = inr t
    /\ chatRegistered t 7 = true
    /\ chatRegistered t (-1001234567890) = true
    /\ chatRegistered t 8 = false.
Proof.
  destruct (NewTelegramService_decimal_ids (FUDAlertNotification:=string)
              (fun _ => None) [7; -1001234567890])
    as (t & Hrun & Hreg).
  - repeat constructor; unfold MinInt64, MaxInt64; lia.
  - exists t. split; [exact Hrun|]. split; [|split].
    + apply Hreg. now left.
    + apply Hreg. right. now left.
    + destruct (chatRegistered t 8) eqn:H8; [|reflexivity].
      apply Hreg in H8. cbn in H8. lia.
Defined.

(** ** /analyze *)

Lemma handleAnalyzeCommand_admits_witness :
  exists w' task,
    handleAnalyzeCommand 7 ["carol"] (demoWorld ∅ roomyChan) = (Done tt, w')
    /\ db_tasks (dbService w') !! task_ID task = Some task
    /\ task_Username task = "carol"%string
    /\ task_Status task = ANALYSIS_STATUS_PENDING
    /\ task_MessageID task = 500.
Proof.
  destruct (handleAnalyzeCommand_admits 7 500 "carol" [] (demoWorld ∅ roomyChan)
              eq_refl eq_refl (lookup_empty _))
    as (w' & task & text & Hrun & Ht & Hid & Hu & Hs & _ & Hm & _).
  exists w', task. rewrite Hid. repeat split; assumption.
Defined.

Lemma analyze_full_queue_shown_witness :
  exists w3 text,
    monitorTick demoSeconds demoMinutes
      (hexEncode (eightBytes (entropy (demoWorld ∅ fullChan) O)))
      (snd (processAnalysisTask demoTime
              (hexEncode (eightBytes (entropy (demoWorld ∅ fullChan) O)))
              (snd (handleAnalyzeCommand 7 ["carol"] (demoWorld ∅ fullChan)))))
    = (Done false, w3)
    /\ last (trace w3) = Some (EditMessageCall 7 500 text).
Proof.
  destruct (analyze_full_queue_shown demoSeconds demoMinutes demoTime 7 500
              "carol" [] (demoWorld ∅ fullChan)
              eq_refl eq_refl (lookup_empty _) eq_refl eq_refl)
    as (w3 & Hrun & Hlast & _).
  exists w3. eexists. split; [exact Hrun | exact Hlast].
Defined.

(** ** The task runners *)

Lemma runners_missing_task_witness :
  processAnalysisTask demoTime "t9" (demoWorld ∅ roomyChan)
  = (Done tt, emit (Db (GetAnalysisTask "t9")) (demoWorld ∅ roomyChan)).
Proof.
  exact (proj1 (runners_missing_task demoTime "t9" 7 (demoWorld ∅ roomyChan)
                  (lookup_empty _))).
Defined.

Lemma runners_enqueue_witness :
  exists w' m,
    processBatchAnalysisTask demoTime "t1" 7 roomyCarol = (Done tt, w')
    /\ chan_buf (analysisChannel w') = [m]
    /\ author_UserName (msg_Author m) = "carol"%string.
Proof.
  destruct (runners_enqueue demoTime "t1" 7 roomyCarol
              (demoTask "t1" "carol" ANALYSIS_STATUS_PENDING)
              eq_refl eq_refl eq_refl)
    as [_ (w' & m & Hrun & Hbuf & (Hname & _) & _)].
  exists w', m. split; [exact Hrun|]. split; [exact Hbuf | exact Hname].
Defined.

Lemma runners_closed_channel_witness :
  exists w' t',
    processAnalysisTask demoTime "t1" closedCarol = (Done tt, w')
    /\ db_tasks (dbService w') !! "t1" = Some t'
    /\ task_Status t' = ANALYSIS_STATUS_FAILED.
Proof.
  destruct (runners_closed_channel demoTime "t1" 7 closedCarol
              (demoTask "t1" "carol" ANALYSIS_STATUS_PENDING) eq_refl eq_refl)
    as [(w' & Hrun & _ & _ & t' & Ht & Hs & _) _].
  exists w', t'. repeat split; assumption.
Defined.

Lemma runners_keep_task_identity_witness :
  exists t',
    db_tasks (dbService (snd (processAnalysisTask demoTime "t1" roomyCarol)))
      !! "t1" = Some t'
    /\ task_TelegramChatID t' = 7
    /\ task_MessageID t' = 42.
Proof.
  destruct (runners_keep_task_identity demoTime "t1" 7 roomyCarol
              (demoTask "t1" "carol" ANALYSIS_STATUS_PENDING) eq_refl)
    as [(t' & Ht & _ & _ & Hchat & Hmsg & _) _].
  exists t'. repeat split; assumption.
Defined.

Lemma processBatchAnalysisTask_parks_when_full_witness :
  exists w',
    processBatchAnalysisTask demoTime "t1" 7 pendingCarol = (Blocked, w')
    /\ analysisChannel w' = fullChan.
Proof.
  destruct (processBatchAnalysisTask_parks_when_full demoTime "t1" 7 pendingCarol
              (demoTask "t1" "carol" ANALYSIS_STATUS_PENDING)
              eq_refl eq_refl eq_refl)
    as (w' & Hrun & Hch & _).
  exists w'. split; [exact Hrun | exact Hch].
Defined.

(** ** The progress monitor *)

Lemma monitor_polls_while_running_witness :
  exists w',
    monitorLoop demoSeconds demoMinutes (fun _ w => w) "t1" 3 O roomyCarol
    = (Done Polling, w')
    /\ requests w' = 3%nat.
Proof.
  destruct (monitor_polls_while_running (float64:=Z) demoSeconds demoMinutes
              (fun _ w => w) "t1"
              (fun _ _ H => H) (fun _ _ => eq_refl) 3 O roomyCarol)
    as (w' & Hrun & _ & Hrq).
  - exists (demoTask "t1" "carol" ANALYSIS_STATUS_PENDING).
    split; reflexivity.
  - exists w'. split; [exact Hrun | exact Hrq].
Defined.
